(** * inventory.py: drops, campaigns and their cached aggregates

    A shallow embedding of [src/inventory.py].  Python objects are mutated in
    place, so every method is a computation over one [World] (the campaign
    object graph plus the log of requests handed to the transport) that
    returns either a value or the exception it raised, together with the
    world as the call left it.  A [functools.cached_property] is an optional
    slot of the instance: reading fills it, [del] empties it and raises
    [AttributeError] on an empty slot.

    A campaign owns its drops in [timed_drops] and every drop points back to
    its campaign, so a drop is named by its key in that dict: a method of the
    drop takes the key as [self], and calling it on a key the dict does not
    have is the caller's [campaign.timed_drops[k]] raising [KeyError]. *)

From Stdlib Require Import ZArith String List Bool Lia Permutation.
From Stdlib Require Import Floats.SpecFloat.
Import ListNotations.

Set Warnings "-register-all".

Local Open Scope string_scope.
Local Open Scope Z_scope.

(** ** Python values *)

Inductive exn : Type :=
| AttributeError
| KeyError
| OverflowError
| TypeError
| ZeroDivisionError.

Inductive result (A : Type) : Type :=
| Ok (a : A)
| Raise (e : exn).

Arguments Ok {A} a.
Arguments Raise {A} e.

(** Python's [float] is IEEE binary64. *)
Definition prec : Z := 53.
Definition emax : Z := 1024.
Definition float : Type := spec_float.

(** The binary64 nearest to the int [n], ties to even; the infinity when [n]
    is past the largest float. *)
Definition float_of_int (n : Z) : float := binary_normalize prec emax n 0 false.

Definition float_one : float := float_of_int 1.

(** The interpreter never makes an infinity out of ints: the conversion and
    the division of ints raise [OverflowError] where rounding overflows. *)
Definition finite_or_overflow (f : float) : result float :=
  match f with
  | S754_infinity _ => Raise OverflowError
  | _ => Ok f
  end.

(** The numeric tower as far as [sum(...)] and [/] use it. *)
Inductive number : Type :=
| PyInt (n : Z)
| PyFloat (f : float).

(** An operand of a float operation: an int is converted first, and one too
    large for a float raises [OverflowError]. *)
Definition to_float (x : number) : result float :=
  match x with
  | PyInt n => finite_or_overflow (float_of_int n)
  | PyFloat f => Ok f
  end.

Definition is_zero (f : float) : bool :=
  match f with
  | S754_zero _ => true
  | _ => false
  end.

(** [x + y]: exact on two ints, the binary64 sum otherwise (which may be
    infinite or not a number, but does not raise). *)
Definition py_add (x y : number) : result number :=
  match x, y with
  | PyInt a, PyInt b => Ok (PyInt (a + b))
  | _, _ =>
      match to_float x with
      | Raise e => Raise e
      | Ok a =>
          match to_float y with
          | Raise e => Raise e
          | Ok b => Ok (PyFloat (SFadd prec emax a b))
          end
      end
  end.

(** An int as the exact operand of an int division: the mantissa is the
    int itself, whatever its size. *)
Definition exact_int (n : Z) : float :=
  match n with
  | Z0 => S754_zero false
  | Zpos p => S754_finite false p 0
  | Zneg p => S754_finite true p 0
  end.

(** [a / b] on two ints: the exact quotient rounded once to binary64 (the
    operands are not converted first), [OverflowError] when it is too large
    for a float, [ZeroDivisionError] on a zero divisor. *)
Definition int_truediv (a b : Z) : result float :=
  if b =? 0 then Raise ZeroDivisionError
  else finite_or_overflow (SFdiv prec emax (exact_int a) (exact_int b)).

(** [x / y]: true division always yields a float.  With a float operand the
    other operand is converted, then a zero divisor raises and any other
    quotient is the binary64 one. *)
Definition py_truediv (x y : number) : result float :=
  match x, y with
  | PyInt a, PyInt b => int_truediv a b
  | _, _ =>
      match to_float x with
      | Raise e => Raise e
      | Ok a =>
          match to_float y with
          | Raise e => Raise e
          | Ok b =>
              if is_zero b then Raise ZeroDivisionError
              else Ok (SFdiv prec emax a b)
          end
      end
  end.

Arguments py_truediv : simpl never.

(** [constants.JsonType]: what [json.loads] returns (numbers kept to
    integers). *)
Inductive JsonType : Type :=
| JNull
| JBool (b : bool)
| JInt (n : Z)
| JStr (s : string)
| JList (l : list JsonType)
| JDict (d : list (string * JsonType)).

(** ** Dictionaries

    A [dict] keeps insertion order; assigning to an existing key keeps the
    key's place. *)

Fixpoint dict_get {V : Type} (m : list (string * V)) (k : string) : option V :=
  match m with
  | [] => None
  | (k', v) :: m' => if String.eqb k' k then Some v else dict_get m' k
  end.

Fixpoint dict_set {V : Type} (m : list (string * V)) (k : string) (v : V)
  : list (string * V) :=
  match m with
  | [] => [(k, v)]
  | (k', v') :: m' =>
      if String.eqb k' k then (k', v) :: m' else (k', v') :: dict_set m' k v
  end.

Definition dict_keys {V : Type} (m : list (string * V)) : list string :=
  map fst m.

(** [bool(x)] *)
Definition truthy (x : JsonType) : bool :=
  match x with
  | JNull => false
  | JBool b => b
  | JInt n => negb (n =? 0)
  | JStr s => negb (String.eqb s "")
  | JList l => match l with [] => false | _ => true end
  | JDict d => match d with [] => false | _ => true end
  end.

Definition is_str (s : string) (x : JsonType) : bool :=
  match x with
  | JStr s' => String.eqb s' s
  | _ => false
  end.

(** [key in x] for a string [key] *)
Definition py_contains (key : string) (x : JsonType) : result bool :=
  match x with
  | JDict d => Ok (match dict_get d key with Some _ => true | None => false end)
  | JList l => Ok (existsb (is_str key) l)
  | JStr s => Ok (match index 0 key s with Some _ => true | None => false end)
  | _ => Raise TypeError
  end.

(** [x[key]] for a string [key] *)
Definition py_getitem (x : JsonType) (key : string) : result JsonType :=
  match x with
  | JDict d => match dict_get d key with Some v => Ok v | None => Raise KeyError end
  | _ => Raise TypeError
  end.

(** ** Game *)

Module Game.

Record t : Type := mk {
  id : Z;
  name : string
}.

(** What the right-hand side of [==] can be. *)
Inductive object : Type :=
| Instance (g : t)
| Other.

End Game.

(** [Game.__eq__]; [None] is [NotImplemented]. *)
Definition Game_eq (self : Game.t) (other : Game.object) : option bool :=
  match other with
  | Game.Instance o => Some (Game.id self =? Game.id o)
  | Game.Other => None
  end.

Section GameHash.

(** The builtin [hash] on a [(str, int)] tuple. *)
Variable hash : string * Z -> Z.

(** [Game.__hash__] *)
Definition Game_hash (self : Game.t) : Z := hash ("Game", Game.id self).

End GameHash.

(** ** The snapshot the constructors read

    The fields [__init__] takes out of the decoded JSON, with the two
    timestamps already parsed by [strptime]. *)

Record DropData : Type := mkDropData {
  data_id : string;
  data_name : string;
  data_benefitEdges : list string;
  data_startAt : Z;
  data_endAt : Z;
  data_dropInstanceID : option string;
  data_isClaimed : bool;
  data_currentMinutesWatched : Z;
  data_requiredMinutesWatched : Z;
  data_preconditionDrops : option (list string)
}.

Record CampaignData : Type := mkCampaignData {
  cdata_id : string;
  cdata_name : string;
  cdata_game : Game.t;
  cdata_startAt : Z;
  cdata_endAt : Z;
  cdata_allow_channels : option (list string);
  cdata_timeBasedDrops : list DropData
}.

(** ** Objects *)

Module TimedDrop.

Record t : Type := mk {
  id : string;
  name : string;
  rewards : list string;
  starts_at : Z;
  ends_at : Z;
  claim_id : option string;
  is_claimed : bool;
  _precondition_drops : list string;
  current_minutes : Z;
  required_minutes : Z;
  (* cached_property slots *)
  preconditions : option bool;
  remaining_minutes : option Z;
  progress : option float
}.

Definition set_claim_id (v : option string) (d : t) : t :=
  mk (id d) (name d) (rewards d) (starts_at d) (ends_at d) v (is_claimed d)
     (_precondition_drops d) (current_minutes d) (required_minutes d)
     (preconditions d) (remaining_minutes d) (progress d).

Definition set_is_claimed (v : bool) (d : t) : t :=
  mk (id d) (name d) (rewards d) (starts_at d) (ends_at d) (claim_id d) v
     (_precondition_drops d) (current_minutes d) (required_minutes d)
     (preconditions d) (remaining_minutes d) (progress d).

Definition set_current_minutes (v : Z) (d : t) : t :=
  mk (id d) (name d) (rewards d) (starts_at d) (ends_at d) (claim_id d)
     (is_claimed d) (_precondition_drops d) v (required_minutes d)
     (preconditions d) (remaining_minutes d) (progress d).

Definition set_preconditions (v : option bool) (d : t) : t :=
  mk (id d) (name d) (rewards d) (starts_at d) (ends_at d) (claim_id d)
     (is_claimed d) (_precondition_drops d) (current_minutes d)
     (required_minutes d) v (remaining_minutes d) (progress d).

Definition set_remaining_minutes (v : option Z) (d : t) : t :=
  mk (id d) (name d) (rewards d) (starts_at d) (ends_at d) (claim_id d)
     (is_claimed d) (_precondition_drops d) (current_minutes d)
     (required_minutes d) (preconditions d) v (progress d).

Definition set_progress (v : option float) (d : t) : t :=
  mk (id d) (name d) (rewards d) (starts_at d) (ends_at d) (claim_id d)
     (is_claimed d) (_precondition_drops d) (current_minutes d)
     (required_minutes d) (preconditions d) (remaining_minutes d) v.

End TimedDrop.

Module DropsCampaign.

Record t : Type := mk {
  id : string;
  name : string;
  game : Game.t;
  starts_at : Z;
  ends_at : Z;
  allowed_channels : list string;
  timed_drops : list (string * TimedDrop.t);
  (* cached_property slots *)
  claimed_drops : option Z;
  remaining_drops : option Z;
  remaining_minutes : option Z;
  progress : option float
}.

Definition set_timed_drops (v : list (string * TimedDrop.t)) (c : t) : t :=
  mk (id c) (name c) (game c) (starts_at c) (ends_at c) (allowed_channels c)
     v (claimed_drops c) (remaining_drops c) (remaining_minutes c) (progress c).

Definition set_claimed_drops (v : option Z) (c : t) : t :=
  mk (id c) (name c) (game c) (starts_at c) (ends_at c) (allowed_channels c)
     (timed_drops c) v (remaining_drops c) (remaining_minutes c) (progress c).

Definition set_remaining_drops (v : option Z) (c : t) : t :=
  mk (id c) (name c) (game c) (starts_at c) (ends_at c) (allowed_channels c)
     (timed_drops c) (claimed_drops c) v (remaining_minutes c) (progress c).

Definition set_remaining_minutes (v : option Z) (c : t) : t :=
  mk (id c) (name c) (game c) (starts_at c) (ends_at c) (allowed_channels c)
     (timed_drops c) (claimed_drops c) (remaining_drops c) v (progress c).

Definition set_progress (v : option float) (c : t) : t :=
  mk (id c) (name c) (game c) (starts_at c) (ends_at c) (allowed_channels c)
     (timed_drops c) (claimed_drops c) (remaining_drops c)
     (remaining_minutes c) v.

End DropsCampaign.

(** ** The world and its computations *)

Record World : Type := mkWorld {
  campaign : DropsCampaign.t;
  (* the [dropInstanceID] of every [gql_request] sent so far, oldest first *)
  requests : list string
}.

Definition M (A : Type) : Type := World -> result A * World.

Definition ret {A : Type} (a : A) : M A := fun w => (Ok a, w).

Definition raise {A : Type} (e : exn) : M A := fun w => (Raise e, w).

Definition bind {A B : Type} (m : M A) (f : A -> M B) : M B :=
  fun w =>
    match m w with
    | (Ok a, w') => f a w'
    | (Raise e, w') => (Raise e, w')
    end.

Definition lift {A : Type} (r : result A) : M A := fun w => (r, w).

Notation "x <- m ;; k" := (bind m (fun x => k))
  (at level 61, m at next level, right associativity).
Notation "m ;; k" := (bind m (fun _ => k))
  (at level 61, right associativity).

Definition get_campaign : M DropsCampaign.t := fun w => (Ok (campaign w), w).

Definition modify_campaign (f : DropsCampaign.t -> DropsCampaign.t) : M unit :=
  fun w => (Ok tt, mkWorld (f (campaign w)) (requests w)).

Definition drops (w : World) : list (string * TimedDrop.t) :=
  DropsCampaign.timed_drops (campaign w).

(** [campaign.timed_drops[k]] *)
Definition get_drop (k : string) : M TimedDrop.t :=
  fun w =>
    match dict_get (drops w) k with
    | Some d => (Ok d, w)
    | None => (Raise KeyError, w)
    end.

(** An attribute assignment on the drop stored under [k]. *)
Definition modify_drop (k : string) (f : TimedDrop.t -> TimedDrop.t) : M unit :=
  d <- get_drop k ;;
  modify_campaign
    (fun c => DropsCampaign.set_timed_drops
                (dict_set (DropsCampaign.timed_drops c) k (f d)) c).

(** [self._twitch.gql_request(...)]: the transport answers [response]. *)
Definition gql_request (claim_id : string) (response : JsonType) : M JsonType :=
  fun w => (Ok response, mkWorld (campaign w) (requests w ++ [claim_id])).

Fixpoint for_each (ks : list string) (body : string -> M unit) : M unit :=
  match ks with
  | [] => ret tt
  | k :: ks' => body k ;; for_each ks' body
  end.

(** [sum(f(x) for x in ks)] over ints, from the accumulator [acc]. *)
Fixpoint sum_int (ks : list string) (f : string -> M Z) (acc : Z) : M Z :=
  match ks with
  | [] => ret acc
  | k :: ks' => v <- f k ;; sum_int ks' f (acc + v)
  end.

(** [sum(f(x) for x in ks)] over floats, as the left-to-right additions
    [((0 + x1) + x2) + ...] starting from the int [0], each of them a plain
    binary64 addition. *)
Fixpoint sum_float (ks : list string) (f : string -> M float) (acc : number)
  : M number :=
  match ks with
  | [] => ret acc
  | k :: ks' =>
      v <- f k ;;
      acc' <- lift (py_add acc (PyFloat v)) ;;
      sum_float ks' f acc'
  end.

(** ** DropsCampaign: time window and invalidation of the minute aggregates *)

(** [DropsCampaign.active], [now] being what [datetime.utcnow()] returns. *)
Definition DropsCampaign_active (now : Z) : M bool :=
  c <- get_campaign ;;
  ret ((DropsCampaign.starts_at c <=? now) && (now <? DropsCampaign.ends_at c)).

Definition DropsCampaign_upcoming (now : Z) : M bool :=
  c <- get_campaign ;;
  ret (now <? DropsCampaign.starts_at c).

Definition DropsCampaign_expired (now : Z) : M bool :=
  c <- get_campaign ;;
  ret (DropsCampaign.ends_at c <=? now).

Definition DropsCampaign_total_drops : M Z :=
  c <- get_campaign ;;
  ret (Z.of_nat (length (DropsCampaign.timed_drops c))).

(** [del self.<slot>] on the campaign. *)
Definition del_campaign {A : Type} (slot : DropsCampaign.t -> option A)
    (clear : DropsCampaign.t -> DropsCampaign.t) : M unit :=
  c <- get_campaign ;;
  match slot c with
  | Some _ => modify_campaign clear
  | None => raise AttributeError
  end.

(** [del self.<slot>] on the drop stored under [self]. *)
Definition del_drop {A : Type} (slot : TimedDrop.t -> option A)
    (clear : TimedDrop.t -> TimedDrop.t) (self : string) : M unit :=
  d <- get_drop self ;;
  match slot d with
  | Some _ => modify_drop self clear
  | None => raise AttributeError
  end.

Definition DropsCampaign__on_minutes_changed : M unit :=
  del_campaign DropsCampaign.progress (DropsCampaign.set_progress None) ;;
  del_campaign DropsCampaign.remaining_minutes
               (DropsCampaign.set_remaining_minutes None).

(** ** BaseDrop *)

(** [all(campaign.timed_drops[pid].is_claimed for pid in pids)]: stops at the
    first unclaimed drop, raises on the first unknown id met before that. *)
Fixpoint all_claimed (ds : list (string * TimedDrop.t)) (pids : list string)
  : result bool :=
  match pids with
  | [] => Ok true
  | pid :: pids' =>
      match dict_get ds pid with
      | None => Raise KeyError
      | Some p => if TimedDrop.is_claimed p then all_claimed ds pids' else Ok false
      end
  end.

Definition BaseDrop_preconditions (self : string) : M bool :=
  d <- get_drop self ;;
  match TimedDrop.preconditions d with
  | Some v => ret v
  | None =>
      c <- get_campaign ;;
      v <- lift (all_claimed (DropsCampaign.timed_drops c)
                             (TimedDrop._precondition_drops d)) ;;
      modify_drop self (TimedDrop.set_preconditions (Some v)) ;;
      ret v
  end.

(** [BaseDrop.can_earn]; [now_campaign] and [now_drop] are the two readings of
    [datetime.utcnow()], the first inside [campaign.active]. *)
Definition BaseDrop_can_earn (now_campaign now_drop : Z) (self : string) : M bool :=
  p <- BaseDrop_preconditions self ;;
  if negb p then ret false else
  d <- get_drop self ;;
  if TimedDrop.is_claimed d then ret false else
  a <- DropsCampaign_active now_campaign ;;
  if negb a then ret false else
  ret ((TimedDrop.starts_at d <=? now_drop) && (now_drop <? TimedDrop.ends_at d)).

Definition BaseDrop_can_claim (self : string) : M bool :=
  d <- get_drop self ;;
  ret (match TimedDrop.claim_id d with Some _ => true | None => false end).

Definition BaseDrop__on_claim (self : string) : M unit :=
  del_drop TimedDrop.preconditions (TimedDrop.set_preconditions None) self.

Definition BaseDrop_update_claim (claim_id : string) (self : string) : M unit :=
  modify_drop self (TimedDrop.set_claim_id (Some claim_id)).

Definition DropsCampaign__on_claim : M unit :=
  del_campaign DropsCampaign.claimed_drops (DropsCampaign.set_claimed_drops None) ;;
  del_campaign DropsCampaign.remaining_drops
               (DropsCampaign.set_remaining_drops None) ;;
  c <- get_campaign ;;
  for_each (dict_keys (DropsCampaign.timed_drops c)) BaseDrop__on_claim.

(** [x in ["ELIGIBLE_FOR_ALL", "DROP_INSTANCE_ALREADY_CLAIMED"]] *)
Definition status_ok (x : JsonType) : bool :=
  is_str "ELIGIBLE_FOR_ALL" x || is_str "DROP_INSTANCE_ALREADY_CLAIMED" x.

(** What [_claim] makes of the transport's answer. *)
Definition claim_response (response : JsonType) : result bool :=
  match py_getitem response "data" with
  | Raise e => Raise e
  | Ok data =>
      match py_contains "errors" data with
      | Raise e => Raise e
      | Ok has_errors =>
          match (if has_errors then py_getitem data "errors" else Ok JNull) with
          | Raise e => Raise e
          | Ok errors =>
              if has_errors && truthy errors then Ok false else
              match py_contains "claimDropRewards" data with
              | Raise e => Raise e
              | Ok false => Ok false
              | Ok true =>
                  match py_getitem data "claimDropRewards" with
                  | Raise e => Raise e
                  | Ok rewards =>
                      if negb (truthy rewards) then Ok false else
                      match py_getitem rewards "status" with
                      | Raise e => Raise e
                      | Ok status => Ok (status_ok status)
                      end
                  end
              end
          end
      end
  end.

(** [BaseDrop._claim]; [response] is what the transport answers should the
    request be sent. *)
Definition BaseDrop__claim (response : JsonType) (self : string) : M bool :=
  d <- get_drop self ;;
  match TimedDrop.claim_id d with
  | None => ret false
  | Some claim_id =>
      if TimedDrop.is_claimed d then ret true else
      r <- gql_request claim_id response ;;
      lift (claim_response r)
  end.

Definition BaseDrop_claim (response : JsonType) (self : string) : M bool :=
  result <- BaseDrop__claim response self ;;
  (if result : bool then
     modify_drop self (TimedDrop.set_is_claimed true) ;;
     DropsCampaign__on_claim
   else ret tt) ;;
  ret result.

(** ** TimedDrop *)

(** [TimedDrop.__init__] (with [BaseDrop.__init__]). *)
Definition TimedDrop_init (data : DropData) : TimedDrop.t :=
  let is_claimed := data_isClaimed data in
  let required := data_requiredMinutesWatched data in
  TimedDrop.mk
    (data_id data) (data_name data) (data_benefitEdges data)
    (data_startAt data) (data_endAt data)
    (data_dropInstanceID data)
    is_claimed
    (match data_preconditionDrops data with Some l => l | None => [] end)
    (if is_claimed then required else data_currentMinutesWatched data)
    required
    None None None.

Definition TimedDrop_remaining_minutes (self : string) : M Z :=
  d <- get_drop self ;;
  match TimedDrop.remaining_minutes d with
  | Some v => ret v
  | None =>
      let v := TimedDrop.required_minutes d - TimedDrop.current_minutes d in
      modify_drop self (TimedDrop.set_remaining_minutes (Some v)) ;;
      ret v
  end.

Definition TimedDrop_progress (self : string) : M float :=
  d <- get_drop self ;;
  match TimedDrop.progress d with
  | Some v => ret v
  | None =>
      v <- lift (py_truediv (PyInt (TimedDrop.current_minutes d))
                            (PyInt (TimedDrop.required_minutes d))) ;;
      modify_drop self (TimedDrop.set_progress (Some v)) ;;
      ret v
  end.

Definition TimedDrop__on_minutes_changed (self : string) : M unit :=
  del_drop TimedDrop.progress (TimedDrop.set_progress None) self ;;
  del_drop TimedDrop.remaining_minutes (TimedDrop.set_remaining_minutes None) self ;;
  DropsCampaign__on_minutes_changed.

Definition TimedDrop_claim (response : JsonType) (self : string) : M bool :=
  result <- BaseDrop_claim response self ;;
  (if result : bool then
     modify_drop self
       (fun d => TimedDrop.set_current_minutes (TimedDrop.required_minutes d) d)
   else ret tt) ;;
  ret result.

Definition TimedDrop_update_minutes (minutes : Z) (self : string) : M unit :=
  modify_drop self (TimedDrop.set_current_minutes minutes) ;;
  TimedDrop__on_minutes_changed self.

Definition TimedDrop_bump_minutes (self : string) : M unit :=
  d <- get_drop self ;;
  if TimedDrop.current_minutes d <? TimedDrop.required_minutes d then
    modify_drop self (TimedDrop.set_current_minutes (TimedDrop.current_minutes d + 1)) ;;
    TimedDrop__on_minutes_changed self
  else ret tt.

(** ** DropsCampaign: construction and aggregates *)

(** [{d["id"]: TimedDrop(self, d) for d in data["timeBasedDrops"]}] *)
Definition timed_drops_of (ds : list DropData) : list (string * TimedDrop.t) :=
  fold_left (fun m d => dict_set m (data_id d) (TimedDrop_init d)) ds [].

Definition DropsCampaign_init (data : CampaignData) : DropsCampaign.t :=
  DropsCampaign.mk
    (cdata_id data) (cdata_name data) (cdata_game data)
    (cdata_startAt data) (cdata_endAt data)
    (match cdata_allow_channels data with Some l => l | None => [] end)
    (timed_drops_of (cdata_timeBasedDrops data))
    None None None None.

(** The world right after the campaign is built. *)
Definition init (data : CampaignData) : World :=
  mkWorld (DropsCampaign_init data) [].

Definition int_of_bool (b : bool) : Z := if b then 1 else 0.

Definition DropsCampaign_claimed_drops : M Z :=
  c <- get_campaign ;;
  match DropsCampaign.claimed_drops c with
  | Some v => ret v
  | None =>
      v <- sum_int (dict_keys (DropsCampaign.timed_drops c))
             (fun k => d <- get_drop k ;; ret (int_of_bool (TimedDrop.is_claimed d))) 0 ;;
      modify_campaign (DropsCampaign.set_claimed_drops (Some v)) ;;
      ret v
  end.

Definition DropsCampaign_remaining_drops : M Z :=
  c <- get_campaign ;;
  match DropsCampaign.remaining_drops c with
  | Some v => ret v
  | None =>
      v <- sum_int (dict_keys (DropsCampaign.timed_drops c))
             (fun k => d <- get_drop k ;;
                       ret (int_of_bool (negb (TimedDrop.is_claimed d)))) 0 ;;
      modify_campaign (DropsCampaign.set_remaining_drops (Some v)) ;;
      ret v
  end.

Definition DropsCampaign_remaining_minutes : M Z :=
  c <- get_campaign ;;
  match DropsCampaign.remaining_minutes c with
  | Some v => ret v
  | None =>
      v <- sum_int (dict_keys (DropsCampaign.timed_drops c))
             TimedDrop_remaining_minutes 0 ;;
      modify_campaign (DropsCampaign.set_remaining_minutes (Some v)) ;;
      ret v
  end.

Definition DropsCampaign_progress : M float :=
  c <- get_campaign ;;
  match DropsCampaign.progress c with
  | Some v => ret v
  | None =>
      s <- sum_float (dict_keys (DropsCampaign.timed_drops c))
             TimedDrop_progress (PyInt 0) ;;
      n <- DropsCampaign_total_drops ;;
      v <- lift (py_truediv s (PyInt n)) ;;
      modify_campaign (DropsCampaign.set_progress (Some v)) ;;
      ret v
  end.

(** ** Runs: what a caller can do with a campaign, one call after another *)

Inductive call : Type :=
| GetPreconditions (k : string)
| GetCanEarn (now_campaign now_drop : Z) (k : string)
| GetCanClaim (k : string)
| GetDropRemainingMinutes (k : string)
| GetDropProgress (k : string)
| GetActive (now : Z)
| GetTotalDrops
| GetClaimedDrops
| GetRemainingDrops
| GetRemainingMinutes
| GetProgress
| UpdateClaim (claim_id : string) (k : string)
| UpdateMinutes (minutes : Z) (k : string)
| BumpMinutes (k : string)
| Claim (response : JsonType) (k : string).

Definition discard {A : Type} (m : M A) : M unit := m ;; ret tt.

Definition exec (c : call) : M unit :=
  match c with
  | GetPreconditions k => discard (BaseDrop_preconditions k)
  | GetCanEarn t1 t2 k => discard (BaseDrop_can_earn t1 t2 k)
  | GetCanClaim k => discard (BaseDrop_can_claim k)
  | GetDropRemainingMinutes k => discard (TimedDrop_remaining_minutes k)
  | GetDropProgress k => discard (TimedDrop_progress k)
  | GetActive t => discard (DropsCampaign_active t)
  | GetTotalDrops => discard DropsCampaign_total_drops
  | GetClaimedDrops => discard DropsCampaign_claimed_drops
  | GetRemainingDrops => discard DropsCampaign_remaining_drops
  | GetRemainingMinutes => discard DropsCampaign_remaining_minutes
  | GetProgress => discard DropsCampaign_progress
  | UpdateClaim c k => BaseDrop_update_claim c k
  | UpdateMinutes m k => TimedDrop_update_minutes m k
  | BumpMinutes k => TimedDrop_bump_minutes k
  | Claim r k => discard (TimedDrop_claim r k)
  end.

(** A sequence of calls; an exception ends it. *)
Fixpoint run (cs : list call) : M unit :=
  match cs with
  | [] => ret tt
  | c :: cs' => exec c ;; run cs'
  end.

(** ** Invariants of the caches *)

Definition with_drops (ds : list (string * TimedDrop.t)) (w : World) : World :=
  mkWorld (DropsCampaign.set_timed_drops ds (campaign w)) (requests w).

(** [sum(g(d) for d in values)] as a plain sum over the keys [ks]. *)
Fixpoint sum_over (ds : list (string * TimedDrop.t)) (g : TimedDrop.t -> Z)
    (ks : list string) : Z :=
  match ks with
  | [] => 0
  | k :: ks' =>
      match dict_get ds k with Some d => g d | None => 0 end + sum_over ds g ks'
  end.

Definition count_claimed (ds : list (string * TimedDrop.t)) : Z :=
  sum_over ds (fun d => int_of_bool (TimedDrop.is_claimed d)) (dict_keys ds).

Definition count_unclaimed (ds : list (string * TimedDrop.t)) : Z :=
  sum_over ds (fun d => int_of_bool (negb (TimedDrop.is_claimed d))) (dict_keys ds).

(** The part of a drop the claim caches are computed from, and the
    [preconditions] slot itself. *)
Definition claims_of (d : TimedDrop.t) : bool * list string * option bool :=
  (TimedDrop.is_claimed d, TimedDrop._precondition_drops d, TimedDrop.preconditions d).

(** Two worlds that agree on everything the claim caches depend on. *)
Definition same_claims (w w' : World) : Prop :=
  DropsCampaign.claimed_drops (campaign w') = DropsCampaign.claimed_drops (campaign w) /\
  DropsCampaign.remaining_drops (campaign w') = DropsCampaign.remaining_drops (campaign w) /\
  dict_keys (drops w') = dict_keys (drops w) /\
  forall k, option_map claims_of (dict_get (drops w') k) =
            option_map claims_of (dict_get (drops w) k).

(** The campaign has the same drops, in the same order. *)
Definition same_keys (w w' : World) : Prop :=
  dict_keys (drops w') = dict_keys (drops w).

(** The request log is as it was. *)
Definition same_requests (w w' : World) : Prop :=
  requests w' = requests w.

(** Two worlds whose drops agree on the attribute [proj]. *)
Definition same_on {T : Type} (proj : TimedDrop.t -> T) (w w' : World) : Prop :=
  forall k, option_map proj (dict_get (drops w') k) =
            option_map proj (dict_get (drops w) k).

(** A computation that keeps [I] true of the world, whether it returns or
    raises. *)
Definition maintains (I : World -> Prop) {A : Type} (m : M A) : Prop :=
  forall w, I w -> I (snd (m w)).

(** A filled [claimed_drops] or [remaining_drops] slot holds what computing
    it now would give. *)
Definition counts_fresh (w : World) : Prop :=
  (forall v, DropsCampaign.claimed_drops (campaign w) = Some v ->
             v = count_claimed (drops w)) /\
  (forall v, DropsCampaign.remaining_drops (campaign w) = Some v ->
             v = count_unclaimed (drops w)).

(** A filled [preconditions] slot holds what computing it now would give. *)
Definition preconditions_fresh (w : World) : Prop :=
  forall k d v,
    dict_get (drops w) k = Some d ->
    TimedDrop.preconditions d = Some v ->
    all_claimed (drops w) (TimedDrop._precondition_drops d) = Ok v.

Definition caches_fresh (w : World) : Prop :=
  counts_fresh w /\ preconditions_fresh w.

(** What a successful [claim] on [a] does to the drop stored under [k]. *)
Definition claimed_by (a k : string) (d : TimedDrop.t) : TimedDrop.t :=
  if String.eqb k a then
    TimedDrop.set_current_minutes (TimedDrop.required_minutes d)
      (TimedDrop.set_preconditions None (TimedDrop.set_is_claimed true d))
  else TimedDrop.set_preconditions None d.

(** ** Sample snapshots and responses *)

Definition sample_game : Game.t := Game.mk 509658 "Just Chatting".

Definition sample_drop (id : string) (claim_id : option string) (claimed : bool)
    (current required : Z) (pre : list string) : DropData :=
  mkDropData id id [id] 0 100 claim_id claimed current required (Some pre).

Definition sample_campaign (ds : list DropData) : CampaignData :=
  mkCampaignData "campaign" "campaign" sample_game 0 100 None ds.

Definition response_status (status : string) : JsonType :=
  JDict [("data", JDict [("claimDropRewards", JDict [("status", JStr status)])])].

Definition response_errors : JsonType :=
  JDict [("data", JDict [("errors", JList [JStr "x"])])].

(** Every cached property a claim or a minute change deletes, read once. *)
Definition read_all (k : string) : list call :=
  [GetDropProgress k; GetDropRemainingMinutes k; GetPreconditions k].

Definition read_campaign : list call :=
  [GetClaimedDrops; GetRemainingDrops; GetRemainingMinutes; GetProgress].

(** One unclaimed drop, 0 of 30 minutes, nothing read yet. *)
Definition fresh_unit : World :=
  init (sample_campaign [sample_drop "a" None false 0 30 []]).

(** One claimable drop at 15 of 30 minutes, nothing read yet. *)
Definition half_watched : World :=
  init (sample_campaign [sample_drop "a" (Some "token") false 15 30 []]).

(** A claimable drop [a] and a drop [b] that waits for it. *)
Definition two_units_data : CampaignData :=
  sample_campaign
    [sample_drop "a" (Some "token") false 30 30 [];
     sample_drop "b" None false 0 30 ["a"]].

Definition two_units : World := init two_units_data.

(** Every cached property of [two_units] read once. *)
Definition two_units_reads : list call :=
  read_all "a" ++ read_all "b" ++ read_campaign.

(** The reads, then a minutes update, a refused claim and an accepted one. *)
Definition two_units_calls : list call :=
  two_units_reads ++
  [UpdateMinutes 10 "b"; Claim (response_status "EXPIRED") "a";
   Claim (response_status "ELIGIBLE_FOR_ALL") "a"].

(** A drop the snapshot reports claimed, with and without a claim id. *)
Definition claimed_unit (claim_id : option string) : World :=
  init (sample_campaign [sample_drop "a" claim_id true 0 30 []]).

(** The three ways the answer to a claim request spells failure. *)
Definition errors_present (data : list (string * JsonType)) : Prop :=
  exists x xs, dict_get data "errors" = Some (JList (x :: xs)).

Definition rewards_absent (data : list (string * JsonType)) : Prop :=
  dict_get data "claimDropRewards" = None \/
  dict_get data "claimDropRewards" = Some JNull.

Definition status_unknown (data : list (string * JsonType)) : Prop :=
  exists rewards status,
    dict_get data "claimDropRewards" = Some (JDict rewards) /\
    dict_get rewards "status" = Some (JStr status) /\
    status <> "ELIGIBLE_FOR_ALL" /\
    status <> "DROP_INSTANCE_ALREADY_CLAIMED".

Definition accepted : JsonType := response_status "ELIGIBLE_FOR_ALL".

(** [half_watched] once every cached property has been read. *)
Definition half_watched_read : World :=
  snd (run (read_all "a" ++ read_campaign) half_watched).

(** ... and then claimed. *)
Definition half_watched_claimed : World :=
  snd (TimedDrop_claim accepted "a" half_watched_read).

(** [two_units] once everything but [b.preconditions] has been read. *)
Definition two_units_b_unread : World :=
  snd (run (read_all "a" ++ [GetDropProgress "b"; GetDropRemainingMinutes "b"]
              ++ read_campaign) two_units).

(** One tick of watch time followed by the reads a display makes. *)
Definition tick (k : string) : list call :=
  BumpMinutes k :: read_all k ++ read_campaign.

(** The drop stored under [k]. *)
Definition drop_at (w : World) (k : string) : TimedDrop.t :=
  match dict_get (drops w) k with
  | Some d => d
  | None => TimedDrop_init (sample_drop k None false 0 0 [])
  end.

(** [two_units] once every cached property has been read. *)
Definition two_units_ready : World := snd (run two_units_reads two_units).

(** ... and then [a] claimed. *)
Definition two_units_claimed : World :=
  snd (TimedDrop_claim accepted "a" two_units_ready).

(** A claimed drop with a claim id, every cached property read. *)
Definition claimed_unit_ready : World :=
  snd (run (read_all "a" ++ read_campaign) (claimed_unit (Some "token"))).

(** [two_units] as a caller leaves it that polls [b.can_earn] and reads
    nothing else, and then claims [a]. *)
Definition two_units_polled : World := snd (run [GetCanEarn 50 50 "b"] two_units).

Definition two_units_polled_claimed : World :=
  snd (TimedDrop_claim accepted "a" two_units_polled).

(** A claimable drop [a], an unrelated drop [c], and a drop [b] that waits
    for [a]; every cached property read but [c.preconditions]; then [a]
    claimed. *)
Definition three_units_data : CampaignData :=
  sample_campaign
    [sample_drop "a" (Some "token") false 30 30 [];
     sample_drop "c" None false 0 30 [];
     sample_drop "b" None false 0 30 ["a"]].

Definition three_units_reads : list call :=
  read_all "a" ++ [GetDropProgress "c"; GetDropRemainingMinutes "c"]
    ++ read_all "b" ++ read_campaign.

Definition three_units_c_unread : World :=
  snd (run three_units_reads (init three_units_data)).

Definition three_units_claimed : World :=
  snd (TimedDrop_claim accepted "a" three_units_c_unread).

(** [two_units] with [remaining_drops] read, and then [a] claimed. *)
Definition two_units_counted : World := snd (run [GetRemainingDrops] two_units).

Definition two_units_counted_claimed : World :=
  snd (TimedDrop_claim accepted "a" two_units_counted).

(** ** Views of a world used to state what calls leave alone *)

(** The last entry of the snapshot list that carries the id [k]. *)
Definition last_with_id (ds : list DropData) (k : string) : option DropData :=
  find (fun d => String.eqb (data_id d) k) (rev ds).

(** Two worlds with the same drops in the same order, agreeing on the view
    [pd] of every drop and on the view [pc] of the campaign. *)
Definition same_view {T U : Type} (pd : TimedDrop.t -> T) (pc : DropsCampaign.t -> U)
    (w w' : World) : Prop :=
  dict_keys (drops w') = dict_keys (drops w) /\
  (forall k, option_map pd (dict_get (drops w') k) =
             option_map pd (dict_get (drops w) k)) /\
  pc (campaign w') = pc (campaign w).

(** What [__init__] sets once and for all on a drop and on a campaign. *)
Definition static_of (d : TimedDrop.t) :=
  (TimedDrop.id d, TimedDrop.name d, TimedDrop.rewards d, TimedDrop.starts_at d,
   TimedDrop.ends_at d, TimedDrop._precondition_drops d, TimedDrop.required_minutes d).

Definition static_of_campaign (c : DropsCampaign.t) :=
  (DropsCampaign.id c, DropsCampaign.name c, DropsCampaign.game c,
   DropsCampaign.starts_at c, DropsCampaign.ends_at c,
   DropsCampaign.allowed_channels c).

(** Every drop of [w] is still there in [w'], and claimed there if it was
    claimed in [w]. *)
Definition claims_grow (w w' : World) : Prop :=
  forall k, exists b,
    option_map TimedDrop.is_claimed (dict_get (drops w') k) =
    option_map (fun d => b || TimedDrop.is_claimed d) (dict_get (drops w) k).

Definition is_claim (c : call) : bool :=
  match c with
  | Claim _ _ => true
  | _ => false
  end.

(** The one shape of answer [_claim] takes for a success. *)
Definition acceptance (response : JsonType) : Prop :=
  exists top data rewards status,
    response = JDict top /\
    dict_get top "data" = Some (JDict data) /\
    match dict_get data "errors" with
    | Some errors => truthy errors = false
    | None => True
    end /\
    dict_get data "claimDropRewards" = Some (JDict rewards) /\
    dict_get rewards "status" = Some (JStr status) /\
    (status = "ELIGIBLE_FOR_ALL" \/ status = "DROP_INSTANCE_ALREADY_CLAIMED").

(** The four slots a change of minutes deletes are all filled. *)
Definition minutes_read (w : World) (d : TimedDrop.t) : Prop :=
  TimedDrop.progress d <> None /\
  TimedDrop.remaining_minutes d <> None /\
  DropsCampaign.progress (campaign w) <> None /\
  DropsCampaign.remaining_minutes (campaign w) <> None.

(** The world after a change of the minutes of [d], stored under [k], that
    went through: the new minutes, the four slots empty. *)
Definition minutes_set (minutes : Z) (k : string) (d : TimedDrop.t) (w : World) : World :=
  mkWorld
    (DropsCampaign.set_remaining_minutes None
       (DropsCampaign.set_progress None
          (DropsCampaign.set_timed_drops
             (dict_set (drops w) k
                (TimedDrop.set_remaining_minutes None
                   (TimedDrop.set_progress None
                      (TimedDrop.set_current_minutes minutes d))))
             (campaign w))))
    (requests w).

(** Every slot the cascade of a claim deletes is filled. *)
Definition claim_read (w : World) : Prop :=
  DropsCampaign.claimed_drops (campaign w) <> None /\
  DropsCampaign.remaining_drops (campaign w) <> None /\
  forall k d, dict_get (drops w) k = Some d -> TimedDrop.preconditions d <> None.

(** ** What the minute caches should hold *)

(** [required_minutes - current_minutes], computed now. *)
Definition remaining_of (d : TimedDrop.t) : Z :=
  TimedDrop.required_minutes d - TimedDrop.current_minutes d.

(** [current_minutes / required_minutes], computed now. *)
Definition progress_of (d : TimedDrop.t) : result float :=
  py_truediv (PyInt (TimedDrop.current_minutes d)) (PyInt (TimedDrop.required_minutes d)).

(** [sum(d.progress for d in values)] computed now over the keys [ks]. *)
Fixpoint sum_progress (ds : list (string * TimedDrop.t)) (ks : list string)
    (acc : number) : result number :=
  match ks with
  | [] => Ok acc
  | k :: ks' =>
      match dict_get ds k with
      | None => Raise KeyError
      | Some d =>
          match progress_of d with
          | Ok v =>
              match py_add acc (PyFloat v) with
              | Ok acc' => sum_progress ds ks' acc'
              | Raise e => Raise e
              end
          | Raise e => Raise e
          end
      end
  end.

(** The campaign's [progress], computed now. *)
Definition campaign_progress_of (ds : list (string * TimedDrop.t)) : result float :=
  match sum_progress ds (dict_keys ds) (PyInt 0) with
  | Ok s => py_truediv s (PyInt (Z.of_nat (length ds)))
  | Raise e => Raise e
  end.

(** The minutes of a drop and its two minute slots; the two minute slots of
    the campaign. *)
Definition minutes_view (d : TimedDrop.t) :=
  (TimedDrop.current_minutes d, TimedDrop.required_minutes d,
   TimedDrop.remaining_minutes d, TimedDrop.progress d).

Definition campaign_minutes_view (c : DropsCampaign.t) :=
  (DropsCampaign.remaining_minutes c, DropsCampaign.progress c).

(** A filled minute slot holds what computing it now would give. *)
Definition minutes_fresh (w : World) : Prop :=
  (forall k d v, dict_get (drops w) k = Some d ->
                 TimedDrop.remaining_minutes d = Some v -> v = remaining_of d) /\
  (forall k d v, dict_get (drops w) k = Some d ->
                 TimedDrop.progress d = Some v -> progress_of d = Ok v) /\
  (forall v, DropsCampaign.remaining_minutes (campaign w) = Some v ->
             v = sum_over (drops w) remaining_of (dict_keys (drops w))) /\
  (forall v, DropsCampaign.progress (campaign w) = Some v ->
             campaign_progress_of (drops w) = Ok v).

(** No call of the list is a [claim]. *)
Definition claim_free (cs : list call) : bool :=
  forallb (fun c => negb (is_claim c)) cs.

(** The minutes of a drop, without its slots. *)
Definition minutes_core (d : TimedDrop.t) :=
  (TimedDrop.current_minutes d, TimedDrop.required_minutes d).

(** Minutes whose quotient fits in a float: fewer than [2^1023] of them
    watched, or no more watched than required. *)
Definition minutes_fit (d : TimedDrop.t) : Prop :=
  Z.abs (TimedDrop.current_minutes d) < 2 ^ 1023 \/
  Z.abs (TimedDrop.current_minutes d) <= Z.abs (TimedDrop.required_minutes d).

(** The reads of [two_units], a change of minutes of [b], and the reads a
    display makes after it. *)
Definition two_units_watching : list call :=
  two_units_reads ++ [UpdateMinutes 10 "b"] ++ read_all "b" ++ read_campaign.

(** * Properties *)

(** ** Dictionaries *)

Lemma dict_get_set_same {V : Type} (m : list (string * V)) k v :
  dict_get (dict_set m k v) k = Some v.
Proof.
  induction m as [|[k' v'] m IH]; simpl.
  - now rewrite String.eqb_refl.
  - destruct (String.eqb k' k) eqn:E; simpl; rewrite E; auto.
Qed.

Lemma dict_get_set_other {V : Type} (m : list (string * V)) k k' v :
  k' <> k -> dict_get (dict_set m k v) k' = dict_get m k'.
Proof.
  intros Hne. induction m as [|[k0 v0] m IH]; simpl.
  - destruct (String.eqb k k') eqn:E; auto.
    apply String.eqb_eq in E. congruence.
  - destruct (String.eqb k0 k) eqn:E; simpl.
    + apply String.eqb_eq in E. subst k0.
      destruct (String.eqb k k') eqn:E'; auto.
      apply String.eqb_eq in E'. congruence.
    + now rewrite IH.
Qed.

Lemma dict_keys_set_present {V : Type} (m : list (string * V)) k v v0 :
  dict_get m k = Some v0 -> dict_keys (dict_set m k v) = dict_keys m.
Proof.
  unfold dict_keys. induction m as [|[k' v'] m IH]; simpl; [discriminate|].
  destruct (String.eqb k' k) eqn:E; simpl; auto.
  intros H. now rewrite IH.
Qed.

Lemma dict_get_in_keys {V : Type} (m : list (string * V)) k v :
  dict_get m k = Some v -> In k (dict_keys m).
Proof.
  unfold dict_keys. induction m as [|[k' v'] m IH]; simpl; [discriminate|].
  destruct (String.eqb k' k) eqn:E; auto.
  apply String.eqb_eq in E. auto.
Qed.

Lemma dict_in_keys_get {V : Type} (m : list (string * V)) k :
  In k (dict_keys m) -> exists v, dict_get m k = Some v.
Proof.
  unfold dict_keys. induction m as [|[k' v'] m IH]; simpl; [tauto|].
  intros [H|H]; destruct (String.eqb k' k) eqn:E; eauto.
  subst. now rewrite String.eqb_refl in E.
Qed.

(** ** Game *)

(** C10: equality and hash of two [Game] values depend on [id] alone: equal
    ids compare equal and hash equally whatever the names, unequal ids
    compare unequal. *)
Theorem Game_eq_hash_by_id :
  forall (hash : string * Z -> Z) (g1 g2 : Game.t),
    (Game.id g1 = Game.id g2 ->
       Game_eq g1 (Game.Instance g2) = Some true /\
       Game_hash hash g1 = Game_hash hash g2) /\
    (Game.id g1 <> Game.id g2 ->
       Game_eq g1 (Game.Instance g2) = Some false).
Proof.
  intros hash g1 g2. unfold Game_eq, Game_hash. split.
  - intros E. rewrite E, Z.eqb_refl. auto.
  - intros N. apply Z.eqb_neq in N. now rewrite N.
Qed.

Lemma Game_eq_hash_by_id_witness :
  (Game_eq (Game.mk 7 "Apex") (Game.Instance (Game.mk 7 "Apex Legends")) = Some true /\
   Game_hash (fun p => snd p + 1) (Game.mk 7 "Apex") =
   Game_hash (fun p => snd p + 1) (Game.mk 7 "Apex Legends")) /\
  Game_eq (Game.mk 7 "Apex") (Game.Instance (Game.mk 8 "Apex")) = Some false.
Proof.
  split.
  - apply (proj1 (Game_eq_hash_by_id (fun p => snd p + 1)
                    (Game.mk 7 "Apex") (Game.mk 7 "Apex Legends"))).
    reflexivity.
  - apply (proj2 (Game_eq_hash_by_id (fun p => snd p + 1)
                    (Game.mk 7 "Apex") (Game.mk 8 "Apex"))).
    simpl. lia.
Defined.

(** ** Claiming *)

Lemma get_drop_found w k d :
  dict_get (drops w) k = Some d -> get_drop k w = (Ok d, w).
Proof. intros H. unfold get_drop. now rewrite H. Qed.

Lemma BaseDrop_can_claim_eq w k d :
  dict_get (drops w) k = Some d ->
  BaseDrop_can_claim k w =
  (Ok (match TimedDrop.claim_id d with Some _ => true | None => false end), w).
Proof.
  intros H. unfold BaseDrop_can_claim, bind. now rewrite (get_drop_found _ _ _ H).
Qed.

Lemma TimedDrop_claim_no_token w k d response :
  dict_get (drops w) k = Some d ->
  TimedDrop.claim_id d = None ->
  TimedDrop_claim response k w = (Ok false, w).
Proof.
  intros H Hc.
  unfold TimedDrop_claim, BaseDrop_claim, BaseDrop__claim, bind.
  rewrite (get_drop_found _ _ _ H), Hc. reflexivity.
Qed.

(** C9: [can_claim] is true exactly when the claim id is there, whatever the
    drop's time window; and when it is false [claim] returns false, leaves
    the world as it was and sends no request. *)
Theorem can_claim_iff_claim_id :
  forall (w : World) (k : string) (d : TimedDrop.t),
    dict_get (drops w) k = Some d ->
    (fst (BaseDrop_can_claim k w) = Ok true <->
       exists token, TimedDrop.claim_id d = Some token) /\
    snd (BaseDrop_can_claim k w) = w /\
    (fst (BaseDrop_can_claim k w) = Ok false ->
       forall response, TimedDrop_claim response k w = (Ok false, w)).
Proof.
  intros w k d H. rewrite (BaseDrop_can_claim_eq _ _ _ H). simpl.
  repeat split.
  - destruct (TimedDrop.claim_id d); [eauto | discriminate].
  - intros [token E]. now rewrite E.
  - intros E response. apply (TimedDrop_claim_no_token _ _ d); auto.
    destruct (TimedDrop.claim_id d); [discriminate | reflexivity].
Qed.

Lemma claim_response_failure response data :
  py_getitem response "data" = Ok (JDict data) ->
  errors_present data \/ rewards_absent data \/ status_unknown data ->
  claim_response response = Ok false.
Proof.
  intros Hd H. unfold claim_response. rewrite Hd. simpl.
  destruct H as [(x & xs & E) | H].
  { rewrite E. reflexivity. }
  assert (Hrest :
    match py_contains "claimDropRewards" (JDict data) with
    | Raise e => Raise e
    | Ok false => Ok false
    | Ok true =>
        match py_getitem (JDict data) "claimDropRewards" with
        | Raise e => Raise e
        | Ok rewards =>
            if negb (truthy rewards) then Ok false else
            match py_getitem rewards "status" with
            | Raise e => Raise e
            | Ok status => Ok (status_ok status)
            end
        end
    end = Ok false).
  { simpl. destruct H as [[E | E] | (rewards & status & E & Es & N1 & N2)];
      rewrite E; simpl; auto.
    destruct rewards as [|p rewards]; [discriminate|].
    cbn [truthy negb]. rewrite Es.
    unfold status_ok, is_str.
    apply String.eqb_neq in N1, N2. now rewrite N1, N2. }
  destruct (dict_get data "errors") as [errors|]; simpl.
  - destruct (truthy errors); simpl; [reflexivity | exact Hrest].
  - exact Hrest.
Qed.

(** C5: when the request is sent (claim id there, drop not claimed) and the
    answer's data has a non-empty [errors] list, or no [claimDropRewards]
    result, or a status string other than the two accepted ones, [claim]
    returns false and the campaign, the drop's [is_claimed] included, is as
    it was; only the request has been logged. *)
Theorem claim_failure_leaves_unclaimed :
  forall (w : World) (k : string) (d : TimedDrop.t) (token : string)
         (response : JsonType) (data : list (string * JsonType)),
    dict_get (drops w) k = Some d ->
    TimedDrop.claim_id d = Some token ->
    TimedDrop.is_claimed d = false ->
    py_getitem response "data" = Ok (JDict data) ->
    errors_present data \/ rewards_absent data \/ status_unknown data ->
    TimedDrop_claim response k w =
      (Ok false, mkWorld (campaign w) (requests w ++ [token])) /\
    option_map TimedDrop.is_claimed
      (dict_get (drops (snd (TimedDrop_claim response k w))) k) = Some false.
Proof.
  intros w k d token response data H Ht Hc Hd Hf.
  assert (E : TimedDrop_claim response k w =
              (Ok false, mkWorld (campaign w) (requests w ++ [token]))).
  { unfold TimedDrop_claim, BaseDrop_claim, BaseDrop__claim, bind.
    rewrite (get_drop_found _ _ _ H), Ht, Hc.
    unfold gql_request, lift.
    now rewrite (claim_response_failure _ _ Hd Hf). }
  split; [exact E|].
  rewrite E. simpl. unfold drops in *. simpl. rewrite H. simpl. now rewrite Hc.
Qed.

Lemma claim_failure_leaves_unclaimed_witness :
  TimedDrop_claim response_errors "a" half_watched =
    (Ok false, mkWorld (campaign half_watched) (requests half_watched ++ ["token"])) /\
  option_map TimedDrop.is_claimed
    (dict_get (drops (snd (TimedDrop_claim response_errors "a" half_watched))) "a")
  = Some false.
Proof.
  apply (claim_failure_leaves_unclaimed half_watched "a"
           (TimedDrop_init (sample_drop "a" (Some "token") false 15 30 []))
           "token" response_errors [("errors", JList [JStr "x"])]).
  - reflexivity.
  - reflexivity.
  - reflexivity.
  - reflexivity.
  - left. exists (JStr "x"), []. reflexivity.
Defined.

Lemma can_claim_iff_claim_id_witness :
  (fst (BaseDrop_can_claim "a" fresh_unit) = Ok true <->
     exists token,
       TimedDrop.claim_id (TimedDrop_init (sample_drop "a" None false 0 30 []))
       = Some token) /\
  snd (BaseDrop_can_claim "a" fresh_unit) = fresh_unit /\
  (fst (BaseDrop_can_claim "a" fresh_unit) = Ok false ->
     forall response, TimedDrop_claim response "a" fresh_unit = (Ok false, fresh_unit)).
Proof.
  apply (can_claim_iff_claim_id fresh_unit "a"
           (TimedDrop_init (sample_drop "a" None false 0 30 []))).
  reflexivity.
Defined.

(** ** Deleting a cached property that was never read *)

(** C3 (fails on the code): [update_minutes] and [bump_minutes] on a drop
    whose [progress] was never read raise [AttributeError], the minutes
    already changed; and a claim the transport accepts raises once the
    cascade meets a drop whose [preconditions] was never read, the drop
    already marked claimed. *)
Theorem invalidation_raises_on_unread_cache :
  TimedDrop.progress (TimedDrop_init (sample_drop "a" None false 0 30 [])) = None /\
  fst (TimedDrop_update_minutes 5 "a" fresh_unit) = Raise AttributeError /\
  option_map TimedDrop.current_minutes
    (dict_get (drops (snd (TimedDrop_update_minutes 5 "a" fresh_unit))) "a") = Some 5 /\
  fst (TimedDrop_bump_minutes "a" fresh_unit) = Raise AttributeError /\
  option_map TimedDrop.preconditions (dict_get (drops two_units_b_unread) "b") = Some None /\
  fst (TimedDrop_claim accepted "a" two_units_b_unread) = Raise AttributeError /\
  option_map TimedDrop.is_claimed
    (dict_get (drops (snd (TimedDrop_claim accepted "a" two_units_b_unread))) "a") = Some true.
Proof. repeat (apply conj); vm_compute; reflexivity. Qed.

(** What such a raise leaves behind: with [remaining_drops] read and
    [claimed_drops] not, an accepted claim raises at [del self.claimed_drops]
    after marking the drop claimed, and the stale [remaining_drops] then
    counts the drop a second time. *)
Lemma raising_claim_leaves_stale_count :
  fst (TimedDrop_claim accepted "a" (snd (run [GetRemainingDrops] half_watched)))
    = Raise AttributeError /\
  fst (DropsCampaign_claimed_drops
         (snd (TimedDrop_claim accepted "a" (snd (run [GetRemainingDrops] half_watched)))))
    = Ok 1 /\
  fst (DropsCampaign_remaining_drops
         (snd (TimedDrop_claim accepted "a" (snd (run [GetRemainingDrops] half_watched)))))
    = Ok 1 /\
  fst (DropsCampaign_total_drops
         (snd (TimedDrop_claim accepted "a" (snd (run [GetRemainingDrops] half_watched)))))
    = Ok 1.
Proof. repeat (apply conj); vm_compute; reflexivity. Qed.

(** C2 (fails on the code): the [progress] of a campaign built with no drops
    raises [ZeroDivisionError]. *)
Theorem progress_of_empty_campaign_raises :
  forall id name game starts ends channels,
    fst (DropsCampaign_progress
           (init (mkCampaignData id name game starts ends channels [])))
    = Raise ZeroDivisionError.
Proof. reflexivity. Qed.

(** C1 (fails on the code): a drop at 15 of 30 minutes whose [progress] and
    [remaining_minutes] were read is claimed; [claim] returns true, the drop
    is claimed with 30 current minutes, and the next reads still give 15/30
    and 15. *)
Theorem claim_leaves_minute_caches_stale :
  fst (run (read_all "a" ++ read_campaign) half_watched) = Ok tt /\
  fst (TimedDrop_claim accepted "a" half_watched_read) = Ok true /\
  option_map TimedDrop.is_claimed (dict_get (drops half_watched_claimed) "a") = Some true /\
  option_map TimedDrop.current_minutes (dict_get (drops half_watched_claimed) "a") = Some 30 /\
  option_map TimedDrop.required_minutes (dict_get (drops half_watched_claimed) "a") = Some 30 /\
  fst (TimedDrop_progress "a" half_watched_claimed) =
    Ok (SFdiv prec emax (float_of_int 15) (float_of_int 30)) /\
  fst (TimedDrop_progress "a" half_watched_claimed) <> Ok float_one /\
  fst (TimedDrop_remaining_minutes "a" half_watched_claimed) = Ok 15.
Proof. repeat (apply conj); try (vm_compute; reflexivity). vm_compute. discriminate. Qed.

(** C8 (fails on the code): on a drop just built with 0 of 30 minutes the
    first [bump_minutes] raises [AttributeError] after adding the minute, so
    thirty calls in a row do not complete. *)
Theorem bump_minutes_raises_on_fresh_unit :
  fst (TimedDrop_bump_minutes "a" fresh_unit) = Raise AttributeError /\
  option_map TimedDrop.current_minutes
    (dict_get (drops (snd (TimedDrop_bump_minutes "a" fresh_unit))) "a") = Some 1 /\
  fst (run (repeat (BumpMinutes "a") 30) fresh_unit) = Raise AttributeError.
Proof. repeat (apply conj); vm_compute; reflexivity. Qed.

(** With every cached property read between two ticks, thirty ticks do
    complete and bring the drop to 30 minutes, progress 1.0 and 0 minutes
    remaining; one more [bump_minutes] changes nothing. *)
Lemma thirty_ticks_between_reads :
  let w := snd (run (read_all "a" ++ read_campaign ++ concat (repeat (tick "a") 30))
                    fresh_unit) in
  fst (run (read_all "a" ++ read_campaign ++ concat (repeat (tick "a") 30)) fresh_unit)
    = Ok tt /\
  option_map TimedDrop.current_minutes (dict_get (drops w) "a") = Some 30 /\
  fst (TimedDrop_progress "a" w) = Ok float_one /\
  fst (TimedDrop_remaining_minutes "a" w) = Ok 0 /\
  TimedDrop_bump_minutes "a" w = (Ok tt, w).
Proof. intros w. repeat (apply conj); vm_compute; reflexivity. Qed.

(** ** What a computation maintains, whether it returns or raises *)

Section Maintains.

Variable I : World -> Prop.

Lemma maintains_ret {A : Type} (a : A) : maintains I (ret a).
Proof. intros w H. exact H. Qed.

Lemma maintains_raise {A : Type} (e : exn) : maintains I (@raise A e).
Proof. intros w H. exact H. Qed.

Lemma maintains_lift {A : Type} (r : result A) : maintains I (lift r).
Proof. intros w H. exact H. Qed.

Lemma maintains_get_campaign : maintains I get_campaign.
Proof. intros w H. exact H. Qed.

Lemma maintains_get_drop k : maintains I (get_drop k).
Proof. intros w H. unfold get_drop. now destruct (dict_get (drops w) k). Qed.

Lemma maintains_bind {A B : Type} (m : M A) (f : A -> M B) :
  maintains I m -> (forall a, maintains I (f a)) -> maintains I (bind m f).
Proof.
  intros Hm Hf w H. unfold bind.
  specialize (Hm w H). destruct (m w) as [[a|e] w1]; simpl in *.
  - now apply Hf.
  - exact Hm.
Qed.

Lemma maintains_for_each ks body :
  (forall k, maintains I (body k)) -> maintains I (for_each ks body).
Proof.
  intros Hb. induction ks as [|k ks IH]; simpl.
  - apply maintains_ret.
  - apply maintains_bind; auto.
Qed.

Lemma maintains_sum_int ks f acc :
  (forall k, maintains I (f k)) -> maintains I (sum_int ks f acc).
Proof.
  intros Hf. revert acc. induction ks as [|k ks IH]; intros acc; simpl.
  - apply maintains_ret.
  - apply maintains_bind; auto.
Qed.

Lemma maintains_sum_float ks f acc :
  (forall k, maintains I (f k)) -> maintains I (sum_float ks f acc).
Proof.
  intros Hf. revert acc. induction ks as [|k ks IH]; intros acc; simpl.
  - apply maintains_ret.
  - apply maintains_bind; auto. intros v.
    apply maintains_bind; auto using maintains_lift.
Qed.

End Maintains.

Lemma bind_ok_inv {A B : Type} (m : M A) (f : A -> M B) w b w' :
  bind m f w = (Ok b, w') ->
  exists a w1, m w = (Ok a, w1) /\ f a w1 = (Ok b, w').
Proof.
  unfold bind. destruct (m w) as [[a|e] w1]; [eauto | discriminate].
Qed.

Lemma modify_drop_found w k d f :
  dict_get (drops w) k = Some d ->
  modify_drop k f w = (Ok tt, with_drops (dict_set (drops w) k (f d)) w).
Proof.
  intros H. unfold modify_drop, bind. now rewrite (get_drop_found _ _ _ H).
Qed.

Lemma modify_drop_missing w k f :
  dict_get (drops w) k = None -> modify_drop k f w = (Raise KeyError, w).
Proof.
  intros H. unfold modify_drop, bind, get_drop. now rewrite H.
Qed.

Lemma drops_with_drops ds w : drops (with_drops ds w) = ds.
Proof. reflexivity. Qed.

(** *** Keys *)

Lemma same_keys_modify_drop w0 k f : maintains (same_keys w0) (modify_drop k f).
Proof.
  intros w H. destruct (dict_get (drops w) k) as [d|] eqn:E.
  - rewrite (modify_drop_found _ _ _ _ E). unfold same_keys in *. simpl.
    rewrite drops_with_drops, (dict_keys_set_present _ _ _ _ E). exact H.
  - now rewrite (modify_drop_missing _ _ _ E).
Qed.

Lemma same_keys_modify_campaign w0 f :
  (forall c, DropsCampaign.timed_drops (f c) = DropsCampaign.timed_drops c) ->
  maintains (same_keys w0) (modify_campaign f).
Proof.
  intros Hf w H. unfold same_keys, drops in *. simpl. now rewrite Hf.
Qed.

Lemma same_keys_gql_request w0 c r : maintains (same_keys w0) (gql_request c r).
Proof. intros w H. exact H. Qed.

(** *** Requests *)

Lemma same_requests_modify_drop w0 k f : maintains (same_requests w0) (modify_drop k f).
Proof.
  intros w H. destruct (dict_get (drops w) k) as [d|] eqn:E.
  - now rewrite (modify_drop_found _ _ _ _ E).
  - now rewrite (modify_drop_missing _ _ _ E).
Qed.

Lemma same_requests_modify_campaign w0 f :
  maintains (same_requests w0) (modify_campaign f).
Proof. intros w H. exact H. Qed.

(** *** Claims *)

Lemma same_claims_refl w : same_claims w w.
Proof. unfold same_claims. auto. Qed.

Lemma same_claims_modify_drop w0 k f :
  (forall d, claims_of (f d) = claims_of d) ->
  maintains (same_claims w0) (modify_drop k f).
Proof.
  intros Hf w (H1 & H2 & H3 & H4).
  destruct (dict_get (drops w) k) as [d|] eqn:E.
  - rewrite (modify_drop_found _ _ _ _ E). unfold same_claims. simpl.
    rewrite drops_with_drops, (dict_keys_set_present _ _ _ _ E).
    repeat split; auto.
    intros k'. rewrite <- H4. destruct (String.eqb k k') eqn:Ek.
    + apply String.eqb_eq in Ek. subst k'.
      rewrite dict_get_set_same, E. simpl. now rewrite Hf.
    + apply String.eqb_neq in Ek. rewrite dict_get_set_other; auto.
  - rewrite (modify_drop_missing _ _ _ E). unfold same_claims. auto.
Qed.

Lemma same_claims_modify_campaign w0 f :
  (forall c, DropsCampaign.timed_drops (f c) = DropsCampaign.timed_drops c /\
             DropsCampaign.claimed_drops (f c) = DropsCampaign.claimed_drops c /\
             DropsCampaign.remaining_drops (f c) = DropsCampaign.remaining_drops c) ->
  maintains (same_claims w0) (modify_campaign f).
Proof.
  intros Hf w (H1 & H2 & H3 & H4).
  destruct (Hf (campaign w)) as (F1 & F2 & F3).
  unfold same_claims, drops in *. simpl. rewrite F1, F2, F3. auto.
Qed.

Lemma same_claims_gql_request w0 c r : maintains (same_claims w0) (gql_request c r).
Proof. intros w H. exact H. Qed.

(** *** One attribute of the drops *)

Lemma same_on_modify_drop {T : Type} (proj : TimedDrop.t -> T) w0 k f :
  (forall d, proj (f d) = proj d) ->
  maintains (same_on proj w0) (modify_drop k f).
Proof.
  intros Hf w H. destruct (dict_get (drops w) k) as [d|] eqn:E.
  - rewrite (modify_drop_found _ _ _ _ E). intros k'. simpl.
    rewrite drops_with_drops, <- H. destruct (String.eqb k k') eqn:Ek.
    + apply String.eqb_eq in Ek. subst k'.
      rewrite dict_get_set_same, E. simpl. now rewrite Hf.
    + apply String.eqb_neq in Ek. now rewrite dict_get_set_other by auto.
  - now rewrite (modify_drop_missing _ _ _ E).
Qed.

Lemma same_on_modify_campaign {T : Type} (proj : TimedDrop.t -> T) w0 f :
  (forall c, DropsCampaign.timed_drops (f c) = DropsCampaign.timed_drops c) ->
  maintains (same_on proj w0) (modify_campaign f).
Proof.
  intros Hf w H k. unfold drops in *. simpl. rewrite Hf. apply H.
Qed.

Ltac maintain :=
  repeat first
    [ apply maintains_ret
    | apply maintains_raise
    | apply maintains_lift
    | apply maintains_get_campaign
    | apply maintains_get_drop
    | apply same_keys_modify_drop
    | apply same_keys_modify_campaign; intro; reflexivity
    | apply same_keys_gql_request
    | apply same_requests_modify_drop
    | apply same_requests_modify_campaign
    | apply same_claims_modify_drop; intro; reflexivity
    | apply same_claims_modify_campaign; intro; repeat apply conj; reflexivity
    | apply same_claims_gql_request
    | apply same_on_modify_drop; intro; reflexivity
    | apply same_on_modify_campaign; intro; reflexivity
    | apply maintains_for_each; intro
    | apply maintains_sum_int; intro
    | apply maintains_sum_float; intro
    | apply maintains_bind; [| intro]
    | match goal with
      | |- maintains _ (match ?x with _ => _ end) => destruct x
      end ].

Ltac unfold_ops :=
  unfold exec, discard, TimedDrop_claim, BaseDrop_claim, BaseDrop__claim,
    TimedDrop_update_minutes, TimedDrop_bump_minutes,
    TimedDrop__on_minutes_changed, DropsCampaign__on_minutes_changed,
    DropsCampaign__on_claim, BaseDrop__on_claim, BaseDrop_update_claim,
    BaseDrop_can_claim, BaseDrop_can_earn, BaseDrop_preconditions,
    TimedDrop_progress, TimedDrop_remaining_minutes, DropsCampaign_progress,
    DropsCampaign_remaining_minutes, DropsCampaign_claimed_drops,
    DropsCampaign_remaining_drops, DropsCampaign_total_drops,
    DropsCampaign_active, del_drop, del_campaign.

(** No call adds or removes a drop. *)
Lemma same_keys_exec w0 c : maintains (same_keys w0) (exec c).
Proof. destruct c; unfold_ops; maintain. Qed.

Lemma same_keys_run w0 cs : maintains (same_keys w0) (run cs).
Proof.
  induction cs as [|c cs IH]; simpl.
  - apply maintains_ret.
  - apply maintains_bind; [apply same_keys_exec | intro; exact IH].
Qed.

(** An invalidation sends nothing to the transport. *)
Lemma same_requests_on_claim w0 : maintains (same_requests w0) DropsCampaign__on_claim.
Proof. unfold_ops; maintain. Qed.

(** *** The claim caches depend on [is_claimed] alone *)

Lemma claims_of_is_claimed (a b : option TimedDrop.t) :
  option_map claims_of a = option_map claims_of b ->
  option_map TimedDrop.is_claimed a = option_map TimedDrop.is_claimed b.
Proof.
  destruct a, b; simpl; try discriminate; auto.
  unfold claims_of. intros H. injection H as H _ _. now rewrite H.
Qed.

Lemma all_claimed_ext ds ds' pids :
  (forall k, option_map TimedDrop.is_claimed (dict_get ds' k) =
             option_map TimedDrop.is_claimed (dict_get ds k)) ->
  all_claimed ds' pids = all_claimed ds pids.
Proof.
  intros H. induction pids as [|pid pids IH]; simpl; auto.
  specialize (H pid).
  destruct (dict_get ds' pid), (dict_get ds pid); simpl in H; try discriminate; auto.
  injection H as H. rewrite H, IH. reflexivity.
Qed.

Lemma sum_over_ext ds ds' (h : bool -> Z) ks :
  (forall k, option_map TimedDrop.is_claimed (dict_get ds' k) =
             option_map TimedDrop.is_claimed (dict_get ds k)) ->
  sum_over ds' (fun d => h (TimedDrop.is_claimed d)) ks =
  sum_over ds (fun d => h (TimedDrop.is_claimed d)) ks.
Proof.
  intros H. induction ks as [|k ks IH]; simpl; auto.
  specialize (H k).
  destruct (dict_get ds' k), (dict_get ds k); simpl in H; try discriminate;
    rewrite IH; auto.
  injection H as H. now rewrite H.
Qed.

Lemma counts_ext ds ds' :
  dict_keys ds' = dict_keys ds ->
  (forall k, option_map TimedDrop.is_claimed (dict_get ds' k) =
             option_map TimedDrop.is_claimed (dict_get ds k)) ->
  count_claimed ds' = count_claimed ds /\ count_unclaimed ds' = count_unclaimed ds.
Proof.
  intros Hk H. unfold count_claimed, count_unclaimed. rewrite Hk. split.
  - apply (sum_over_ext ds ds' int_of_bool); auto.
  - apply (sum_over_ext ds ds' (fun b => int_of_bool (negb b))); auto.
Qed.

Lemma caches_fresh_same_claims w0 w :
  same_claims w0 w -> caches_fresh w0 -> caches_fresh w.
Proof.
  intros (H1 & H2 & H3 & H4) [[Hc Hr] Hp].
  assert (Hi : forall k, option_map TimedDrop.is_claimed (dict_get (drops w) k) =
                         option_map TimedDrop.is_claimed (dict_get (drops w0) k)).
  { intros k. apply claims_of_is_claimed, H4. }
  destruct (counts_ext _ _ H3 Hi) as [Ec Eu].
  split; [split|].
  - intros v E. rewrite Ec. apply Hc. now rewrite <- H1.
  - intros v E. rewrite Eu. apply Hr. now rewrite <- H2.
  - intros k d v E Ev. specialize (H4 k). rewrite E in H4.
    destruct (dict_get (drops w0) k) as [d0|] eqn:E0; [|discriminate].
    simpl in H4. unfold claims_of in H4. injection H4 as _ Hpids Hpre.
    rewrite (all_claimed_ext _ _ _ Hi), Hpids.
    apply (Hp k d0 v); auto. now rewrite <- Hpre.
Qed.

(** A computation that keeps the claims keeps the claim caches fresh. *)
Lemma maintains_fresh_of_same_claims {A : Type} (m : M A) :
  (forall w0, maintains (same_claims w0) m) -> maintains caches_fresh m.
Proof.
  intros H w Hw. apply (caches_fresh_same_claims w); auto.
  apply H, same_claims_refl.
Qed.

Lemma same_claims_exec w0 c :
  match c with
  | GetPreconditions _ | GetCanEarn _ _ _ | GetClaimedDrops | GetRemainingDrops
  | Claim _ _ => True
  | _ => maintains (same_claims w0) (exec c)
  end.
Proof. destruct c; try exact I; unfold_ops; maintain. Qed.

(** *** Reading the counts *)

Lemma sum_int_get (g : TimedDrop.t -> Z) ks acc w :
  (forall k, In k ks -> In k (dict_keys (drops w))) ->
  sum_int ks (fun k => d <- get_drop k ;; ret (g d)) acc w =
  (Ok (acc + sum_over (drops w) g ks), w).
Proof.
  revert acc. induction ks as [|k ks IH]; intros acc Hin; simpl.
  - unfold ret. now rewrite Z.add_0_r.
  - destruct (dict_in_keys_get (drops w) k) as [d E]; [apply Hin; now left|].
    unfold bind at 1. unfold bind at 1. rewrite (get_drop_found _ _ _ E).
    unfold ret at 1. rewrite IH by (intros; apply Hin; now right).
    rewrite E. now rewrite Z.add_assoc.
Qed.

Lemma DropsCampaign_claimed_drops_eq w :
  DropsCampaign_claimed_drops w =
  match DropsCampaign.claimed_drops (campaign w) with
  | Some v => (Ok v, w)
  | None =>
      (Ok (count_claimed (drops w)),
       mkWorld (DropsCampaign.set_claimed_drops (Some (count_claimed (drops w)))
                  (campaign w)) (requests w))
  end.
Proof.
  unfold DropsCampaign_claimed_drops, bind, get_campaign.
  destruct (DropsCampaign.claimed_drops (campaign w)); [reflexivity|].
  fold (drops w).
  rewrite (sum_int_get (fun d => int_of_bool (TimedDrop.is_claimed d))) by auto.
  reflexivity.
Qed.

Lemma DropsCampaign_remaining_drops_eq w :
  DropsCampaign_remaining_drops w =
  match DropsCampaign.remaining_drops (campaign w) with
  | Some v => (Ok v, w)
  | None =>
      (Ok (count_unclaimed (drops w)),
       mkWorld (DropsCampaign.set_remaining_drops (Some (count_unclaimed (drops w)))
                  (campaign w)) (requests w))
  end.
Proof.
  unfold DropsCampaign_remaining_drops, bind, get_campaign.
  destruct (DropsCampaign.remaining_drops (campaign w)); [reflexivity|].
  fold (drops w).
  rewrite (sum_int_get (fun d => int_of_bool (negb (TimedDrop.is_claimed d)))) by auto.
  reflexivity.
Qed.

Lemma claimed_drops_fresh : maintains caches_fresh DropsCampaign_claimed_drops.
Proof.
  intros w Hw. rewrite DropsCampaign_claimed_drops_eq.
  destruct (DropsCampaign.claimed_drops (campaign w)) eqn:E; [exact Hw|].
  destruct Hw as [[Hc Hr] Hp]. split; [split|]; simpl.
  - intros v Ev. now injection Ev as <-.
  - exact Hr.
  - exact Hp.
Qed.

Lemma remaining_drops_fresh : maintains caches_fresh DropsCampaign_remaining_drops.
Proof.
  intros w Hw. rewrite DropsCampaign_remaining_drops_eq.
  destruct (DropsCampaign.remaining_drops (campaign w)) eqn:E; [exact Hw|].
  destruct Hw as [[Hc Hr] Hp]. split; [split|]; simpl.
  - exact Hc.
  - intros v Ev. now injection Ev as <-.
  - exact Hp.
Qed.

(** *** Reading the preconditions *)

Lemma BaseDrop_preconditions_eq w k d :
  dict_get (drops w) k = Some d ->
  BaseDrop_preconditions k w =
  match TimedDrop.preconditions d with
  | Some v => (Ok v, w)
  | None =>
      match all_claimed (drops w) (TimedDrop._precondition_drops d) with
      | Ok v =>
          (Ok v, with_drops (dict_set (drops w) k
                               (TimedDrop.set_preconditions (Some v) d)) w)
      | Raise e => (Raise e, w)
      end
  end.
Proof.
  intros E. unfold BaseDrop_preconditions, bind at 1.
  rewrite (get_drop_found _ _ _ E).
  destruct (TimedDrop.preconditions d); [reflexivity|].
  unfold bind, get_campaign, lift. fold (drops w).
  destruct (all_claimed (drops w) (TimedDrop._precondition_drops d)); [|reflexivity].
  now rewrite (modify_drop_found _ _ _ _ E).
Qed.

Lemma set_preconditions_is_claimed ds k d v k' :
  dict_get ds k = Some d ->
  option_map TimedDrop.is_claimed
    (dict_get (dict_set ds k (TimedDrop.set_preconditions v d)) k') =
  option_map TimedDrop.is_claimed (dict_get ds k').
Proof.
  intros E. destruct (String.eqb k k') eqn:Ek.
  - apply String.eqb_eq in Ek. subst k'. now rewrite dict_get_set_same, E.
  - apply String.eqb_neq in Ek. now rewrite dict_get_set_other by auto.
Qed.

Lemma preconditions_read_fresh k : maintains caches_fresh (BaseDrop_preconditions k).
Proof.
  intros w Hw. destruct (dict_get (drops w) k) as [d|] eqn:E.
  2:{ unfold BaseDrop_preconditions, bind, get_drop. now rewrite E. }
  rewrite (BaseDrop_preconditions_eq _ _ _ E).
  destruct (TimedDrop.preconditions d) eqn:Ep; [exact Hw|].
  destruct (all_claimed (drops w) (TimedDrop._precondition_drops d)) as [v|e] eqn:Ea;
    [|exact Hw].
  simpl. destruct Hw as [[Hc Hr] Hp].
  set (ds' := dict_set (drops w) k (TimedDrop.set_preconditions (Some v) d)).
  assert (Hi : forall k', option_map TimedDrop.is_claimed (dict_get ds' k') =
                          option_map TimedDrop.is_claimed (dict_get (drops w) k')).
  { intros k'. apply set_preconditions_is_claimed, E. }
  assert (Hk : dict_keys ds' = dict_keys (drops w)).
  { apply (dict_keys_set_present _ _ _ _ E). }
  destruct (counts_ext _ _ Hk Hi) as [Ec Eu].
  split; [split|]; unfold drops; simpl; fold ds'.
  - intros v' E'. rewrite Ec. now apply Hc.
  - intros v' E'. rewrite Eu. now apply Hr.
  - intros k' d' v' E' Ev'. rewrite drops_with_drops in E' |- *.
    rewrite (all_claimed_ext _ _ _ Hi).
    destruct (String.eqb k k') eqn:Ek.
    + apply String.eqb_eq in Ek. subst k'. unfold ds' in E'.
      rewrite dict_get_set_same in E'. injection E' as <-.
      simpl in *. now injection Ev' as <-.
    + apply String.eqb_neq in Ek. unfold ds' in E'.
      rewrite dict_get_set_other in E' by auto. now apply (Hp k' d' v').
Qed.

(** ** What a claim changes *)

Lemma with_drops_same w : with_drops (drops w) w = w.
Proof. destruct w as [[] ?]. reflexivity. Qed.

Lemma del_campaign_ok {A : Type} (slot : DropsCampaign.t -> option A) clear w w' :
  del_campaign slot clear w = (Ok tt, w') ->
  w' = mkWorld (clear (campaign w)) (requests w).
Proof.
  unfold del_campaign, bind, get_campaign.
  destruct (slot (campaign w)); [|discriminate].
  unfold modify_campaign. now intros [= <-].
Qed.

Lemma BaseDrop__on_claim_ok k w w' :
  BaseDrop__on_claim k w = (Ok tt, w') ->
  exists d, dict_get (drops w) k = Some d /\
            w' = with_drops (dict_set (drops w) k (TimedDrop.set_preconditions None d)) w.
Proof.
  unfold BaseDrop__on_claim, del_drop, bind at 1, get_drop.
  destruct (dict_get (drops w) k) as [d|] eqn:E; [|discriminate].
  destruct (TimedDrop.preconditions d); [|discriminate].
  rewrite (modify_drop_found _ _ _ _ E). intros [= <-]. eauto.
Qed.

Lemma for_each_on_claim_ok ks w w' :
  for_each ks BaseDrop__on_claim w = (Ok tt, w') ->
  exists ds',
    w' = with_drops ds' w /\
    dict_keys ds' = dict_keys (drops w) /\
    (forall k, In k ks ->
       dict_get ds' k = option_map (TimedDrop.set_preconditions None)
                                   (dict_get (drops w) k)) /\
    (forall k, ~ In k ks -> dict_get ds' k = dict_get (drops w) k).
Proof.
  revert w. induction ks as [|k0 ks IH]; intros w H; simpl in H.
  - injection H as <-. exists (drops w). rewrite with_drops_same.
    repeat apply conj; auto. intros k [].
  - apply bind_ok_inv in H. destruct H as ([] & w1 & H0 & H).
    apply BaseDrop__on_claim_ok in H0. destruct H0 as (d0 & E0 & ->).
    apply IH in H. destruct H as (ds' & -> & Hk & Hin & Hout).
    rewrite drops_with_drops in *.
    exists ds'. repeat apply conj.
    + reflexivity.
    + rewrite Hk. apply (dict_keys_set_present _ _ _ _ E0).
    + intros k Hk0. destruct (String.eqb k0 k) eqn:Ek.
      * apply String.eqb_eq in Ek. subst k. rewrite E0. simpl.
        destruct (in_dec string_dec k0 ks) as [i|n].
        -- rewrite (Hin _ i), dict_get_set_same. reflexivity.
        -- rewrite (Hout _ n), dict_get_set_same. reflexivity.
      * apply String.eqb_neq in Ek. destruct Hk0 as [->|i]; [congruence|].
        rewrite (Hin _ i), dict_get_set_other by auto. reflexivity.
    + intros k Hk0. rewrite Hout by (intros i; apply Hk0; now right).
      apply dict_get_set_other. intros ->. apply Hk0. now left.
Qed.

Lemma DropsCampaign__on_claim_ok w w' :
  DropsCampaign__on_claim w = (Ok tt, w') ->
  exists ds',
    w' = mkWorld (DropsCampaign.set_timed_drops ds'
                    (DropsCampaign.set_remaining_drops None
                       (DropsCampaign.set_claimed_drops None (campaign w))))
                 (requests w) /\
    dict_keys ds' = dict_keys (drops w) /\
    forall k, dict_get ds' k =
              option_map (TimedDrop.set_preconditions None) (dict_get (drops w) k).
Proof.
  unfold DropsCampaign__on_claim. intros H.
  apply bind_ok_inv in H. destruct H as ([] & w1 & H1 & H).
  apply del_campaign_ok in H1. subst w1.
  apply bind_ok_inv in H. destruct H as ([] & w2 & H2 & H).
  apply del_campaign_ok in H2. subst w2.
  unfold bind, get_campaign in H. simpl in H.
  apply for_each_on_claim_ok in H. destruct H as (ds' & -> & Hk & Hin & Hout).
  exists ds'. repeat apply conj; auto.
  intros k. unfold drops in *. simpl in *.
  destruct (in_dec string_dec k (dict_keys (DropsCampaign.timed_drops (campaign w))))
    as [i|n]; [now apply Hin|].
  rewrite (Hout _ n).
  destruct (dict_get (DropsCampaign.timed_drops (campaign w)) k) eqn:E; auto.
  apply dict_get_in_keys in E. contradiction.
Qed.

Lemma modify_drop_ok k f w w' :
  modify_drop k f w = (Ok tt, w') ->
  exists d, dict_get (drops w) k = Some d /\
            w' = with_drops (dict_set (drops w) k (f d)) w.
Proof.
  destruct (dict_get (drops w) k) as [d|] eqn:E.
  - rewrite (modify_drop_found _ _ _ _ E). intros [= <-]. eauto.
  - now rewrite (modify_drop_missing _ _ _ E).
Qed.

Lemma BaseDrop__claim_ok response k w b w' :
  BaseDrop__claim response k w = (Ok b, w') ->
  campaign w' = campaign w /\
  exists d, dict_get (drops w) k = Some d /\
            (b = true -> TimedDrop.claim_id d <> None).
Proof.
  unfold BaseDrop__claim, bind at 1, get_drop.
  destruct (dict_get (drops w) k) as [d|] eqn:E; [|discriminate].
  destruct (TimedDrop.claim_id d) as [token|] eqn:Et.
  - destruct (TimedDrop.is_claimed d).
    + intros [= <- <-]. split; eauto. exists d. split; congruence.
    + unfold bind, gql_request, lift. intros [= _ <-]. split; eauto.
      exists d. split; congruence.
  - intros [= <- <-]. split; eauto. exists d. split; [auto | discriminate].
Qed.

Lemma BaseDrop_claim_ok_false response k w w' :
  BaseDrop_claim response k w = (Ok false, w') -> campaign w' = campaign w.
Proof.
  unfold BaseDrop_claim. intros H.
  apply bind_ok_inv in H. destruct H as (b & w1 & H1 & H).
  apply bind_ok_inv in H. destruct H as ([] & w2 & H2 & H).
  injection H as -> ->. injection H2 as ->.
  now apply BaseDrop__claim_ok in H1.
Qed.

Lemma TimedDrop_claim_ok_false response k w w' :
  TimedDrop_claim response k w = (Ok false, w') -> campaign w' = campaign w.
Proof.
  unfold TimedDrop_claim. intros H.
  apply bind_ok_inv in H. destruct H as (b & w1 & H1 & H).
  apply bind_ok_inv in H. destruct H as ([] & w2 & H2 & H).
  injection H as -> ->. injection H2 as ->.
  now apply BaseDrop_claim_ok_false in H1.
Qed.

(** A claim that returns true has marked the drop claimed, brought its minutes
    to the required ones, emptied both count slots and the [preconditions]
    slot of every drop of the campaign, and changed nothing else in the
    drops' attributes. *)
Lemma TimedDrop_claim_ok_true response a w w' :
  TimedDrop_claim response a w = (Ok true, w') ->
  exists da,
    dict_get (drops w) a = Some da /\
    TimedDrop.claim_id da <> None /\
    DropsCampaign.claimed_drops (campaign w') = None /\
    DropsCampaign.remaining_drops (campaign w') = None /\
    DropsCampaign.starts_at (campaign w') = DropsCampaign.starts_at (campaign w) /\
    DropsCampaign.ends_at (campaign w') = DropsCampaign.ends_at (campaign w) /\
    dict_keys (drops w') = dict_keys (drops w) /\
    forall k, dict_get (drops w') k = option_map (claimed_by a k) (dict_get (drops w) k).
Proof.
  unfold TimedDrop_claim. intros H.
  apply bind_ok_inv in H. destruct H as (b & w3 & H3 & H).
  apply bind_ok_inv in H. destruct H as ([] & w4 & H4 & H).
  injection H as -> ->.
  apply modify_drop_ok in H4. destruct H4 as (d3 & E3 & ->).
  unfold BaseDrop_claim in H3.
  apply bind_ok_inv in H3. destruct H3 as (b & w0 & H0 & H).
  apply bind_ok_inv in H. destruct H as ([] & w2 & H2 & H).
  injection H as -> ->.
  apply bind_ok_inv in H2. destruct H2 as ([] & w1 & H1 & H2).
  apply modify_drop_ok in H1. destruct H1 as (d0 & E0 & ->).
  apply DropsCampaign__on_claim_ok in H2.
  destruct H2 as (ds' & -> & Hk & Hget).
  apply BaseDrop__claim_ok in H0. destruct H0 as (Ec & da & Ea & Ht).
  assert (Ed : drops w0 = drops w) by (unfold drops; now rewrite Ec).
  rewrite Ed in *. rewrite Ea in E0. injection E0 as <-.
  rewrite drops_with_drops in Hk, Hget.
  unfold drops at 1 in E3. simpl in E3.
  rewrite Hget, dict_get_set_same in E3. simpl in E3. injection E3 as <-.
  exists da. repeat apply conj; auto.
  - simpl. now rewrite Ec.
  - simpl. now rewrite Ec.
  - unfold drops at 1. simpl.
    rewrite (dict_keys_set_present ds' a _ (TimedDrop.set_preconditions None
                                              (TimedDrop.set_is_claimed true da))).
    + rewrite Hk. apply (dict_keys_set_present _ _ _ _ Ea).
    + now rewrite Hget, dict_get_set_same.
  - intros k. unfold drops at 1. simpl. unfold claimed_by.
    destruct (String.eqb k a) eqn:Ek.
    + apply String.eqb_eq in Ek. subst k.
      rewrite dict_get_set_same, Ea. reflexivity.
    + apply String.eqb_neq in Ek.
      rewrite dict_get_set_other, Hget, dict_get_set_other by auto. reflexivity.
Qed.

(** ** The claim caches stay fresh along a run *)

Lemma caches_fresh_campaign w w' :
  campaign w' = campaign w -> caches_fresh w -> caches_fresh w'.
Proof.
  unfold caches_fresh, counts_fresh, preconditions_fresh, drops.
  intros ->. auto.
Qed.

Lemma claimed_by_preconditions a k d :
  TimedDrop.preconditions (claimed_by a k d) = None.
Proof. unfold claimed_by. now destruct (String.eqb k a). Qed.

Lemma caches_fresh_after_claim response a w w' :
  TimedDrop_claim response a w = (Ok true, w') -> caches_fresh w'.
Proof.
  intros H. apply TimedDrop_claim_ok_true in H.
  destruct H as (da & _ & _ & Hc & Hr & _ & _ & _ & Hget).
  split; [split|].
  - intros v E. congruence.
  - intros v E. congruence.
  - intros k d v E Ev. rewrite Hget in E.
    destruct (dict_get (drops w) k) as [d0|]; [|discriminate].
    injection E as <-. rewrite claimed_by_preconditions in Ev. discriminate.
Qed.

Lemma exec_fresh c w w' :
  caches_fresh w -> exec c w = (Ok tt, w') -> caches_fresh w'.
Proof.
  intros Hw H.
  assert (Hs : snd (exec c w) = w') by now rewrite H.
  destruct c;
    try (rewrite <- Hs; clear H Hs; revert w Hw;
         apply maintains_fresh_of_same_claims; intro w0;
         match goal with |- maintains _ (exec ?c) => apply (same_claims_exec w0 c) end).
  - rewrite <- Hs. revert Hw. apply maintains_bind;
      [apply preconditions_read_fresh | intro; maintain].
  - rewrite <- Hs. revert Hw. unfold exec, discard, BaseDrop_can_earn.
    apply maintains_bind; [|intro; maintain].
    apply maintains_bind; [apply preconditions_read_fresh|].
    intro; unfold DropsCampaign_active; maintain.
  - rewrite <- Hs. revert Hw. apply maintains_bind;
      [apply claimed_drops_fresh | intro; maintain].
  - rewrite <- Hs. revert Hw. apply maintains_bind;
      [apply remaining_drops_fresh | intro; maintain].
  - simpl in H. unfold discard in H.
    apply bind_ok_inv in H. destruct H as (b & w1 & H1 & H).
    injection H as ->. destruct b.
    + apply (caches_fresh_after_claim _ _ _ _ H1).
    + apply (caches_fresh_campaign w); auto.
      apply (TimedDrop_claim_ok_false _ _ _ _ H1).
Qed.

Lemma run_fresh cs w w' :
  caches_fresh w -> run cs w = (Ok tt, w') -> caches_fresh w'.
Proof.
  revert w. induction cs as [|c cs IH]; simpl; intros w Hw H.
  - now injection H as <-.
  - apply bind_ok_inv in H. destruct H as ([] & w1 & H1 & H).
    apply (IH w1); auto. apply (exec_fresh c w); auto.
Qed.

Lemma timed_drops_of_unread ds :
  forall k d, dict_get (timed_drops_of ds) k = Some d ->
              TimedDrop.preconditions d = None.
Proof.
  unfold timed_drops_of.
  assert (G : forall (m : list (string * TimedDrop.t)),
             (forall k d, dict_get m k = Some d -> TimedDrop.preconditions d = None) ->
             forall k d,
               dict_get (fold_left (fun m d => dict_set m (data_id d) (TimedDrop_init d))
                                   ds m) k = Some d ->
               TimedDrop.preconditions d = None).
  { induction ds as [|x ds IH]; simpl; intros m Hm; [exact Hm|].
    apply IH. intros k d. destruct (String.eqb (data_id x) k) eqn:E.
    - apply String.eqb_eq in E. subst k. rewrite dict_get_set_same.
      now intros [= <-].
    - apply String.eqb_neq in E. rewrite dict_get_set_other by auto. apply Hm. }
  apply G. intros k d. discriminate.
Qed.

Lemma init_fresh data : caches_fresh (init data).
Proof.
  split; [split|].
  - intros v. discriminate.
  - intros v. discriminate.
  - intros k d v E Ev. apply timed_drops_of_unread in E. congruence.
Qed.

Lemma sum_over_split ds ks :
  (forall k, In k ks -> In k (dict_keys ds)) ->
  sum_over ds (fun d => int_of_bool (TimedDrop.is_claimed d)) ks +
  sum_over ds (fun d => int_of_bool (negb (TimedDrop.is_claimed d))) ks =
  Z.of_nat (length ks).
Proof.
  induction ks as [|k ks IH]; intros Hin; [reflexivity|].
  cbn [sum_over length].
  destruct (dict_in_keys_get ds k) as [d E]; [apply Hin; now left|].
  rewrite E. specialize (IH (fun k' i => Hin k' (or_intror i))).
  rewrite Nat2Z.inj_succ. destruct (TimedDrop.is_claimed d); simpl int_of_bool; lia.
Qed.

Lemma count_claimed_unclaimed ds :
  count_claimed ds + count_unclaimed ds = Z.of_nat (length ds).
Proof.
  unfold count_claimed, count_unclaimed. rewrite sum_over_split by auto.
  unfold dict_keys. now rewrite length_map.
Qed.

Lemma read_counts w :
  caches_fresh w ->
  exists w1 w2,
    DropsCampaign_claimed_drops w = (Ok (count_claimed (drops w)), w1) /\
    DropsCampaign_remaining_drops w1 = (Ok (count_unclaimed (drops w)), w2) /\
    drops w2 = drops w.
Proof.
  intros [[Hc Hr] _].
  rewrite DropsCampaign_claimed_drops_eq.
  destruct (DropsCampaign.claimed_drops (campaign w)) as [v|] eqn:Ec;
    [pose proof (Hc v eq_refl); subst v|];
    (destruct (DropsCampaign.remaining_drops (campaign w)) as [u|] eqn:Er;
     [pose proof (Hr u eq_refl); subst u|]);
    (eexists; eexists; split; [reflexivity|]);
    rewrite DropsCampaign_remaining_drops_eq; simpl; rewrite Er;
    (split; reflexivity).
Qed.

(** X20: after a run of calls that all returned (minutes updates, accepted
    and refused claims, reads), reading [claimed_drops] and then
    [remaining_drops] gives two numbers that add up to [total_drops], which
    is still what it was when the campaign was built. *)
Theorem claimed_plus_remaining_is_total :
  forall (data : CampaignData) (cs : list call) (w : World),
    run cs (init data) = (Ok tt, w) ->
    exists claimed remaining w1 w2,
      DropsCampaign_claimed_drops w = (Ok claimed, w1) /\
      DropsCampaign_remaining_drops w1 = (Ok remaining, w2) /\
      fst (DropsCampaign_total_drops w2) = Ok (claimed + remaining) /\
      fst (DropsCampaign_total_drops (init data)) = Ok (claimed + remaining).
Proof.
  intros data cs w H.
  assert (Hf : caches_fresh w) by (apply (run_fresh cs (init data)); auto using init_fresh).
  assert (Hk : dict_keys (drops w) = dict_keys (drops (init data))).
  { pose proof (same_keys_run (init data) cs (init data) eq_refl) as K.
    rewrite H in K. exact K. }
  assert (Hl : length (drops w) = length (drops (init data))).
  { apply (f_equal (@length string)) in Hk. unfold dict_keys in Hk.
    now rewrite !length_map in Hk. }
  destruct (read_counts w Hf) as (w1 & w2 & H1 & H2 & Hd).
  exists (count_claimed (drops w)), (count_unclaimed (drops w)), w1, w2.
  rewrite count_claimed_unclaimed.
  repeat apply conj; auto;
    unfold DropsCampaign_total_drops, bind, get_campaign, ret; unfold drops in *;
    cbn [fst]; congruence.
Qed.

Lemma claimed_plus_remaining_is_total_witness :
  run two_units_calls (init two_units_data) =
    (Ok tt, snd (run two_units_calls (init two_units_data))) /\
  exists claimed remaining w1 w2,
    DropsCampaign_claimed_drops (snd (run two_units_calls (init two_units_data)))
      = (Ok claimed, w1) /\
    DropsCampaign_remaining_drops w1 = (Ok remaining, w2) /\
    fst (DropsCampaign_total_drops w2) = Ok (claimed + remaining) /\
    fst (DropsCampaign_total_drops (init two_units_data)) = Ok (claimed + remaining).
Proof.
  split.
  - vm_compute. reflexivity.
  - apply (claimed_plus_remaining_is_total two_units_data two_units_calls).
    vm_compute. reflexivity.
Defined.

(** C7 (fails on the code): a claim the transport accepts is a mutation
    too when it raises.  With [remaining_drops] read and [claimed_drops]
    not, the claim marks the drop claimed and raises at
    [del self.claimed_drops]; [remaining_drops] keeps the count it had, and
    the two counts of a campaign of two drops then add up to three. *)
Theorem counts_exceed_total_after_raising_claim :
  fst (run [GetRemainingDrops] two_units) = Ok tt /\
  fst (TimedDrop_claim accepted "a" two_units_counted) = Raise AttributeError /\
  requests two_units_counted_claimed = ["token"] /\
  option_map TimedDrop.is_claimed (dict_get (drops two_units_counted_claimed) "a")
    = Some true /\
  option_map TimedDrop.is_claimed (dict_get (drops two_units_counted_claimed) "b")
    = Some false /\
  fst (DropsCampaign_claimed_drops two_units_counted_claimed) = Ok 1 /\
  fst (DropsCampaign_remaining_drops
         (snd (DropsCampaign_claimed_drops two_units_counted_claimed))) = Ok 2 /\
  fst (DropsCampaign_total_drops two_units_counted_claimed) = Ok 2 /\
  fst (DropsCampaign_total_drops two_units) = Ok 2.
Proof. repeat (apply conj); vm_compute; reflexivity. Qed.

(** ** Eligibility of a drop that waits for another *)

Lemma BaseDrop_can_earn_value w b d t1 t2 :
  dict_get (drops w) b = Some d ->
  fst (BaseDrop_can_earn t1 t2 b w) =
  match
    match TimedDrop.preconditions d with
    | Some v => Ok v
    | None => all_claimed (drops w) (TimedDrop._precondition_drops d)
    end
  with
  | Raise e => Raise e
  | Ok p =>
      Ok (p && negb (TimedDrop.is_claimed d)
            && ((DropsCampaign.starts_at (campaign w) <=? t1)
                && (t1 <? DropsCampaign.ends_at (campaign w)))
            && ((TimedDrop.starts_at d <=? t2) && (t2 <? TimedDrop.ends_at d)))
  end.
Proof.
  intros E. unfold BaseDrop_can_earn, bind at 1.
  rewrite (BaseDrop_preconditions_eq _ _ _ E).
  destruct (TimedDrop.preconditions d) as [v|] eqn:Ep.
  - destruct v; simpl; [|reflexivity].
    unfold bind at 1. rewrite (get_drop_found _ _ _ E).
    destruct (TimedDrop.is_claimed d); simpl; [reflexivity|].
    unfold bind, DropsCampaign_active, bind, get_campaign, ret.
    destruct ((DropsCampaign.starts_at (campaign w) <=? t1)
              && (t1 <? DropsCampaign.ends_at (campaign w))); reflexivity.
  - destruct (all_claimed (drops w) (TimedDrop._precondition_drops d)) as [v|e];
      [|reflexivity].
    destruct v; simpl; [|reflexivity].
    unfold bind at 1, get_drop. rewrite drops_with_drops, dict_get_set_same.
    simpl. destruct (TimedDrop.is_claimed d); simpl; [reflexivity|].
    unfold bind, DropsCampaign_active, bind, get_campaign, ret. simpl.
    destruct ((DropsCampaign.starts_at (campaign w) <=? t1)
              && (t1 <? DropsCampaign.ends_at (campaign w))); reflexivity.
Qed.

Lemma all_claimed_true ds pids :
  (forall p, In p pids ->
     exists dp, dict_get ds p = Some dp /\ TimedDrop.is_claimed dp = true) ->
  all_claimed ds pids = Ok true.
Proof.
  induction pids as [|p pids IH]; intros H; simpl; [reflexivity|].
  destruct (H p (or_introl eq_refl)) as (dp & -> & ->).
  apply IH. intros q i. apply H. now right.
Qed.

Lemma all_claimed_unclaimed ds pids a da :
  dict_get ds a = Some da ->
  TimedDrop.is_claimed da = false ->
  In a pids ->
  all_claimed ds pids <> Ok true.
Proof.
  intros Ea Hc. induction pids as [|p pids IH]; simpl; [tauto|].
  intros [->|i].
  - rewrite Ea, Hc. discriminate.
  - destruct (dict_get ds p) as [dp|]; [|discriminate].
    destruct (TimedDrop.is_claimed dp); [auto | discriminate].
Qed.

Lemma all_claimed_false ds pids a da :
  dict_get ds a = Some da ->
  TimedDrop.is_claimed da = false ->
  In a pids ->
  (forall p, In p pids -> p <> a ->
     exists dp, dict_get ds p = Some dp /\ TimedDrop.is_claimed dp = true) ->
  all_claimed ds pids = Ok false.
Proof.
  intros Ea Hc. induction pids as [|p pids IH]; simpl; [tauto|].
  intros Hin H. destruct (string_dec p a) as [->|n].
  - now rewrite Ea, Hc.
  - destruct (H p (or_introl eq_refl) n) as (dp & -> & ->).
    apply IH.
    + destruct Hin; [congruence | auto].
    + intros q i. apply H. now right.
Qed.

Lemma claimed_by_is_claimed a k d :
  TimedDrop.is_claimed (claimed_by a k d) = String.eqb k a || TimedDrop.is_claimed d.
Proof. unfold claimed_by. now destruct (String.eqb k a). Qed.

(** X19: on a campaign reached by a run of calls that all returned, let [a]
    be an unclaimed drop that [b] lists among its preconditions, and let
    [claim] on [a] return true.  Then [a] is claimed and no drop of the campaign keeps a
    [preconditions] value; before the claim [can_earn] of [b] was not true;
    and when [b]'s other conditions hold (another drop, unclaimed, its other
    preconditions claimed, campaign active, inside its own window) it read
    false before the claim and reads true after it. *)
Theorem claim_unblocks_waiting_drop :
  forall (data : CampaignData) (cs : list call) (w : World)
         (response : JsonType) (a b : string) (da db : TimedDrop.t) (w' : World),
    run cs (init data) = (Ok tt, w) ->
    dict_get (drops w) a = Some da ->
    TimedDrop.is_claimed da = false ->
    dict_get (drops w) b = Some db ->
    In a (TimedDrop._precondition_drops db) ->
    TimedDrop_claim response a w = (Ok true, w') ->
    (exists da', dict_get (drops w') a = Some da' /\ TimedDrop.is_claimed da' = true) /\
    (forall k d, dict_get (drops w') k = Some d -> TimedDrop.preconditions d = None) /\
    (forall t1 t2, fst (BaseDrop_can_earn t1 t2 b w) <> Ok true) /\
    (forall t1 t2,
       b <> a ->
       TimedDrop.is_claimed db = false ->
       (forall p, In p (TimedDrop._precondition_drops db) -> p <> a ->
          exists dp, dict_get (drops w) p = Some dp /\ TimedDrop.is_claimed dp = true) ->
       fst (DropsCampaign_active t1 w') = Ok true ->
       TimedDrop.starts_at db <= t2 < TimedDrop.ends_at db ->
       fst (BaseDrop_can_earn t1 t2 b w) = Ok false /\
       fst (BaseDrop_can_earn t1 t2 b w') = Ok true).
Proof.
  intros data cs w response a b da db w' Hrun Ea Hca Eb Hin Hclaim.
  assert (Hf : caches_fresh w) by (apply (run_fresh cs (init data)); auto using init_fresh).
  destruct Hf as [_ Hp].
  pose proof (all_claimed_unclaimed _ _ _ _ Ea Hca Hin) as Hnot.
  apply TimedDrop_claim_ok_true in Hclaim.
  destruct Hclaim as (da0 & Ea0 & _ & _ & _ & Hs & He & _ & Hget).
  rewrite Ea in Ea0. injection Ea0 as <-.
  repeat apply conj.
  - exists (claimed_by a a da). rewrite Hget, Ea. split; [reflexivity|].
    now rewrite claimed_by_is_claimed, String.eqb_refl.
  - intros k d E. rewrite Hget in E.
    destruct (dict_get (drops w) k); [|discriminate].
    injection E as <-. apply claimed_by_preconditions.
  - intros t1 t2. rewrite (BaseDrop_can_earn_value _ _ _ _ _ Eb).
    destruct (TimedDrop.preconditions db) as [v|] eqn:Ec.
    + specialize (Hp b db v Eb Ec). destruct v; [congruence | discriminate].
    + destruct (all_claimed (drops w) (TimedDrop._precondition_drops db)) as [[|]|e];
        [congruence | discriminate | discriminate].
  - intros t1 t2 Hne Hcb Hothers Hact Hwin.
    pose proof (all_claimed_false _ _ _ _ Ea Hca Hin Hothers) as Hfalse.
    split.
    + rewrite (BaseDrop_can_earn_value _ _ _ _ _ Eb).
      destruct (TimedDrop.preconditions db) as [v|] eqn:Ec.
      * specialize (Hp b db v Eb Ec). rewrite Hfalse in Hp. now injection Hp as <-.
      * now rewrite Hfalse.
    + assert (Eb' : dict_get (drops w') b = Some (TimedDrop.set_preconditions None db)).
      { rewrite Hget, Eb. simpl. unfold claimed_by.
        apply String.eqb_neq in Hne. now rewrite Hne. }
      rewrite (BaseDrop_can_earn_value _ _ _ _ _ Eb'). simpl.
      rewrite all_claimed_true.
      * unfold DropsCampaign_active, bind, get_campaign, ret in Hact. simpl in Hact.
        injection Hact as ->. rewrite Hcb. simpl.
        apply f_equal. apply andb_true_intro. split.
        -- apply Z.leb_le. lia.
        -- apply Z.ltb_lt. lia.
      * intros p i. rewrite Hget. destruct (string_dec p a) as [->|n].
        -- rewrite Ea. eexists. split; [reflexivity|].
           now rewrite claimed_by_is_claimed, String.eqb_refl.
        -- destruct (Hothers p i n) as (dp & -> & Hdp). eexists. split; [reflexivity|].
           rewrite claimed_by_is_claimed, Hdp. apply orb_true_r.
Qed.

Lemma claim_unblocks_waiting_drop_witness :
  fst (BaseDrop_can_earn 50 50 "b" two_units_ready) = Ok false /\
  fst (BaseDrop_can_earn 50 50 "b" two_units_claimed) = Ok true.
Proof.
  assert (H1 : run two_units_reads (init two_units_data) = (Ok tt, two_units_ready))
    by (vm_compute; reflexivity).
  assert (H2 : dict_get (drops two_units_ready) "a" = Some (drop_at two_units_ready "a"))
    by (vm_compute; reflexivity).
  assert (H3 : TimedDrop.is_claimed (drop_at two_units_ready "a") = false)
    by (vm_compute; reflexivity).
  assert (H4 : dict_get (drops two_units_ready) "b" = Some (drop_at two_units_ready "b"))
    by (vm_compute; reflexivity).
  assert (H5 : In "a" (TimedDrop._precondition_drops (drop_at two_units_ready "b")))
    by (vm_compute; auto).
  assert (H6 : TimedDrop_claim accepted "a" two_units_ready = (Ok true, two_units_claimed))
    by (vm_compute; reflexivity).
  apply (proj2 (proj2 (proj2
           (claim_unblocks_waiting_drop two_units_data two_units_reads two_units_ready
              accepted "a" "b" _ _ two_units_claimed H1 H2 H3 H4 H5 H6)))).
  - discriminate.
  - vm_compute; reflexivity.
  - intros p i n. vm_compute in i. destruct i as [<-|[]]. congruence.
  - vm_compute; reflexivity.
  - vm_compute. split; [discriminate | reflexivity].
Defined.

(** C6 (fails on the code): [b] waits for [a] and everything else about [b]
    holds.  A caller polls [b.can_earn], which caches [b.preconditions] as
    false, and claims [a]; the transport accepts, [a] is marked claimed, and
    the cascade raises at [del self.claimed_drops], which was never read.
    [b.preconditions] is not deleted: [can_earn] of [b] is false at every
    later reading of the clock, and leaves the campaign as it is, although
    it is true as soon as the slot is emptied.  The same happens when every
    cached property was read but the [preconditions] of a drop that comes
    before [b] in the campaign. *)
Theorem raising_claim_leaves_waiting_drop_blocked :
  fst (BaseDrop_can_earn 50 50 "b" two_units) = Ok false /\
  fst (TimedDrop_claim accepted "a" two_units_polled) = Raise AttributeError /\
  requests two_units_polled_claimed = ["token"] /\
  option_map TimedDrop.is_claimed (dict_get (drops two_units_polled_claimed) "a")
    = Some true /\
  (forall t1 t2,
     BaseDrop_can_earn t1 t2 "b" two_units_polled_claimed
     = (Ok false, two_units_polled_claimed)) /\
  fst (BaseDrop_can_earn 50 50 "b"
         (snd (BaseDrop__on_claim "b" two_units_polled_claimed))) = Ok true /\
  fst (run three_units_reads (init three_units_data)) = Ok tt /\
  fst (TimedDrop_claim accepted "a" three_units_c_unread) = Raise AttributeError /\
  option_map TimedDrop.is_claimed (dict_get (drops three_units_claimed) "a")
    = Some true /\
  (forall t1 t2,
     BaseDrop_can_earn t1 t2 "b" three_units_claimed = (Ok false, three_units_claimed)) /\
  fst (BaseDrop_can_earn 50 50 "b"
         (snd (BaseDrop__on_claim "b" three_units_claimed))) = Ok true.
Proof. repeat (apply conj); try intros t1 t2; vm_compute; reflexivity. Qed.

(** ** Claiming a drop that is already claimed *)

Lemma bind_assoc {A B C : Type} (m : M A) (g : A -> M B) (h : B -> M C) w :
  bind (bind m g) h w = bind m (fun a => bind (g a) h) w.
Proof. unfold bind. now destruct (m w) as [[a|e] w1]. Qed.

Lemma bind_eq {A B : Type} (m : M A) (f : A -> M B) w a w1 :
  m w = (Ok a, w1) -> bind m f w = f a w1.
Proof. intros H. unfold bind. now rewrite H. Qed.

Lemma BaseDrop__claim_claimed response k w d :
  dict_get (drops w) k = Some d ->
  TimedDrop.is_claimed d = true ->
  BaseDrop__claim response k w =
  (Ok (match TimedDrop.claim_id d with Some _ => true | None => false end), w).
Proof.
  intros E Hc. unfold BaseDrop__claim, bind. rewrite (get_drop_found _ _ _ E).
  destruct (TimedDrop.claim_id d); [now rewrite Hc | reflexivity].
Qed.

Lemma TimedDrop_claim_result response k w b w' :
  TimedDrop_claim response k w = (Ok b, w') ->
  exists w0, BaseDrop__claim response k w = (Ok b, w0).
Proof.
  unfold TimedDrop_claim, BaseDrop_claim. intros H.
  apply bind_ok_inv in H. destruct H as (b1 & w1 & H1 & H).
  apply bind_ok_inv in H. destruct H as ([] & w2 & _ & H).
  injection H as -> _.
  apply bind_ok_inv in H1. destruct H1 as (b0 & w0 & H0 & H).
  apply bind_ok_inv in H. destruct H as ([] & w3 & _ & H).
  injection H as -> _. eauto.
Qed.

(** C4 (fails as stated): a claimed drop without a claim id makes [claim]
    return false. *)
Lemma claimed_without_claim_id_returns_false :
  option_map TimedDrop.is_claimed (dict_get (drops (claimed_unit None)) "a") = Some true /\
  fst (TimedDrop_claim accepted "a" (claimed_unit None)) = Ok false /\
  fst (TimedDrop_claim accepted "a" (claimed_unit None)) <> Ok true.
Proof. repeat apply conj; try reflexivity. discriminate. Qed.

(** C4, amended: on a claimed drop [claim] sends no request.  [_claim]
    answers at once, true with a claim id and false without; without a claim
    id [claim] returns false and changes nothing; with one, [claim] returns
    true whenever it returns. *)
Theorem claim_on_claimed_drop :
  forall (w : World) (k : string) (d : TimedDrop.t) (response : JsonType),
    dict_get (drops w) k = Some d ->
    TimedDrop.is_claimed d = true ->
    requests (snd (TimedDrop_claim response k w)) = requests w /\
    BaseDrop__claim response k w =
      (Ok (match TimedDrop.claim_id d with Some _ => true | None => false end), w) /\
    (TimedDrop.claim_id d = None -> TimedDrop_claim response k w = (Ok false, w)) /\
    (TimedDrop.claim_id d <> None ->
       forall r w', TimedDrop_claim response k w = (Ok r, w') -> r = true).
Proof.
  intros w k d response E Hc.
  pose proof (BaseDrop__claim_claimed response k w d E Hc) as H0.
  repeat apply conj.
  - unfold TimedDrop_claim, BaseDrop_claim.
    rewrite !bind_assoc, (bind_eq _ _ _ _ _ H0).
    destruct (TimedDrop.claim_id d); [|reflexivity].
    match goal with
    | |- requests (snd (?m w)) = requests w =>
        assert (Hm : maintains (same_requests w) m) by (unfold_ops; maintain);
        exact (Hm w eq_refl)
    end.
  - exact H0.
  - intros Hn. apply (TimedDrop_claim_no_token _ _ d); auto.
  - intros Hn r w' H. apply TimedDrop_claim_result in H. destruct H as (w0 & H).
    rewrite H0 in H. destruct (TimedDrop.claim_id d); [|congruence].
    now injection H as <- _.
Qed.

Lemma claim_on_claimed_drop_witness :
  fst (TimedDrop_claim accepted "a" claimed_unit_ready) = Ok true /\
  requests (snd (TimedDrop_claim accepted "a" claimed_unit_ready))
    = requests claimed_unit_ready /\
  BaseDrop__claim accepted "a" claimed_unit_ready =
    (Ok (match TimedDrop.claim_id (drop_at claimed_unit_ready "a") with
         | Some _ => true
         | None => false
         end), claimed_unit_ready) /\
  (TimedDrop.claim_id (drop_at claimed_unit_ready "a") = None ->
     TimedDrop_claim accepted "a" claimed_unit_ready = (Ok false, claimed_unit_ready)) /\
  (TimedDrop.claim_id (drop_at claimed_unit_ready "a") <> None ->
     forall r w', TimedDrop_claim accepted "a" claimed_unit_ready = (Ok r, w') -> r = true).
Proof.
  split; [vm_compute; reflexivity|].
  apply (claim_on_claimed_drop claimed_unit_ready "a"
           (drop_at claimed_unit_ready "a") accepted).
  - vm_compute; reflexivity.
  - vm_compute; reflexivity.
Defined.

(** ** What does hold of the minutes *)

(** A drop the snapshot reports claimed is built with its minutes at the
    required ones and nothing cached. *)
Lemma TimedDrop_init_claimed data :
  data_isClaimed data = true ->
  TimedDrop.is_claimed (TimedDrop_init data) = true /\
  TimedDrop.current_minutes (TimedDrop_init data) =
    TimedDrop.required_minutes (TimedDrop_init data) /\
  TimedDrop.progress (TimedDrop_init data) = None /\
  TimedDrop.remaining_minutes (TimedDrop_init data) = None.
Proof. intros H. unfold TimedDrop_init. simpl. rewrite H. auto. Qed.

(** A claim that returns true leaves the drop claimed with its minutes at the
    required ones; its [progress] and [remaining_minutes] slots are as they
    were. *)
Lemma TimedDrop_claim_sets_minutes response a w w' :
  TimedDrop_claim response a w = (Ok true, w') ->
  exists da da',
    dict_get (drops w) a = Some da /\
    dict_get (drops w') a = Some da' /\
    TimedDrop.is_claimed da' = true /\
    TimedDrop.current_minutes da' = TimedDrop.required_minutes da' /\
    TimedDrop.progress da' = TimedDrop.progress da /\
    TimedDrop.remaining_minutes da' = TimedDrop.remaining_minutes da.
Proof.
  intros H. apply TimedDrop_claim_ok_true in H.
  destruct H as (da & Ea & _ & _ & _ & _ & _ & _ & Hget).
  exists da, (claimed_by a a da). rewrite Hget, Ea.
  unfold claimed_by. rewrite String.eqb_refl. simpl. auto 10.
Qed.

(** With an empty slot and the minutes at the required ones,
    [remaining_minutes] reads 0. *)
Lemma TimedDrop_remaining_minutes_unread w k d :
  dict_get (drops w) k = Some d ->
  TimedDrop.remaining_minutes d = None ->
  TimedDrop.current_minutes d = TimedDrop.required_minutes d ->
  fst (TimedDrop_remaining_minutes k w) = Ok 0.
Proof.
  intros E Hn Hm. unfold TimedDrop_remaining_minutes, bind at 1.
  rewrite (get_drop_found _ _ _ E), Hn, Hm, Z.sub_diag.
  unfold bind. now rewrite (modify_drop_found _ _ _ _ E).
Qed.

Lemma same_minutes_on_minutes_changed w0 k :
  maintains (same_on TimedDrop.current_minutes w0) (TimedDrop__on_minutes_changed k).
Proof. unfold_ops; maintain. Qed.

(** Whether or not the invalidation then raises, [bump_minutes] adds exactly
    one minute below the requirement, and does nothing at all from the
    requirement on. *)
Lemma TimedDrop_bump_minutes_effect w k d :
  dict_get (drops w) k = Some d ->
  option_map TimedDrop.current_minutes
    (dict_get (drops (snd (TimedDrop_bump_minutes k w))) k) =
  Some (if TimedDrop.current_minutes d <? TimedDrop.required_minutes d
        then TimedDrop.current_minutes d + 1
        else TimedDrop.current_minutes d) /\
  (TimedDrop.required_minutes d <= TimedDrop.current_minutes d ->
   TimedDrop_bump_minutes k w = (Ok tt, w)).
Proof.
  intros E.
  assert (Hb : TimedDrop_bump_minutes k w =
               if TimedDrop.current_minutes d <? TimedDrop.required_minutes d
               then TimedDrop__on_minutes_changed k
                      (with_drops
                         (dict_set (drops w) k
                            (TimedDrop.set_current_minutes
                               (TimedDrop.current_minutes d + 1) d)) w)
               else (Ok tt, w)).
  { unfold TimedDrop_bump_minutes, bind at 1. rewrite (get_drop_found _ _ _ E).
    destruct (TimedDrop.current_minutes d <? TimedDrop.required_minutes d);
      [|reflexivity].
    unfold bind. now rewrite (modify_drop_found _ _ _ _ E). }
  rewrite Hb.
  destruct (TimedDrop.current_minutes d <? TimedDrop.required_minutes d) eqn:Hlt.
  - split; [|apply Z.ltb_lt in Hlt; lia].
    match goal with
    | |- option_map _ (dict_get (drops (snd (?m ?w1))) k) = _ =>
        rewrite (same_minutes_on_minutes_changed w1 k w1 (fun _ => eq_refl) k)
    end.
    now rewrite drops_with_drops, dict_get_set_same.
  - split; [cbn [snd]; now rewrite E | reflexivity].
Qed.

(** ** Two ticks in a row *)

Lemma del_drop_ok {A : Type} (slot : TimedDrop.t -> option A) clear k w w' :
  del_drop slot clear k w = (Ok tt, w') ->
  exists d, dict_get (drops w) k = Some d /\
            w' = with_drops (dict_set (drops w) k (clear d)) w.
Proof.
  unfold del_drop, bind at 1, get_drop.
  destruct (dict_get (drops w) k) as [d|] eqn:E; [|discriminate].
  destruct (slot d); [|discriminate].
  rewrite (modify_drop_found _ _ _ _ E). intros [= <-]. eauto.
Qed.

Lemma TimedDrop__on_minutes_changed_ok k w w' :
  TimedDrop__on_minutes_changed k w = (Ok tt, w') ->
  exists d,
    dict_get (drops w) k = Some d /\
    dict_get (drops w') k =
      Some (TimedDrop.set_remaining_minutes None (TimedDrop.set_progress None d)).
Proof.
  unfold TimedDrop__on_minutes_changed. intros H.
  apply bind_ok_inv in H. destruct H as ([] & w1 & H1 & H).
  apply bind_ok_inv in H. destruct H as ([] & w2 & H2 & H).
  apply del_drop_ok in H1. destruct H1 as (d & E & ->).
  apply del_drop_ok in H2. destruct H2 as (d1 & E1 & ->).
  rewrite drops_with_drops, dict_get_set_same in E1. injection E1 as <-.
  unfold DropsCampaign__on_minutes_changed in H.
  apply bind_ok_inv in H. destruct H as ([] & w3 & H3 & H).
  apply del_campaign_ok in H3. apply del_campaign_ok in H. subst w3 w'.
  exists d. split; [exact E|].
  unfold drops. simpl. apply dict_get_set_same.
Qed.

(** A [bump_minutes] that returns below the requirement has emptied the
    drop's [progress] slot, so the next one, still below the requirement,
    raises: no two ticks in a row both return. *)
Lemma second_bump_in_a_row_raises w k d w' :
  dict_get (drops w) k = Some d ->
  TimedDrop.current_minutes d + 1 < TimedDrop.required_minutes d ->
  TimedDrop_bump_minutes k w = (Ok tt, w') ->
  fst (TimedDrop_bump_minutes k w') = Raise AttributeError.
Proof.
  intros E Hlt H.
  unfold TimedDrop_bump_minutes, bind at 1 in H.
  rewrite (get_drop_found _ _ _ E) in H.
  destruct (TimedDrop.current_minutes d <? TimedDrop.required_minutes d) eqn:Hb;
    [|apply Z.ltb_ge in Hb; lia].
  apply bind_ok_inv in H. destruct H as ([] & w1 & H1 & H).
  rewrite (modify_drop_found _ _ _ _ E) in H1. injection H1 as <-.
  apply TimedDrop__on_minutes_changed_ok in H. destruct H as (d1 & E1 & E').
  rewrite drops_with_drops, dict_get_set_same in E1. injection E1 as <-.
  unfold TimedDrop_bump_minutes, bind at 1.
  rewrite (get_drop_found _ _ _ E'). simpl.
  assert (Hb' : (TimedDrop.current_minutes d + 1 <? TimedDrop.required_minutes d) = true)
    by (apply Z.ltb_lt; lia).
  rewrite Hb'. unfold bind at 1. rewrite (modify_drop_found _ _ _ _ E').
  unfold TimedDrop__on_minutes_changed, bind at 1, del_drop, bind at 1, get_drop.
  rewrite drops_with_drops, dict_get_set_same. reflexivity.
Qed.

(** So thirty [bump_minutes] in a row on a drop at 0 of 30 minutes never
    complete, whatever has been read before. *)
Lemma thirty_bumps_in_a_row_raise w k d :
  dict_get (drops w) k = Some d ->
  TimedDrop.current_minutes d = 0 ->
  TimedDrop.required_minutes d = 30 ->
  fst (run (repeat (BumpMinutes k) 30) w) <> Ok tt.
Proof.
  intros E Hc Hr. change (repeat (BumpMinutes k) 30)
    with (BumpMinutes k :: BumpMinutes k :: repeat (BumpMinutes k) 28).
  cbn [run exec]. unfold bind at 1.
  destruct (TimedDrop_bump_minutes k w) as [[[]|e] w1] eqn:H1; [|discriminate].
  unfold bind at 1.
  rewrite (surjective_pairing (TimedDrop_bump_minutes k w1)).
  rewrite (second_bump_in_a_row_raises w k d w1 E ltac:(lia) H1).
  discriminate.
Qed.

(** * Further properties of the code *)

(** ** The campaign's time window *)

(** X1: at one reading of the clock a campaign is upcoming, active or
    expired; active excludes the two others; and when it does not end before
    it starts it is exactly one of the three.  None of the three reads
    changes anything. *)
Theorem campaign_window_phases :
  forall (w : World) (now : Z),
    exists a u e,
      DropsCampaign_active now w = (Ok a, w) /\
      DropsCampaign_upcoming now w = (Ok u, w) /\
      DropsCampaign_expired now w = (Ok e, w) /\
      a || u || e = true /\
      (a = true -> u = false /\ e = false) /\
      (DropsCampaign.starts_at (campaign w) <= DropsCampaign.ends_at (campaign w) ->
       Z.b2z a + Z.b2z u + Z.b2z e = 1).
Proof.
  intros w now.
  unfold DropsCampaign_active, DropsCampaign_upcoming, DropsCampaign_expired,
    bind, get_campaign, ret.
  do 3 eexists. repeat apply conj; try reflexivity.
  - destruct (DropsCampaign.starts_at (campaign w) <=? now) eqn:E1;
      destruct (now <? DropsCampaign.ends_at (campaign w)) eqn:E2;
      destruct (now <? DropsCampaign.starts_at (campaign w)) eqn:E3;
      destruct (DropsCampaign.ends_at (campaign w) <=? now) eqn:E4;
      try reflexivity; lia.
  - intros H. apply andb_prop in H. destruct H as [H1 H2].
    split; [apply Z.ltb_ge | apply Z.leb_gt]; lia.
  - intros H.
    destruct (DropsCampaign.starts_at (campaign w) <=? now) eqn:E1;
      destruct (now <? DropsCampaign.ends_at (campaign w)) eqn:E2;
      destruct (now <? DropsCampaign.starts_at (campaign w)) eqn:E3;
      destruct (DropsCampaign.ends_at (campaign w) <=? now) eqn:E4;
      try reflexivity; lia.
Qed.

Lemma campaign_window_phases_witness :
  exists a u e,
    DropsCampaign_active 100 two_units = (Ok a, two_units) /\
    DropsCampaign_upcoming 100 two_units = (Ok u, two_units) /\
    DropsCampaign_expired 100 two_units = (Ok e, two_units) /\
    a || u || e = true /\
    (a = true -> u = false /\ e = false) /\
    Z.b2z a + Z.b2z u + Z.b2z e = 1.
Proof.
  destruct (campaign_window_phases two_units 100)
    as (a & u & e & Ha & Hu & He & H1 & H2 & H3).
  exists a, u, e. repeat apply conj; auto.
  apply H3. vm_compute. discriminate.
Defined.

(** ** Eligibility *)

(** X2: [can_earn] is true only for an unclaimed drop, with the campaign
    active at the first reading of the clock and the second reading inside
    the drop's own half-open window. *)
Theorem can_earn_true_only_if :
  forall (w : World) (k : string) (d : TimedDrop.t) (now_campaign now_drop : Z),
    dict_get (drops w) k = Some d ->
    fst (BaseDrop_can_earn now_campaign now_drop k w) = Ok true ->
    TimedDrop.is_claimed d = false /\
    fst (DropsCampaign_active now_campaign w) = Ok true /\
    TimedDrop.starts_at d <= now_drop < TimedDrop.ends_at d.
Proof.
  intros w k d t1 t2 E H.
  rewrite (BaseDrop_can_earn_value _ _ _ _ _ E) in H.
  destruct (match TimedDrop.preconditions d with
            | Some v => Ok v
            | None => all_claimed (drops w) (TimedDrop._precondition_drops d)
            end) as [p|e]; [|discriminate].
  injection H as H.
  apply andb_prop in H. destruct H as [H Hw].
  apply andb_prop in H. destruct H as [H Ha].
  apply andb_prop in H. destruct H as [_ Hc].
  apply andb_prop in Hw. destruct Hw as [Hw1 Hw2].
  repeat apply conj.
  - now destruct (TimedDrop.is_claimed d).
  - unfold DropsCampaign_active, bind, get_campaign, ret. simpl. now rewrite Ha.
  - now apply Z.leb_le.
  - now apply Z.ltb_lt.
Qed.

Lemma can_earn_true_only_if_witness :
  TimedDrop.is_claimed (drop_at two_units_claimed "b") = false /\
  fst (DropsCampaign_active 50 two_units_claimed) = Ok true /\
  TimedDrop.starts_at (drop_at two_units_claimed "b") <= 50
    < TimedDrop.ends_at (drop_at two_units_claimed "b").
Proof.
  apply (can_earn_true_only_if two_units_claimed "b"
           (drop_at two_units_claimed "b") 50 50).
  - vm_compute; reflexivity.
  - vm_compute; reflexivity.
Defined.

(** ** Building the campaign *)

Lemma dict_get_set {V : Type} (m : list (string * V)) k v k' :
  dict_get (dict_set m k v) k' = if String.eqb k k' then Some v else dict_get m k'.
Proof.
  destruct (String.eqb k k') eqn:E.
  - apply String.eqb_eq in E. subst. apply dict_get_set_same.
  - apply String.eqb_neq in E. now apply dict_get_set_other.
Qed.

Lemma dict_get_none_keys {V : Type} (m : list (string * V)) k :
  dict_get m k = None <-> ~ In k (dict_keys m).
Proof.
  split.
  - intros H i. apply dict_in_keys_get in i. destruct i as [v E]. congruence.
  - intros H. destruct (dict_get m k) eqn:E; auto.
    apply dict_get_in_keys in E. contradiction.
Qed.

Lemma dict_keys_set_absent {V : Type} (m : list (string * V)) k v :
  dict_get m k = None -> dict_keys (dict_set m k v) = (dict_keys m ++ [k])%list.
Proof.
  unfold dict_keys. induction m as [|[k' v'] m IH]; simpl; [reflexivity|].
  destruct (String.eqb k' k); [discriminate|].
  intros H. simpl. now rewrite IH.
Qed.

Lemma find_app_last {A : Type} (p : A -> bool) l x :
  find p (l ++ [x])%list =
  match find p l with
  | Some a => Some a
  | None => if p x then Some x else None
  end.
Proof.
  induction l as [|a l IH]; simpl; [reflexivity|]. now destruct (p a).
Qed.

Lemma timed_drops_fold_get ds :
  forall m k,
    dict_get (fold_left (fun m d => dict_set m (data_id d) (TimedDrop_init d)) ds m) k =
    match last_with_id ds k with
    | Some d => Some (TimedDrop_init d)
    | None => dict_get m k
    end.
Proof.
  unfold last_with_id. induction ds as [|x ds IH]; intros m k; simpl; [reflexivity|].
  rewrite IH, find_app_last.
  destruct (find (fun d => String.eqb (data_id d) k) (rev ds)); [reflexivity|].
  rewrite dict_get_set. now destruct (String.eqb (data_id x) k).
Qed.

Lemma timed_drops_fold_keys ds :
  forall m,
    NoDup (dict_keys m) ->
    NoDup (dict_keys (fold_left (fun m d => dict_set m (data_id d) (TimedDrop_init d))
                                ds m)) /\
    forall k,
      In k (dict_keys (fold_left (fun m d => dict_set m (data_id d) (TimedDrop_init d))
                                 ds m)) <->
      In k (dict_keys m) \/ In k (map data_id ds).
Proof.
  induction ds as [|x ds IH]; intros m Hm; simpl.
  - split; [exact Hm | intros k; tauto].
  - assert (Hset : NoDup (dict_keys (dict_set m (data_id x) (TimedDrop_init x))) /\
                   forall k, In k (dict_keys (dict_set m (data_id x) (TimedDrop_init x)))
                             <-> In k (dict_keys m) \/ data_id x = k).
    { destruct (dict_get m (data_id x)) as [v|] eqn:E.
      - rewrite (dict_keys_set_present _ _ _ _ E). split; [exact Hm|].
        intros k. split; [tauto|]. intros [i| <-]; [exact i|].
        apply (dict_get_in_keys _ _ _ E).
      - rewrite (dict_keys_set_absent _ _ _ E). split.
        + apply NoDup_app; [exact Hm | repeat constructor; intros [] |].
          * intros k i [<-|[]]. apply dict_get_none_keys in E. contradiction.
        + intros k. rewrite in_app_iff. simpl. tauto. }
    destruct Hset as [Hn Hin]. destruct (IH _ Hn) as [IH1 IH2].
    split; [exact IH1|]. intros k. rewrite IH2, Hin. tauto.
Qed.

(** X3: the campaign keeps one drop per id of the snapshot: looking an id up
    gives the drop built from the last entry that carries it (nothing for an
    id the snapshot does not have), and [total_drops] is the number of
    distinct ids. *)
Theorem campaign_has_one_drop_per_id :
  forall (data : CampaignData),
    (forall k, dict_get (drops (init data)) k =
               option_map TimedDrop_init (last_with_id (cdata_timeBasedDrops data) k)) /\
    NoDup (dict_keys (drops (init data))) /\
    (forall k, In k (dict_keys (drops (init data))) <->
               In k (map data_id (cdata_timeBasedDrops data))) /\
    DropsCampaign_total_drops (init data) =
      (Ok (Z.of_nat (length (nodup string_dec
                               (map data_id (cdata_timeBasedDrops data))))),
       init data).
Proof.
  intros data. unfold drops, init. simpl. unfold timed_drops_of.
  destruct (timed_drops_fold_keys (cdata_timeBasedDrops data) [] (NoDup_nil _))
    as [Hn Hin].
  repeat apply conj.
  - intros k. rewrite timed_drops_fold_get.
    now destruct (last_with_id (cdata_timeBasedDrops data) k).
  - exact Hn.
  - intros k. rewrite Hin. simpl. tauto.
  - unfold DropsCampaign_total_drops, bind, get_campaign, ret. simpl.
    unfold timed_drops_of. do 3 f_equal.
    rewrite <- (length_map fst). apply Permutation_length.
    apply NoDup_Permutation; [exact Hn | apply NoDup_nodup |].
    intros k. fold (dict_keys (fold_left
      (fun m d => dict_set m (data_id d) (TimedDrop_init d))
      (cdata_timeBasedDrops data) [])).
    rewrite Hin, nodup_In. simpl. tauto.
Qed.

(** ** What calls leave alone *)

Lemma same_view_refl {T U : Type} (pd : TimedDrop.t -> T) (pc : DropsCampaign.t -> U) w :
  same_view pd pc w w.
Proof. unfold same_view. auto. Qed.

Lemma same_view_modify_drop {T U : Type} (pd : TimedDrop.t -> T)
    (pc : DropsCampaign.t -> U) w0 k f :
  (forall d, pd (f d) = pd d) ->
  (forall c ds, pc (DropsCampaign.set_timed_drops ds c) = pc c) ->
  maintains (same_view pd pc w0) (modify_drop k f).
Proof.
  intros Hf Hc w (H1 & H2 & H3).
  destruct (dict_get (drops w) k) as [d|] eqn:E.
  - rewrite (modify_drop_found _ _ _ _ E). unfold same_view. simpl.
    rewrite drops_with_drops, (dict_keys_set_present _ _ _ _ E), Hc.
    repeat apply conj; auto.
    intros k'. rewrite <- H2, dict_get_set.
    destruct (String.eqb k k') eqn:Ek; [|reflexivity].
    apply String.eqb_eq in Ek. subst k'. rewrite E. simpl. now rewrite Hf.
  - rewrite (modify_drop_missing _ _ _ E). unfold same_view. auto.
Qed.

Lemma same_view_modify_campaign {T U : Type} (pd : TimedDrop.t -> T)
    (pc : DropsCampaign.t -> U) w0 f :
  (forall c, DropsCampaign.timed_drops (f c) = DropsCampaign.timed_drops c /\
             pc (f c) = pc c) ->
  maintains (same_view pd pc w0) (modify_campaign f).
Proof.
  intros Hf w (H1 & H2 & H3). destruct (Hf (campaign w)) as [F1 F2].
  unfold same_view, drops in *. simpl. rewrite F1, F2. auto.
Qed.

Lemma same_view_gql_request {T U : Type} (pd : TimedDrop.t -> T)
    (pc : DropsCampaign.t -> U) w0 c r :
  maintains (same_view pd pc w0) (gql_request c r).
Proof. intros w H. exact H. Qed.

Lemma claims_grow_refl w : claims_grow w w.
Proof. intros k. exists false. now destruct (dict_get (drops w) k). Qed.

Lemma claims_grow_modify_drop w0 k f :
  (forall d, exists b, TimedDrop.is_claimed (f d) = b || TimedDrop.is_claimed d) ->
  maintains (claims_grow w0) (modify_drop k f).
Proof.
  intros Hf w H. destruct (dict_get (drops w) k) as [d|] eqn:E.
  - rewrite (modify_drop_found _ _ _ _ E). intros k'. simpl.
    rewrite drops_with_drops, dict_get_set. destruct (H k') as [b0 Hb0].
    destruct (String.eqb k k') eqn:Ek; [|eauto].
    apply String.eqb_eq in Ek. subst k'. rewrite E in Hb0.
    destruct (dict_get (drops w0) k) as [d0|]; [|discriminate].
    simpl in *. injection Hb0 as Hb0. destruct (Hf d) as [b Hb].
    exists (b || b0). now rewrite Hb, Hb0, orb_assoc.
  - now rewrite (modify_drop_missing _ _ _ E).
Qed.

Lemma claims_grow_modify_campaign w0 f :
  (forall c, DropsCampaign.timed_drops (f c) = DropsCampaign.timed_drops c) ->
  maintains (claims_grow w0) (modify_campaign f).
Proof.
  intros Hf w H k. unfold drops in *. simpl. rewrite Hf. apply H.
Qed.

Lemma claims_grow_gql_request w0 c r : maintains (claims_grow w0) (gql_request c r).
Proof. intros w H. exact H. Qed.

Ltac preserve :=
  repeat first
    [ apply maintains_ret
    | apply maintains_raise
    | apply maintains_lift
    | apply maintains_get_campaign
    | apply maintains_get_drop
    | apply same_view_modify_drop; [intro; reflexivity | intros; reflexivity]
    | apply same_view_modify_campaign; intro; split; reflexivity
    | apply same_view_gql_request
    | apply claims_grow_modify_drop; intro;
      first [exists false; reflexivity | exists true; reflexivity]
    | apply claims_grow_modify_campaign; intro; reflexivity
    | apply claims_grow_gql_request
    | apply same_requests_modify_drop
    | apply same_requests_modify_campaign
    | apply maintains_for_each; intro
    | apply maintains_sum_int; intro
    | apply maintains_sum_float; intro
    | apply maintains_bind; [| intro]
    | match goal with
      | |- maintains _ (match ?x with _ => _ end) => destruct x
      end ].

Lemma maintains_run (I : World -> Prop) cs :
  (forall c, maintains I (exec c)) -> maintains I (run cs).
Proof.
  intros H. induction cs as [|c cs IH]; simpl.
  - apply maintains_ret.
  - apply maintains_bind; [apply H | intro; exact IH].
Qed.

Lemma static_exec w0 c : maintains (same_view static_of static_of_campaign w0) (exec c).
Proof. destruct c; unfold_ops; preserve. Qed.

Lemma claims_grow_exec w0 c : maintains (claims_grow w0) (exec c).
Proof. destruct c; unfold_ops; preserve. Qed.

(** X8: whatever is called, and whether the calls return or raise, the
    campaign keeps the same drops in the same order, every drop keeps its id,
    name, rewards, window, precondition ids and required minutes, and the
    campaign its id, name, game, window and allowed channels. *)
Theorem calls_keep_what_init_set :
  forall (cs : list call) (w : World),
    dict_keys (drops (snd (run cs w))) = dict_keys (drops w) /\
    (forall k, option_map static_of (dict_get (drops (snd (run cs w))) k) =
               option_map static_of (dict_get (drops w) k)) /\
    static_of_campaign (campaign (snd (run cs w))) = static_of_campaign (campaign w).
Proof.
  intros cs w.
  apply (maintains_run (same_view static_of static_of_campaign w) cs
           (static_exec w) w (same_view_refl _ _ w)).
Qed.

(** X7: a claimed drop stays claimed: no call, returning or raising, sets
    [is_claimed] back to false or removes the drop. *)
Theorem claimed_stays_claimed :
  forall (cs : list call) (w : World) (k : string) (d : TimedDrop.t),
    dict_get (drops w) k = Some d ->
    TimedDrop.is_claimed d = true ->
    exists d', dict_get (drops (snd (run cs w))) k = Some d' /\
               TimedDrop.is_claimed d' = true.
Proof.
  intros cs w k d E Hc.
  pose proof (maintains_run (claims_grow w) cs (claims_grow_exec w) w
                (claims_grow_refl w) k) as [b Hb].
  rewrite E in Hb. simpl in Hb. rewrite Hc, orb_true_r in Hb.
  destruct (dict_get (drops (snd (run cs w))) k) as [d'|]; [|discriminate].
  exists d'. split; [reflexivity|]. now injection Hb.
Qed.

Lemma claimed_stays_claimed_witness :
  exists d',
    dict_get (drops (snd (run [UpdateMinutes 3 "a"; GetProgress] two_units_claimed))) "a"
      = Some d' /\
    TimedDrop.is_claimed d' = true.
Proof.
  apply (claimed_stays_claimed [UpdateMinutes 3 "a"; GetProgress] two_units_claimed "a"
           (drop_at two_units_claimed "a")).
  - vm_compute; reflexivity.
  - vm_compute; reflexivity.
Defined.

(** ** Requests *)

Lemma same_requests_exec w0 c :
  is_claim c = false -> maintains (same_requests w0) (exec c).
Proof. destruct c; try discriminate; intros _; unfold_ops; maintain. Qed.

Lemma BaseDrop__claim_requests response k w :
  requests (snd (BaseDrop__claim response k w)) = requests w \/
  exists d token,
    dict_get (drops w) k = Some d /\
    TimedDrop.claim_id d = Some token /\
    TimedDrop.is_claimed d = false /\
    requests (snd (BaseDrop__claim response k w)) = (requests w ++ [token])%list.
Proof.
  unfold BaseDrop__claim, bind, get_drop, gql_request, lift, ret.
  destruct (dict_get (drops w) k) as [d|] eqn:E; [|now left].
  destruct (TimedDrop.claim_id d) as [token|] eqn:Et; [|now left].
  destruct (TimedDrop.is_claimed d) eqn:Ec; [now left|].
  right. exists d, token. repeat apply conj; auto.
Qed.

(** X4: only [claim] talks to the transport.  Every other call leaves the
    request log as it was, returning or raising; a [claim] sends at most one
    request, only for an unclaimed drop that has a claim id, and the request
    carries that claim id. *)
Theorem only_claim_sends_requests :
  (forall (c : call) (w : World),
     is_claim c = false -> requests (snd (exec c w)) = requests w) /\
  (forall (response : JsonType) (k : string) (w : World),
     requests (snd (TimedDrop_claim response k w)) = requests w \/
     exists d token,
       dict_get (drops w) k = Some d /\
       TimedDrop.claim_id d = Some token /\
       TimedDrop.is_claimed d = false /\
       requests (snd (TimedDrop_claim response k w)) = (requests w ++ [token])%list).
Proof.
  split.
  - intros c w H. exact (same_requests_exec w c H w eq_refl).
  - intros response k w.
    assert (Htail : requests (snd (TimedDrop_claim response k w)) =
                    requests (snd (BaseDrop__claim response k w))).
    { unfold TimedDrop_claim, BaseDrop_claim. rewrite !bind_assoc.
      unfold bind at 1.
      destruct (BaseDrop__claim response k w) as [[b|e] w1]; [|reflexivity].
      match goal with
      | |- requests (snd (?m w1)) = _ =>
          assert (Hm : maintains (same_requests w1) m) by (unfold_ops; maintain);
          exact (Hm w1 eq_refl)
      end. }
    rewrite Htail. apply BaseDrop__claim_requests.
Qed.

Lemma only_claim_sends_requests_witness :
  requests (snd (exec (UpdateMinutes 7 "a") half_watched_read))
  = requests half_watched_read.
Proof.
  apply (proj1 only_claim_sends_requests (UpdateMinutes 7 "a") half_watched_read).
  reflexivity.
Defined.

(** ** Reading the answer to a claim request *)

Lemma status_ok_iff x :
  status_ok x = true <->
  exists status, x = JStr status /\
                 (status = "ELIGIBLE_FOR_ALL" \/ status = "DROP_INSTANCE_ALREADY_CLAIMED").
Proof.
  unfold status_ok, is_str. split.
  - destruct x; try discriminate. intros H. exists s. split; [reflexivity|].
    apply orb_prop in H. destruct H as [H|H]; apply String.eqb_eq in H; auto.
  - intros (status & -> & [-> | ->]); reflexivity.
Qed.

Lemma acceptance_accepted response :
  acceptance response -> claim_response response = Ok true.
Proof.
  intros (top & data & rewards & status & -> & Ed & He & Er & Es & Hst).
  assert (Hok : status_ok (JStr status) = true).
  { apply status_ok_iff. eauto. }
  destruct rewards as [|p rs]; [discriminate|].
  unfold claim_response, py_getitem, py_contains.
  rewrite Ed, Er, Es, Hok.
  destruct (dict_get data "errors") as [errors|]; [rewrite He|]; reflexivity.
Qed.

(** X5: [_claim] takes an answer for a success in exactly one case: the
    answer is an object whose [data] is an object without a truthy [errors]
    entry and with a [claimDropRewards] object whose [status] is one of the
    two accepted strings. *)
Theorem claim_response_true_iff :
  forall (response : JsonType),
    claim_response response = Ok true <-> acceptance response.
Proof.
  intros response. unfold acceptance. split.
  - unfold claim_response. intros H.
    destruct response as [| | | | |top]; try discriminate.
    simpl in H. destruct (dict_get top "data") as [data|] eqn:Ed; [|discriminate].
    destruct data as [| | |s|l|data]; try discriminate.
    + simpl in H. destruct (index 0 "errors" s); simpl in H; [discriminate|].
      destruct (index 0 "claimDropRewards" s); discriminate.
    + simpl in H. destruct (existsb (is_str "errors") l); simpl in H; [discriminate|].
      destruct (existsb (is_str "claimDropRewards") l); discriminate.
    + simpl in H.
      assert (He : match dict_get data "errors" with
                   | Some errors => truthy errors = false
                   | None => True
                   end /\
                   match dict_get data "claimDropRewards" with
                   | Some rewards =>
                       if negb (truthy rewards) then Ok false
                       else match py_getitem rewards "status" with
                            | Raise e => Raise e
                            | Ok status => Ok (status_ok status)
                            end
                   | None => Ok false
                   end = Ok true).
      { destruct (dict_get data "errors") as [errors|]; simpl in H.
        - destruct (truthy errors); simpl in H; [discriminate|].
          split; [reflexivity|].
          destruct (dict_get data "claimDropRewards"); exact H.
        - split; [exact I|].
          destruct (dict_get data "claimDropRewards"); exact H. }
      destruct He as [He Hr].
      destruct (dict_get data "claimDropRewards") as [rewards|] eqn:Er; [|discriminate].
      destruct (negb (truthy rewards)); [discriminate|].
      destruct rewards as [| | | | |rewards]; try discriminate.
      simpl in Hr. destruct (dict_get rewards "status") as [status|] eqn:Es;
        [|discriminate].
      injection Hr as Hr. apply status_ok_iff in Hr. destruct Hr as (st & -> & Hst).
      exists top, data, rewards, st. repeat apply conj; auto.
  - apply acceptance_accepted.
Qed.

Lemma claim_response_true_iff_witness :
  claim_response (response_status "DROP_INSTANCE_ALREADY_CLAIMED") = Ok true.
Proof.
  apply (proj2 (claim_response_true_iff (response_status "DROP_INSTANCE_ALREADY_CLAIMED"))).
  exists [("data", JDict [("claimDropRewards",
                           JDict [("status", JStr "DROP_INSTANCE_ALREADY_CLAIMED")])])],
    [("claimDropRewards", JDict [("status", JStr "DROP_INSTANCE_ALREADY_CLAIMED")])],
    [("status", JStr "DROP_INSTANCE_ALREADY_CLAIMED")],
    "DROP_INSTANCE_ALREADY_CLAIMED".
  repeat apply conj; try reflexivity; try exact I. now right.
Defined.

(** X6: when the request is sent and the answer is anything but an
    acceptance, [claim] returns or raises exactly what reading the answer
    gives, and only the request log has changed.  An answer without [data]
    raises [KeyError], one whose [data] is null raises [TypeError], and a
    non-empty [claimDropRewards] object without [status] raises [KeyError]. *)
Theorem claim_not_accepted_changes_nothing :
  (forall (w : World) (k : string) (d : TimedDrop.t) (token : string)
          (response : JsonType),
     dict_get (drops w) k = Some d ->
     TimedDrop.claim_id d = Some token ->
     TimedDrop.is_claimed d = false ->
     claim_response response <> Ok true ->
     TimedDrop_claim response k w =
       (claim_response response, mkWorld (campaign w) (requests w ++ [token])%list)) /\
  (forall top, dict_get top "data" = None ->
               claim_response (JDict top) = Raise KeyError) /\
  (forall top, dict_get top "data" = Some JNull ->
               claim_response (JDict top) = Raise TypeError) /\
  (forall top data p rewards,
     dict_get top "data" = Some (JDict data) ->
     dict_get data "errors" = None ->
     dict_get data "claimDropRewards" = Some (JDict (p :: rewards)) ->
     dict_get (p :: rewards) "status" = None ->
     claim_response (JDict top) = Raise KeyError).
Proof.
  repeat apply conj.
  - intros w k d token response E Et Ec Hn.
    unfold TimedDrop_claim, BaseDrop_claim, BaseDrop__claim, bind.
    rewrite (get_drop_found _ _ _ E), Et, Ec.
    unfold gql_request, lift.
    destruct (claim_response response) as [[|]|e]; [congruence | reflexivity | reflexivity].
  - intros top H. unfold claim_response, py_getitem. now rewrite H.
  - intros top H. unfold claim_response, py_getitem. now rewrite H.
  - intros top data p rewards Hd He Hr Hs.
    unfold claim_response, py_getitem, py_contains. now rewrite Hd, He, Hr, Hs.
Qed.

Lemma claim_not_accepted_changes_nothing_witness :
  TimedDrop_claim (JDict []) "a" half_watched =
    (claim_response (JDict []),
     mkWorld (campaign half_watched) (requests half_watched ++ ["token"])%list) /\
  claim_response (JDict []) = Raise KeyError /\
  claim_response (JDict [("data", JNull)]) = Raise TypeError /\
  claim_response (JDict [("data", JDict [("claimDropRewards", JDict [("id", JInt 1)])])])
    = Raise KeyError.
Proof.
  destruct claim_not_accepted_changes_nothing as (H1 & H2 & H3 & H4).
  repeat apply conj.
  - apply (H1 half_watched "a" (drop_at half_watched "a") "token" (JDict []));
      try reflexivity. discriminate.
  - apply H2. reflexivity.
  - apply H3. reflexivity.
  - apply (H4 _ [("claimDropRewards", JDict [("id", JInt 1)])] ("id", JInt 1) []);
      reflexivity.
Defined.

(** ** Preconditions *)

Lemma all_claimed_true_inv ds pids :
  all_claimed ds pids = Ok true ->
  forall p, In p pids ->
    exists dp, dict_get ds p = Some dp /\ TimedDrop.is_claimed dp = true.
Proof.
  induction pids as [|q pids IH]; simpl; [intros _ p []|].
  destruct (dict_get ds q) as [dq|] eqn:E; [|discriminate].
  destruct (TimedDrop.is_claimed dq) eqn:Ec; [|discriminate].
  intros H p [<-|i]; [eauto | now apply IH].
Qed.

Lemma all_claimed_raise ds pids e :
  all_claimed ds pids = Raise e ->
  e = KeyError /\ exists p, In p pids /\ dict_get ds p = None.
Proof.
  induction pids as [|q pids IH]; simpl; [discriminate|].
  destruct (dict_get ds q) as [dq|] eqn:E.
  - destruct (TimedDrop.is_claimed dq); [|discriminate].
    intros H. destruct (IH H) as (-> & p & i & Hp). split; [reflexivity|]. eauto.
  - intros [= <-]. split; [reflexivity|]. eauto.
Qed.

(** X15: read for the first time, [preconditions] is true exactly when every
    precondition id names a claimed drop of the campaign (so it is true of a
    drop without preconditions); it raises nothing but [KeyError], only when
    some precondition id names no drop, and then it caches nothing. *)
Theorem preconditions_first_read :
  forall (w : World) (k : string) (d : TimedDrop.t),
    dict_get (drops w) k = Some d ->
    TimedDrop.preconditions d = None ->
    (fst (BaseDrop_preconditions k w) = Ok true <->
       forall p, In p (TimedDrop._precondition_drops d) ->
         exists dp, dict_get (drops w) p = Some dp /\ TimedDrop.is_claimed dp = true) /\
    (forall e, fst (BaseDrop_preconditions k w) = Raise e ->
       e = KeyError /\
       snd (BaseDrop_preconditions k w) = w /\
       exists p, In p (TimedDrop._precondition_drops d) /\ dict_get (drops w) p = None).
Proof.
  intros w k d E Hn. rewrite (BaseDrop_preconditions_eq _ _ _ E), Hn.
  destruct (all_claimed (drops w) (TimedDrop._precondition_drops d)) as [v|e] eqn:Ha;
    simpl.
  - split; [|discriminate]. split.
    + intros [= ->]. now apply all_claimed_true_inv.
    + intros H. apply all_claimed_true in H. congruence.
  - split.
    + split; [discriminate|]. intros H. apply all_claimed_true in H. congruence.
    + intros e' [= <-]. destruct (all_claimed_raise _ _ _ Ha) as (-> & p & i & Hp).
      repeat split; eauto.
Qed.

Lemma preconditions_first_read_witness :
  fst (BaseDrop_preconditions "b" two_units) = Ok true <->
  forall p, In p (TimedDrop._precondition_drops (drop_at two_units "b")) ->
    exists dp, dict_get (drops two_units) p = Some dp /\ TimedDrop.is_claimed dp = true.
Proof.
  apply (proj1 (preconditions_first_read two_units "b" (drop_at two_units "b")
                  eq_refl eq_refl)).
Defined.

(** ** Game *)

(** X16: [==] on games is an equivalence, games that compare equal have the
    same hash, and comparing with anything that is not a game gives
    [NotImplemented]. *)
Theorem Game_eq_equivalence :
  forall (hash : string * Z -> Z),
    (forall g, Game_eq g (Game.Instance g) = Some true) /\
    (forall g h, Game_eq g (Game.Instance h) = Game_eq h (Game.Instance g)) /\
    (forall g h i,
       Game_eq g (Game.Instance h) = Some true ->
       Game_eq h (Game.Instance i) = Some true ->
       Game_eq g (Game.Instance i) = Some true) /\
    (forall g h,
       Game_eq g (Game.Instance h) = Some true -> Game_hash hash g = Game_hash hash h) /\
    (forall g, Game_eq g Game.Other = None).
Proof.
  intros hash. unfold Game_eq, Game_hash. repeat apply conj.
  - intros g. now rewrite Z.eqb_refl.
  - intros g h. now rewrite Z.eqb_sym.
  - intros g h i [= H1] [= H2]. apply Z.eqb_eq in H1, H2.
    f_equal. apply Z.eqb_eq. congruence.
  - intros g h [= H]. apply Z.eqb_eq in H. now rewrite H.
  - reflexivity.
Qed.

Lemma Game_eq_equivalence_witness :
  Game_eq (Game.mk 7 "a") (Game.Instance (Game.mk 7 "c")) = Some true /\
  Game_hash (fun p => snd p) (Game.mk 7 "a") = Game_hash (fun p => snd p) (Game.mk 7 "b").
Proof.
  destruct (Game_eq_equivalence (fun p => snd p)) as (_ & _ & Ht & Hh & _).
  split.
  - apply (Ht (Game.mk 7 "a") (Game.mk 7 "b") (Game.mk 7 "c")); reflexivity.
  - apply Hh. reflexivity.
Defined.

(** ** Changing the minutes *)

Lemma dict_set_set {V : Type} (m : list (string * V)) k a b :
  dict_set (dict_set m k a) k b = dict_set m k b.
Proof.
  induction m as [|[k' v'] m IH]; simpl.
  - now rewrite String.eqb_refl.
  - destruct (String.eqb k' k) eqn:E; simpl; rewrite E; [reflexivity | now rewrite IH].
Qed.

Lemma bind_raise {A B : Type} (m : M A) (f : A -> M B) w e w1 :
  m w = (Raise e, w1) -> bind m f w = (Raise e, w1).
Proof. intros H. unfold bind. now rewrite H. Qed.

Lemma DropsCampaign__on_minutes_changed_eq w :
  DropsCampaign__on_minutes_changed w =
  match DropsCampaign.progress (campaign w) with
  | None => (Raise AttributeError, w)
  | Some _ =>
      match DropsCampaign.remaining_minutes (campaign w) with
      | None =>
          (Raise AttributeError,
           mkWorld (DropsCampaign.set_progress None (campaign w)) (requests w))
      | Some _ =>
          (Ok tt,
           mkWorld (DropsCampaign.set_remaining_minutes None
                      (DropsCampaign.set_progress None (campaign w))) (requests w))
      end
  end.
Proof.
  unfold DropsCampaign__on_minutes_changed, del_campaign, bind, get_campaign,
    modify_campaign, raise.
  destruct (DropsCampaign.progress (campaign w)); [|reflexivity]. simpl.
  now destruct (DropsCampaign.remaining_minutes (campaign w)).
Qed.

Lemma TimedDrop__on_minutes_changed_eq k w d :
  dict_get (drops w) k = Some d ->
  TimedDrop__on_minutes_changed k w =
  match TimedDrop.progress d with
  | None => (Raise AttributeError, w)
  | Some _ =>
      match TimedDrop.remaining_minutes d with
      | None =>
          (Raise AttributeError,
           with_drops (dict_set (drops w) k (TimedDrop.set_progress None d)) w)
      | Some _ =>
          DropsCampaign__on_minutes_changed
            (with_drops
               (dict_set (drops w) k
                  (TimedDrop.set_remaining_minutes None (TimedDrop.set_progress None d)))
               w)
      end
  end.
Proof.
  intros E. unfold TimedDrop__on_minutes_changed, del_drop.
  rewrite bind_assoc, (bind_eq _ _ _ _ _ (get_drop_found _ _ _ E)).
  destruct (TimedDrop.progress d) eqn:E1; [|reflexivity].
  rewrite (bind_eq _ _ _ _ _ (modify_drop_found _ _ _ _ E)).
  assert (E' : dict_get (drops (with_drops
                  (dict_set (drops w) k (TimedDrop.set_progress None d)) w)) k
               = Some (TimedDrop.set_progress None d))
    by (rewrite drops_with_drops; apply dict_get_set_same).
  rewrite bind_assoc, (bind_eq _ _ _ _ _ (get_drop_found _ _ _ E')).
  simpl. destruct (TimedDrop.remaining_minutes d) eqn:E2; [|reflexivity].
  rewrite (bind_eq _ _ _ _ _ (modify_drop_found _ _ _ _ E')).
  rewrite drops_with_drops, dict_set_set. reflexivity.
Qed.

Lemma TimedDrop_update_minutes_cases minutes k w d :
  dict_get (drops w) k = Some d ->
  (minutes_read w d /\
   TimedDrop_update_minutes minutes k w = (Ok tt, minutes_set minutes k d w)) \/
  (~ minutes_read w d /\
   fst (TimedDrop_update_minutes minutes k w) = Raise AttributeError).
Proof.
  intros E. unfold minutes_read.
  assert (E' : dict_get (drops (with_drops
                  (dict_set (drops w) k (TimedDrop.set_current_minutes minutes d)) w)) k
               = Some (TimedDrop.set_current_minutes minutes d))
    by (rewrite drops_with_drops; apply dict_get_set_same).
  unfold TimedDrop_update_minutes.
  rewrite (bind_eq _ _ _ _ _ (modify_drop_found _ _ _ _ E)).
  rewrite (TimedDrop__on_minutes_changed_eq _ _ _ E'). simpl.
  destruct (TimedDrop.progress d) eqn:E1; [|right; split; [tauto | reflexivity]].
  destruct (TimedDrop.remaining_minutes d) eqn:E2; [|right; split; [tauto | reflexivity]].
  rewrite DropsCampaign__on_minutes_changed_eq. simpl.
  destruct (DropsCampaign.progress (campaign w)) eqn:E3;
    [|right; split; [tauto | reflexivity]].
  destruct (DropsCampaign.remaining_minutes (campaign w)) eqn:E4;
    [|right; split; [tauto | reflexivity]].
  left. split; [repeat split; discriminate|].
  unfold minutes_set. rewrite drops_with_drops, dict_set_set. reflexivity.
Qed.

Lemma TimedDrop_remaining_minutes_eq w k d :
  dict_get (drops w) k = Some d ->
  TimedDrop_remaining_minutes k w =
  match TimedDrop.remaining_minutes d with
  | Some v => (Ok v, w)
  | None =>
      let v := TimedDrop.required_minutes d - TimedDrop.current_minutes d in
      (Ok v, with_drops (dict_set (drops w) k
                           (TimedDrop.set_remaining_minutes (Some v) d)) w)
  end.
Proof.
  intros E. unfold TimedDrop_remaining_minutes.
  rewrite (bind_eq _ _ _ _ _ (get_drop_found _ _ _ E)).
  destruct (TimedDrop.remaining_minutes d); [reflexivity|].
  now rewrite (bind_eq _ _ _ _ _ (modify_drop_found _ _ _ _ E)).
Qed.

Lemma TimedDrop_progress_eq w k d :
  dict_get (drops w) k = Some d ->
  TimedDrop_progress k w =
  match TimedDrop.progress d with
  | Some v => (Ok v, w)
  | None =>
      match py_truediv (PyInt (TimedDrop.current_minutes d))
                       (PyInt (TimedDrop.required_minutes d)) with
      | Ok v => (Ok v, with_drops (dict_set (drops w) k
                                     (TimedDrop.set_progress (Some v) d)) w)
      | Raise e => (Raise e, w)
      end
  end.
Proof.
  intros E. unfold TimedDrop_progress.
  rewrite (bind_eq _ _ _ _ _ (get_drop_found _ _ _ E)).
  destruct (TimedDrop.progress d); [reflexivity|].
  unfold bind at 1, lift.
  destruct (py_truediv (PyInt (TimedDrop.current_minutes d))
                       (PyInt (TimedDrop.required_minutes d))); [|reflexivity].
  now rewrite (bind_eq _ _ _ _ _ (modify_drop_found _ _ _ _ E)).
Qed.

Lemma minutes_set_reads minutes k d w :
  fst (TimedDrop_remaining_minutes k (minutes_set minutes k d w)) =
    Ok (TimedDrop.required_minutes d - minutes) /\
  fst (TimedDrop_progress k (minutes_set minutes k d w)) =
    py_truediv (PyInt minutes) (PyInt (TimedDrop.required_minutes d)) /\
  DropsCampaign.progress (campaign (minutes_set minutes k d w)) = None /\
  DropsCampaign.remaining_minutes (campaign (minutes_set minutes k d w)) = None /\
  requests (minutes_set minutes k d w) = requests w /\
  forall k', k' <> k ->
    dict_get (drops (minutes_set minutes k d w)) k' = dict_get (drops w) k'.
Proof.
  assert (E : dict_get (drops (minutes_set minutes k d w)) k =
              Some (TimedDrop.set_remaining_minutes None
                      (TimedDrop.set_progress None
                         (TimedDrop.set_current_minutes minutes d))))
    by (unfold minutes_set, drops; simpl; apply dict_get_set_same).
  repeat apply conj; try reflexivity.
  - now rewrite (TimedDrop_remaining_minutes_eq _ _ _ E).
  - rewrite (TimedDrop_progress_eq _ _ _ E). simpl.
    now destruct (py_truediv (PyInt minutes) (PyInt (TimedDrop.required_minutes d))).
  - intros k' Hne. unfold minutes_set, drops. simpl. now apply dict_get_set_other.
Qed.

(** X10: [update_minutes] returns exactly when the drop's [progress] and
    [remaining_minutes] and the campaign's [progress] and [remaining_minutes]
    have all been read, and raises [AttributeError] otherwise.  When it
    returns, the minutes are the given ones, unclamped; the next
    [remaining_minutes] is [required - minutes] and the next [progress]
    [minutes / required]; both campaign aggregates are emptied; no other drop
    and no request is touched. *)
Theorem update_minutes_returns_iff_read :
  forall (w : World) (k : string) (d : TimedDrop.t) (minutes : Z),
    dict_get (drops w) k = Some d ->
    (fst (TimedDrop_update_minutes minutes k w) = Ok tt <-> minutes_read w d) /\
    (forall e, fst (TimedDrop_update_minutes minutes k w) = Raise e ->
               e = AttributeError) /\
    (minutes_read w d ->
     option_map TimedDrop.current_minutes
       (dict_get (drops (snd (TimedDrop_update_minutes minutes k w))) k) = Some minutes /\
     fst (TimedDrop_remaining_minutes k (snd (TimedDrop_update_minutes minutes k w))) =
       Ok (TimedDrop.required_minutes d - minutes) /\
     fst (TimedDrop_progress k (snd (TimedDrop_update_minutes minutes k w))) =
       py_truediv (PyInt minutes) (PyInt (TimedDrop.required_minutes d)) /\
     DropsCampaign.progress (campaign (snd (TimedDrop_update_minutes minutes k w))) = None /\
     DropsCampaign.remaining_minutes
       (campaign (snd (TimedDrop_update_minutes minutes k w))) = None /\
     requests (snd (TimedDrop_update_minutes minutes k w)) = requests w /\
     forall k', k' <> k ->
       dict_get (drops (snd (TimedDrop_update_minutes minutes k w))) k' =
       dict_get (drops w) k').
Proof.
  intros w k d minutes E.
  destruct (TimedDrop_update_minutes_cases minutes k w d E) as [[Hr H]|[Hn H]].
  - rewrite H. simpl. repeat apply conj.
    + tauto.
    + tauto.
    + discriminate.
    + intros _. split; [|apply minutes_set_reads].
      unfold minutes_set, drops. simpl. now rewrite dict_get_set_same.
  - rewrite H. repeat apply conj.
    + discriminate.
    + tauto.
    + intros e [= <-]. reflexivity.
    + tauto.
Qed.

Lemma update_minutes_returns_iff_read_witness :
  fst (TimedDrop_remaining_minutes "a"
         (snd (TimedDrop_update_minutes 45 "a" half_watched_read))) = Ok (-15).
Proof.
  assert (E : dict_get (drops half_watched_read) "a" = Some (drop_at half_watched_read "a"))
    by (vm_compute; reflexivity).
  assert (Hr : minutes_read half_watched_read (drop_at half_watched_read "a"))
    by (vm_compute; repeat split; discriminate).
  destruct (update_minutes_returns_iff_read half_watched_read "a"
              (drop_at half_watched_read "a") 45 E) as (_ & _ & H).
  destruct (H Hr) as (_ & H1 & _). exact H1.
Defined.

Lemma TimedDrop_bump_minutes_eq w k d :
  dict_get (drops w) k = Some d ->
  TimedDrop_bump_minutes k w =
  if TimedDrop.current_minutes d <? TimedDrop.required_minutes d
  then TimedDrop_update_minutes (TimedDrop.current_minutes d + 1) k w
  else (Ok tt, w).
Proof.
  intros E. unfold TimedDrop_bump_minutes.
  rewrite (bind_eq _ _ _ _ _ (get_drop_found _ _ _ E)).
  now destruct (TimedDrop.current_minutes d <? TimedDrop.required_minutes d).
Qed.

(** X11: from the required minutes on, [bump_minutes] returns without
    changing anything, whatever has been read.  Below them it is
    [update_minutes] to one more minute: it returns exactly when the four
    minute slots have been read, raises [AttributeError] otherwise, and when
    it returns the drop has one minute more, never more than required, and
    the four slots are empty. *)
Theorem bump_minutes_clamps :
  forall (w : World) (k : string) (d : TimedDrop.t),
    dict_get (drops w) k = Some d ->
    (TimedDrop.required_minutes d <= TimedDrop.current_minutes d ->
     TimedDrop_bump_minutes k w = (Ok tt, w)) /\
    (TimedDrop.current_minutes d < TimedDrop.required_minutes d ->
     (fst (TimedDrop_bump_minutes k w) = Ok tt <-> minutes_read w d) /\
     (minutes_read w d ->
      TimedDrop_bump_minutes k w =
        (Ok tt, minutes_set (TimedDrop.current_minutes d + 1) k d w) /\
      TimedDrop.current_minutes d + 1 <= TimedDrop.required_minutes d)) /\
    (forall e, fst (TimedDrop_bump_minutes k w) = Raise e -> e = AttributeError).
Proof.
  intros w k d E. rewrite (TimedDrop_bump_minutes_eq _ _ _ E).
  destruct (TimedDrop.current_minutes d <? TimedDrop.required_minutes d) eqn:Hlt.
  - apply Z.ltb_lt in Hlt.
    destruct (TimedDrop_update_minutes_cases (TimedDrop.current_minutes d + 1) k w d E)
      as [[Hr H]|[Hn H]]; rewrite H; repeat apply conj; try tauto; try lia;
      try discriminate.
    + intros _. split; [tauto|]. intros _. split; [reflexivity | lia].
    + intros _. split; [split; [discriminate | tauto] | tauto].
    + intros e [= <-]. reflexivity.
  - apply Z.ltb_ge in Hlt. repeat apply conj.
    + reflexivity.
    + lia.
    + discriminate.
Qed.

Lemma bump_minutes_clamps_witness :
  TimedDrop_bump_minutes "a" two_units_ready = (Ok tt, two_units_ready) /\
  TimedDrop_bump_minutes "b" two_units_ready =
    (Ok tt, minutes_set (TimedDrop.current_minutes (drop_at two_units_ready "b") + 1)
              "b" (drop_at two_units_ready "b") two_units_ready).
Proof.
  split.
  - apply (proj1 (bump_minutes_clamps two_units_ready "a" (drop_at two_units_ready "a")
                    ltac:(vm_compute; reflexivity))).
    vm_compute. discriminate.
  - assert (E : dict_get (drops two_units_ready) "b" = Some (drop_at two_units_ready "b"))
      by (vm_compute; reflexivity).
    destruct (bump_minutes_clamps two_units_ready "b" (drop_at two_units_ready "b") E)
      as (_ & H & _).
    assert (Hlt : TimedDrop.current_minutes (drop_at two_units_ready "b")
                  < TimedDrop.required_minutes (drop_at two_units_ready "b"))
      by (vm_compute; reflexivity).
    destruct (H Hlt) as (_ & H2).
    apply H2. vm_compute. repeat split; discriminate.
Defined.

(** ** Cached properties *)

Lemma get_drop_ok k w d w' : get_drop k w = (Ok d, w') -> dict_get (drops w) k = Some d /\ w' = w.
Proof.
  unfold get_drop. destruct (dict_get (drops w) k); [|discriminate].
  now intros [= <- <-].
Qed.

Lemma cached_drop_read_found {A : Type} (m : string -> M A) k w v w' :
  (forall w0, dict_get (drops w0) k = None -> m k w0 = (Raise KeyError, w0)) ->
  m k w = (Ok v, w') -> exists d, dict_get (drops w) k = Some d.
Proof.
  intros Hm H. destruct (dict_get (drops w) k) as [d|] eqn:E; [eauto|].
  rewrite (Hm w E) in H. discriminate.
Qed.

(** X9: a cached property that has been read keeps its value: reading any of
    the seven cached properties again, right after a read that returned,
    returns the same value and changes nothing. *)
Theorem cached_reads_are_stable :
  (forall k w v w',
     BaseDrop_preconditions k w = (Ok v, w') ->
     BaseDrop_preconditions k w' = (Ok v, w')) /\
  (forall k w v w',
     TimedDrop_remaining_minutes k w = (Ok v, w') ->
     TimedDrop_remaining_minutes k w' = (Ok v, w')) /\
  (forall k w v w',
     TimedDrop_progress k w = (Ok v, w') ->
     TimedDrop_progress k w' = (Ok v, w')) /\
  (forall w v w',
     DropsCampaign_claimed_drops w = (Ok v, w') ->
     DropsCampaign_claimed_drops w' = (Ok v, w')) /\
  (forall w v w',
     DropsCampaign_remaining_drops w = (Ok v, w') ->
     DropsCampaign_remaining_drops w' = (Ok v, w')) /\
  (forall w v w',
     DropsCampaign_remaining_minutes w = (Ok v, w') ->
     DropsCampaign_remaining_minutes w' = (Ok v, w')) /\
  (forall w v w',
     DropsCampaign_progress w = (Ok v, w') ->
     DropsCampaign_progress w' = (Ok v, w')).
Proof.
  repeat apply conj.
  - intros k w v w' H.
    destruct (cached_drop_read_found BaseDrop_preconditions k w v w') as [d E]; auto.
    { intros w0 E0. unfold BaseDrop_preconditions, bind, get_drop. now rewrite E0. }
    rewrite (BaseDrop_preconditions_eq _ _ _ E) in H.
    destruct (TimedDrop.preconditions d) eqn:Es.
    + injection H as <- <-. now rewrite (BaseDrop_preconditions_eq _ _ _ E), Es.
    + destruct (all_claimed (drops w) (TimedDrop._precondition_drops d)); [|discriminate].
      injection H as <- <-.
      erewrite BaseDrop_preconditions_eq
        by (rewrite drops_with_drops; apply dict_get_set_same).
      reflexivity.
  - intros k w v w' H.
    destruct (cached_drop_read_found TimedDrop_remaining_minutes k w v w') as [d E]; auto.
    { intros w0 E0. unfold TimedDrop_remaining_minutes, bind, get_drop. now rewrite E0. }
    rewrite (TimedDrop_remaining_minutes_eq _ _ _ E) in H.
    destruct (TimedDrop.remaining_minutes d) eqn:Es.
    + injection H as <- <-. now rewrite (TimedDrop_remaining_minutes_eq _ _ _ E), Es.
    + injection H as <- <-.
      erewrite TimedDrop_remaining_minutes_eq
        by (rewrite drops_with_drops; apply dict_get_set_same).
      reflexivity.
  - intros k w v w' H.
    destruct (cached_drop_read_found TimedDrop_progress k w v w') as [d E]; auto.
    { intros w0 E0. unfold TimedDrop_progress, bind, get_drop. now rewrite E0. }
    rewrite (TimedDrop_progress_eq _ _ _ E) in H.
    destruct (TimedDrop.progress d) eqn:Es.
    + injection H as <- <-. now rewrite (TimedDrop_progress_eq _ _ _ E), Es.
    + destruct (py_truediv (PyInt (TimedDrop.current_minutes d))
                           (PyInt (TimedDrop.required_minutes d))); [|discriminate].
      injection H as <- <-.
      erewrite TimedDrop_progress_eq
        by (rewrite drops_with_drops; apply dict_get_set_same).
      reflexivity.
  - intros w v w' H. rewrite DropsCampaign_claimed_drops_eq in H.
    destruct (DropsCampaign.claimed_drops (campaign w)) eqn:Es;
      injection H as <- <-; rewrite DropsCampaign_claimed_drops_eq; simpl;
      now rewrite ?Es.
  - intros w v w' H. rewrite DropsCampaign_remaining_drops_eq in H.
    destruct (DropsCampaign.remaining_drops (campaign w)) eqn:Es;
      injection H as <- <-; rewrite DropsCampaign_remaining_drops_eq; simpl;
      now rewrite ?Es.
  - intros w v w' H. unfold DropsCampaign_remaining_minutes in H.
    apply bind_ok_inv in H. destruct H as (c & w0 & [= <- <-] & H).
    destruct (DropsCampaign.remaining_minutes (campaign w)) eqn:Es.
    + injection H as <- <-.
      unfold DropsCampaign_remaining_minutes, bind, get_campaign. now rewrite Es.
    + apply bind_ok_inv in H. destruct H as (v0 & w1 & _ & H).
      apply bind_ok_inv in H. destruct H as ([] & w2 & [= <-] & [= <- <-]).
      reflexivity.
  - intros w v w' H. unfold DropsCampaign_progress in H.
    apply bind_ok_inv in H. destruct H as (c & w0 & [= <- <-] & H).
    destruct (DropsCampaign.progress (campaign w)) eqn:Es.
    + injection H as <- <-.
      unfold DropsCampaign_progress, bind, get_campaign. now rewrite Es.
    + apply bind_ok_inv in H. destruct H as (s & w1 & _ & H).
      apply bind_ok_inv in H. destruct H as (n & w2 & _ & H).
      apply bind_ok_inv in H. destruct H as (v0 & w3 & _ & H).
      apply bind_ok_inv in H. destruct H as ([] & w4 & [= <-] & [= <- <-]).
      reflexivity.
Qed.

Lemma cached_reads_are_stable_witness :
  DropsCampaign_progress (snd (DropsCampaign_progress two_units)) =
    (Ok (SFdiv prec emax (float_of_int 1) (float_of_int 2)),
     snd (DropsCampaign_progress two_units)).
Proof.
  apply (proj2 (proj2 (proj2 (proj2 (proj2 (proj2 cached_reads_are_stable)))))
           two_units).
  vm_compute. reflexivity.
Defined.

(** ** Rounding ints: what overflows and what does not *)

Lemma digits2_pos_size p : digits2_pos p = Pos.size p.
Proof. induction p; simpl; congruence. Qed.

Lemma Zdigits2_bounds m :
  0 < m -> 2 ^ (Zdigits2 m - 1) <= m < 2 ^ Zdigits2 m.
Proof.
  destruct m as [|p|p]; try lia. intros _.
  change (Zdigits2 (Z.pos p)) with (Z.pos (digits2_pos p)).
  rewrite digits2_pos_size.
  pose proof (Pos.size_gt p) as G. pose proof (Pos.size_le p) as L.
  apply Pos2Z.pos_lt_pos in G. apply Pos2Z.pos_le_pos in L.
  rewrite Pos2Z.inj_pow in G, L.
  assert (E : 2 ^ Z.pos (Pos.size p) = 2 * 2 ^ (Z.pos (Pos.size p) - 1)).
  { rewrite <- Z.pow_succ_r by lia. f_equal. lia. }
  rewrite E in G, L. rewrite E.
  generalize dependent (2 ^ (Z.pos (Pos.size p) - 1)). intros. lia.
Qed.

Lemma Zdigits2_nonneg m : 0 <= Zdigits2 m.
Proof. destruct m; simpl; lia. Qed.

Lemma Zdigits2_le m k : 0 <= m < 2 ^ k -> 0 <= k -> Zdigits2 m <= k.
Proof.
  intros [H0 H] Hk. destruct (Z.eq_dec m 0) as [->|n]; [simpl; lia|].
  destruct (Zdigits2_bounds m) as [L _]; [lia|].
  destruct (Z_le_gt_dec (Zdigits2 m) k); auto.
  assert (2 ^ k <= 2 ^ (Zdigits2 m - 1)) by (apply Z.pow_le_mono_r; lia). lia.
Qed.

Lemma shr_1_m mrs : 0 <= shr_m mrs -> shr_m (shr_1 mrs) = shr_m mrs / 2.
Proof.
  destruct mrs as [m r s]. simpl. intros H.
  destruct m as [|[p|p|]|p]; try lia; simpl shr_m.
  - reflexivity.
  - apply (Z.div_unique _ _ _ 1); lia.
  - apply (Z.div_unique _ _ _ 0); lia.
  - reflexivity.
Qed.

Lemma iter_shr_1_m p : forall mrs,
  0 <= shr_m mrs -> shr_m (iter_pos shr_1 p mrs) = shr_m mrs / 2 ^ Z.pos p.
Proof.
  assert (P : forall m, 0 <= m -> 0 <= m / 2) by (intros; apply Z.div_pos; lia).
  assert (Q : forall m k, 0 <= m -> 0 <= m / 2 ^ Z.pos k)
    by (intros; apply Z.div_pos; [lia | apply Z.pow_pos_nonneg; lia]).
  induction p as [p IH|p IH|]; intros mrs H; simpl iter_pos.
  - rewrite IH, IH, shr_1_m; auto.
    + rewrite !Z.div_div by (try apply Z.pow_pos_nonneg; lia).
      f_equal. rewrite Pos2Z.inj_xI, <- Z.pow_add_r, <- Z.pow_succ_r by lia. f_equal. lia.
    + rewrite shr_1_m; auto.
    + rewrite IH; rewrite shr_1_m; auto.
  - rewrite IH, IH; auto.
    + rewrite !Z.div_div by (try apply Z.pow_pos_nonneg; lia).
      f_equal. rewrite Pos2Z.inj_xO, <- Z.pow_add_r by lia. f_equal. lia.
    + rewrite IH; auto.
  - rewrite shr_1_m; auto.
Qed.

Lemma shr_record_of_loc_m m l : shr_m (shr_record_of_loc m l) = m.
Proof. now destruct l as [|[]]. Qed.

Lemma fexp_eq x : fexp prec emax x = Z.max (x - 53) (-1074).
Proof. reflexivity. Qed.

Lemma shr_fexp_spec m e l :
  0 <= m ->
  (snd (shr_fexp prec emax m e l) = e /\
   shr_m (fst (shr_fexp prec emax m e l)) = m /\
   fexp prec emax (Zdigits2 m + e) <= e) \/
  (snd (shr_fexp prec emax m e l) = fexp prec emax (Zdigits2 m + e) /\
   e < fexp prec emax (Zdigits2 m + e) /\
   shr_m (fst (shr_fexp prec emax m e l)) =
     m / 2 ^ (fexp prec emax (Zdigits2 m + e) - e)).
Proof.
  intros H. unfold shr_fexp, shr.
  destruct (fexp prec emax (Zdigits2 m + e) - e) as [|p|p] eqn:E.
  - left. simpl. rewrite shr_record_of_loc_m. repeat split; lia.
  - right. simpl. rewrite iter_shr_1_m by (rewrite shr_record_of_loc_m; lia).
    rewrite shr_record_of_loc_m. repeat split; lia.
  - left. simpl. rewrite shr_record_of_loc_m. repeat split; lia.
Qed.

Lemma round_nearest_even_bounds m l :
  m <= round_nearest_even m l <= m + 1.
Proof.
  unfold round_nearest_even. destruct l as [|[]]; try lia.
  destruct (Z.even m); lia.
Qed.

Lemma shifted_below m d n :
  0 <= m < 2 ^ d -> 0 < n -> d - n <= 53 -> 0 <= m / 2 ^ n < 2 ^ 53.
Proof.
  intros [H0 H] Hn Hd. split.
  - apply Z.div_pos; [lia | apply Z.pow_pos_nonneg; lia].
  - apply Z.div_lt_upper_bound; [apply Z.pow_pos_nonneg; lia|].
    rewrite <- Z.pow_add_r by lia.
    destruct (Z_le_gt_dec d (n + 53)).
    + assert (2 ^ d <= 2 ^ (n + 53)) by (apply Z.pow_le_mono_r; lia). lia.
    + lia.
Qed.

Lemma Zdigits2_below m : 0 <= m -> m < 2 ^ Zdigits2 m.
Proof.
  intros H. destruct (Z.eq_dec m 0) as [->|n]; [reflexivity|].
  apply Zdigits2_bounds. lia.
Qed.

(** What is rounded stays finite when it is below [2^1023] and its exponent
    is not above the largest one yet. *)
Lemma binary_round_aux_finite sx mx ex lx :
  0 <= mx -> ex <= 970 -> Zdigits2 mx + ex <= 1023 ->
  finite_or_overflow (binary_round_aux prec emax sx mx ex lx) =
  Ok (binary_round_aux prec emax sx mx ex lx).
Proof.
  intros Hm He Hd. unfold binary_round_aux.
  pose proof (shr_fexp_spec mx ex lx Hm) as S1.
  destruct (shr_fexp prec emax mx ex lx) as [mrs1 e1]. simpl in S1.
  assert (B1 : 0 <= shr_m mrs1 < 2 ^ 53 /\ e1 <= 970).
  { pose proof (Zdigits2_below mx Hm) as Hb. rewrite fexp_eq in S1.
    destruct S1 as [(-> & -> & Hf)|(-> & Hlt & ->)].
    - split; [|lia]. split; [lia|].
      assert (2 ^ Zdigits2 mx <= 2 ^ 53) by (apply Z.pow_le_mono_r; lia). lia.
    - split; [|lia]. apply (shifted_below mx (Zdigits2 mx)); lia. }
  destruct B1 as [B1 E1].
  pose proof (round_nearest_even_bounds (shr_m mrs1) (loc_of_shr_record mrs1)) as R.
  set (m2 := round_nearest_even (shr_m mrs1) (loc_of_shr_record mrs1)) in *.
  assert (Hm2 : 0 <= m2) by lia.
  pose proof (shr_fexp_spec m2 e1 loc_Exact Hm2) as S2.
  destruct (shr_fexp prec emax m2 e1 loc_Exact) as [mrs2 e2]. simpl in S2.
  assert (D2 : Zdigits2 m2 <= 54).
  { apply Zdigits2_le; [|lia]. split; [lia|].
    change (2 ^ 54) with (2 * 2 ^ 53). lia. }
  assert (B2 : 0 <= shr_m mrs2 /\ e2 <= 971).
  { rewrite fexp_eq in S2. destruct S2 as [(-> & -> & _)|(-> & Hlt & ->)].
    - lia.
    - split; [|lia]. apply Z.div_pos; [lia | apply Z.pow_pos_nonneg; lia]. }
  destruct B2 as [B2 E2].
  destruct (shr_m mrs2) as [|p|p]; [reflexivity| |lia].
  replace (e2 <=? emax - prec) with true; [reflexivity|].
  symmetry. apply Z.leb_le. unfold emax, prec. lia.
Qed.

Lemma div_core_digits a b :
  0 < a -> 0 < b -> Zdigits2 a - Zdigits2 b <= 1022 ->
  let '(q, e, l) := SFdiv_core_binary prec emax a 0 b 0 in
  0 <= q /\ e <= 0 /\ Zdigits2 q + e <= 1023.
Proof.
  intros Ha Hb Hd. unfold SFdiv_core_binary.
  rewrite !Z.add_0_r, Z.sub_0_r, fexp_eq.
  set (e := Z.min (Z.max (Zdigits2 a - Zdigits2 b - 53) (-1074)) 0).
  assert (He : e <= 0) by (unfold e; lia).
  replace (0 - e) with (- e) by lia.
  set (m' := match - e with Z.pos _ => Z.shiftl a (- e) | 0 => a | Z.neg _ => 0 end).
  assert (Hm' : m' = a * 2 ^ (- e)).
  { unfold m'. destruct (- e) as [|p|p] eqn:E; try lia.
    now rewrite Z.shiftl_mul_pow2 by lia. }
  clearbody m'. subst m'.
  pose proof (Z.div_eucl_eq (a * 2 ^ (- e)) b ltac:(lia)) as Hq.
  pose proof (Z.mod_pos_bound (a * 2 ^ (- e)) b Hb) as Hr.
  unfold Z.modulo in Hr.
  destruct (Z.div_eucl (a * 2 ^ (- e)) b) as [q r].
  assert (Hp : 0 < 2 ^ (- e)) by (apply Z.pow_pos_nonneg; lia).
  assert (Hq0 : 0 <= q) by nia.
  split; [exact Hq0|]. split; [exact He|].
  destruct (Zdigits2_bounds a Ha) as [_ Ua].
  destruct (Zdigits2_bounds b Hb) as [Lb _].
  pose proof (Zdigits2_nonneg a). pose proof (Zdigits2_nonneg b).
  assert (Hb1 : 1 <= Zdigits2 b).
  { destruct b; try lia. simpl. lia. }
  set (k := Z.max 0 (Zdigits2 a - e - Zdigits2 b + 1)).
  assert (Hk : q < 2 ^ k).
  { destruct (Z_lt_ge_dec q (2 ^ k)) as [|G]; auto. exfalso.
    assert (Hqb : q * b <= a * 2 ^ (- e)) by nia.
    assert (Hlt : a * 2 ^ (- e) < 2 ^ (Zdigits2 a - e)).
    { replace (Zdigits2 a - e) with (Zdigits2 a + - e) by lia.
      rewrite Z.pow_add_r by lia. nia. }
    assert (Hge : 2 ^ (Zdigits2 a - e) <= 2 ^ k * 2 ^ (Zdigits2 b - 1)).
    { rewrite <- Z.pow_add_r by lia. apply Z.pow_le_mono_r; lia. }
    assert (0 < 2 ^ k) by (apply Z.pow_pos_nonneg; lia).
    nia. }
  assert (Zdigits2 q <= k) by (apply Zdigits2_le; lia).
  lia.
Qed.

Lemma int_truediv_returns a b :
  b <> 0 -> Zdigits2 a - Zdigits2 b <= 1022 ->
  int_truediv a b = Ok (SFdiv prec emax (exact_int a) (exact_int b)).
Proof.
  intros Hb Hd. unfold int_truediv.
  apply Z.eqb_neq in Hb. rewrite Hb. apply Z.eqb_neq in Hb.
  assert (G : forall sx p q, Zdigits2 (Z.pos p) - Zdigits2 (Z.pos q) <= 1022 ->
            finite_or_overflow (SFdiv prec emax (S754_finite sx p 0) (S754_finite false q 0)) =
            Ok (SFdiv prec emax (S754_finite sx p 0) (S754_finite false q 0)) /\
            finite_or_overflow (SFdiv prec emax (S754_finite sx p 0) (S754_finite true q 0)) =
            Ok (SFdiv prec emax (S754_finite sx p 0) (S754_finite true q 0))).
  { intros sx p q H. unfold SFdiv.
    pose proof (div_core_digits (Z.pos p) (Z.pos q) ltac:(lia) ltac:(lia) H) as C.
    destruct (SFdiv_core_binary prec emax (Z.pos p) 0 (Z.pos q) 0) as [[mz ez] lz].
    destruct C as (C1 & C2 & C3).
    split; apply binary_round_aux_finite; lia. }
  destruct a as [|p|p], b as [|q|q]; try congruence; try reflexivity;
    apply G; exact Hd.
Qed.

Lemma Zdigits2_abs n : Zdigits2 (Z.abs n) = Zdigits2 n.
Proof. now destruct n. Qed.

Lemma Zdigits2_ge m k : 0 <= k -> 2 ^ k <= m -> k + 1 <= Zdigits2 m.
Proof.
  intros Hk H. assert (0 < 2 ^ k) by (apply Z.pow_pos_nonneg; lia).
  destruct (Zdigits2_bounds m ltac:(lia)) as [_ U].
  destruct (Z_le_gt_dec (k + 1) (Zdigits2 m)); auto.
  assert (2 ^ Zdigits2 m <= 2 ^ k)
    by (apply Z.pow_le_mono_r; [lia | pose proof (Zdigits2_nonneg m); lia]).
  lia.
Qed.

Lemma Zdigits2_mono a b : 0 <= a <= b -> Zdigits2 a <= Zdigits2 b.
Proof.
  intros H. apply Zdigits2_le; [|apply Zdigits2_nonneg].
  pose proof (Zdigits2_below b ltac:(lia)). lia.
Qed.

Lemma digits2_iter_xO m d :
  digits2_pos (Pos.iter xO m d) = (digits2_pos m + d)%positive.
Proof.
  induction d as [|d IH] using Pos.peano_ind.
  - simpl. lia.
  - rewrite Pos.iter_succ. simpl. rewrite IH. lia.
Qed.

Lemma shl_align_digits m :
  let '(mz, ez) := shl_align m 0 (fexp prec emax (Z.pos (digits2_pos m) + 0)) in
  -52 <= ez <= 0 /\
  Z.pos (digits2_pos mz) + ez = Z.pos (digits2_pos m) /\
  53 <= Z.pos (digits2_pos mz).
Proof.
  unfold shl_align. rewrite fexp_eq, Z.add_0_r, Z.sub_0_r.
  destruct (Z.max (Z.pos (digits2_pos m) - 53) (-1074)) as [|p|p] eqn:E.
  - lia.
  - lia.
  - rewrite digits2_iter_xO. lia.
Qed.

(** A rounded mantissa of 53 digits or more does not vanish. *)
Lemma binary_round_aux_nonzero sx mx ex lx :
  0 < mx -> 53 <= Zdigits2 mx -> -1074 <= ex ->
  is_zero (binary_round_aux prec emax sx mx ex lx) = false.
Proof.
  intros Hm Hd He. unfold binary_round_aux.
  pose proof (shr_fexp_spec mx ex lx ltac:(lia)) as S1.
  destruct (shr_fexp prec emax mx ex lx) as [mrs1 e1]. simpl in S1.
  destruct (Zdigits2_bounds mx Hm) as [Lm Um].
  assert (B1 : 2 ^ 52 <= shr_m mrs1 < 2 ^ 53 /\ -1074 <= e1).
  { rewrite fexp_eq in S1. destruct S1 as [(-> & -> & Hf)|(-> & Hlt & ->)].
    - assert (Zdigits2 mx = 53) by lia.
      replace (Zdigits2 mx - 1) with 52 in Lm by lia.
      replace (Zdigits2 mx) with 53 in Um by lia. lia.
    - split; [|lia].
      replace (Z.max (Zdigits2 mx + ex - 53) (-1074) - ex) with (Zdigits2 mx - 53) by lia.
      split.
      + apply Z.div_le_lower_bound; [apply Z.pow_pos_nonneg; lia|].
        rewrite <- Z.pow_add_r by lia.
        replace (Zdigits2 mx - 53 + 52) with (Zdigits2 mx - 1) by lia. lia.
      + apply (shifted_below mx (Zdigits2 mx)); lia. }
  destruct B1 as [B1 E1].
  pose proof (round_nearest_even_bounds (shr_m mrs1) (loc_of_shr_record mrs1)) as R.
  set (m2 := round_nearest_even (shr_m mrs1) (loc_of_shr_record mrs1)) in *.
  pose proof (shr_fexp_spec m2 e1 loc_Exact ltac:(lia)) as S2.
  destruct (shr_fexp prec emax m2 e1 loc_Exact) as [mrs2 e2]. simpl in S2.
  assert (D2 : 53 <= Zdigits2 m2 <= 54).
  { split.
    - apply (Zdigits2_ge m2 52); lia.
    - apply Zdigits2_le; [|lia]. change (2 ^ 54) with (2 * 2 ^ 53). lia. }
  assert (B2 : 0 < shr_m mrs2).
  { rewrite fexp_eq in S2. destruct S2 as [(_ & -> & _)|(_ & Hlt & ->)].
    - lia.
    - replace (Z.max (Zdigits2 m2 + e1 - 53) (-1074) - e1) with 1 by lia.
      apply Z.div_str_pos. change (2 ^ 1) with 2. change (2 ^ 52) with 4503599627370496 in B1.
      lia. }
  destruct (shr_m mrs2) as [|p|p]; [lia| |lia].
  now destruct (e2 <=? emax - prec).
Qed.

Lemma float_of_int_nonzero n : n <> 0 -> is_zero (float_of_int n) = false.
Proof.
  intros Hn. unfold float_of_int, binary_normalize, binary_round.
  destruct n as [|m|m]; [congruence| |];
    pose proof (shl_align_digits m) as S;
    destruct (shl_align m 0 (fexp prec emax (Z.pos (digits2_pos m) + 0))) as [mz ez];
    apply binary_round_aux_nonzero; simpl Zdigits2; lia.
Qed.

Lemma float_of_int_finite n :
  Z.abs n < 2 ^ 1023 ->
  finite_or_overflow (float_of_int n) = Ok (float_of_int n).
Proof.
  intros Hn. unfold float_of_int, binary_normalize, binary_round.
  assert (D : Zdigits2 n <= 1023).
  { rewrite <- Zdigits2_abs. apply Zdigits2_le; lia. }
  destruct n as [|m|m]; [reflexivity| |];
    pose proof (shl_align_digits m) as S;
    destruct (shl_align m 0 (fexp prec emax (Z.pos (digits2_pos m) + 0))) as [mz ez];
    apply binary_round_aux_finite; simpl Zdigits2 in *; lia.
Qed.

Lemma int_truediv_finite a b :
  b <> 0 -> Z.abs a < 2 ^ 1023 \/ Z.abs a <= Z.abs b ->
  int_truediv a b = Ok (SFdiv prec emax (exact_int a) (exact_int b)).
Proof.
  intros Hb H. apply int_truediv_returns; auto.
  rewrite <- (Zdigits2_abs a), <- (Zdigits2_abs b).
  assert (1 <= Zdigits2 (Z.abs b)) by (apply (Zdigits2_ge _ 0); simpl; lia).
  destruct H as [H|H].
  - assert (Zdigits2 (Z.abs a) <= 1023) by (apply Zdigits2_le; lia). lia.
  - pose proof (Zdigits2_mono (Z.abs a) (Z.abs b) ltac:(lia)). lia.
Qed.

(** The quotient of two ints is rounded once: past [2^53] it is not the
    quotient of the two converted operands.  A quotient or an int past the
    largest float raises, a quotient below the smallest one is a zero. *)
Lemma int_truediv_rounds_once :
  int_truediv (2 ^ 53 + 1) 3 = Ok (S754_finite false 6004799503160662 (-1)) /\
  SFdiv prec emax (float_of_int (2 ^ 53 + 1)) (float_of_int 3)
    = S754_finite false 6004799503160661 (-1) /\
  int_truediv (10 ^ 400) 3 = Raise OverflowError /\
  to_float (PyInt (10 ^ 400)) = Raise OverflowError /\
  int_truediv 1 (10 ^ 400) = Ok (S754_zero false) /\
  int_truediv 0 (-3) = Ok (S754_zero true) /\
  int_truediv 15 30 = Ok (SFdiv prec emax (float_of_int 15) (float_of_int 30)).
Proof. repeat (apply conj); vm_compute; reflexivity. Qed.

(** ** Progress and its two exceptions *)

Lemma int_truediv_raises a b e :
  int_truediv a b = Raise e ->
  (b = 0 /\ e = ZeroDivisionError) \/ (b <> 0 /\ e = OverflowError).
Proof.
  unfold int_truediv. destruct (Z.eqb_spec b 0) as [->|n].
  - intros [= <-]. now left.
  - unfold finite_or_overflow.
    destruct (SFdiv prec emax (exact_int a) (exact_int b)); try discriminate.
    intros [= <-]. now right.
Qed.

Lemma int_truediv_zero a : int_truediv a 0 = Raise ZeroDivisionError.
Proof. reflexivity. Qed.

Lemma int_truediv_nonzero a b :
  b <> 0 -> int_truediv a b <> Raise ZeroDivisionError.
Proof.
  intros Hb H. apply int_truediv_raises in H.
  destruct H as [[H _]|[_ H]]; congruence.
Qed.

Lemma py_truediv_float_int f n :
  n <> 0 ->
  (forall e, py_truediv (PyFloat f) (PyInt n) = Raise e -> e = OverflowError) /\
  (Z.abs n < 2 ^ 1023 ->
   py_truediv (PyFloat f) (PyInt n) = Ok (SFdiv prec emax f (float_of_int n))).
Proof.
  intros Hn. pose proof (float_of_int_nonzero n Hn) as Hz.
  unfold py_truediv, to_float. split.
  - intros e. unfold finite_or_overflow.
    destruct (float_of_int n); try discriminate; congruence.
  - intros Hb. now rewrite (float_of_int_finite n Hb), Hz.
Qed.

Lemma py_add_float acc v :
  (exists a, to_float acc = Ok a) ->
  exists f, py_add acc (PyFloat v) = Ok (PyFloat f).
Proof.
  intros [a Ha]. unfold py_add. destruct acc as [n|g].
  - rewrite Ha. simpl. eauto.
  - simpl. eauto.
Qed.

Lemma minutes_progress_read w0 k :
  maintains (same_view minutes_core (fun _ => tt) w0) (TimedDrop_progress k).
Proof. unfold_ops; preserve. Qed.

Lemma minutes_core_found (a b : option TimedDrop.t) d :
  option_map minutes_core a = option_map minutes_core b ->
  b = Some d ->
  exists d', a = Some d' /\
             TimedDrop.current_minutes d' = TimedDrop.current_minutes d /\
             TimedDrop.required_minutes d' = TimedDrop.required_minutes d.
Proof.
  intros H ->. destruct a as [d'|]; [|discriminate].
  simpl in H. unfold minutes_core in H. injection H as H1 H2. eauto.
Qed.

Lemma TimedDrop_progress_raises w k d e :
  dict_get (drops w) k = Some d ->
  fst (TimedDrop_progress k w) = Raise e ->
  TimedDrop.progress d = None /\
  snd (TimedDrop_progress k w) = w /\
  ((TimedDrop.required_minutes d = 0 /\ e = ZeroDivisionError) \/
   (TimedDrop.required_minutes d <> 0 /\ e = OverflowError)).
Proof.
  intros E. rewrite (TimedDrop_progress_eq _ _ _ E).
  destruct (TimedDrop.progress d); [discriminate|].
  unfold py_truediv.
  destruct (int_truediv (TimedDrop.current_minutes d) (TimedDrop.required_minutes d))
    as [v|e'] eqn:Ed; [discriminate|].
  simpl. intros [= <-]. apply int_truediv_raises in Ed. auto.
Qed.

Lemma TimedDrop_progress_returns w k d :
  dict_get (drops w) k = Some d ->
  TimedDrop.required_minutes d <> 0 ->
  minutes_fit d ->
  exists v, fst (TimedDrop_progress k w) = Ok v.
Proof.
  intros E Hr Hfit. rewrite (TimedDrop_progress_eq _ _ _ E).
  destruct (TimedDrop.progress d); [eexists; reflexivity|].
  unfold py_truediv. rewrite (int_truediv_finite _ _ Hr Hfit). eexists; reflexivity.
Qed.

Lemma sum_float_progress_raises ks :
  forall acc w e,
    (exists a, to_float acc = Ok a) ->
    (forall k, In k ks ->
       exists d, dict_get (drops w) k = Some d /\ TimedDrop.required_minutes d <> 0) ->
    fst (sum_float ks TimedDrop_progress acc w) = Raise e ->
    e = OverflowError.
Proof.
  induction ks as [|k ks IH]; intros acc w e Hacc H; simpl; [discriminate|].
  destruct (H k (or_introl eq_refl)) as (d & E & Hr).
  pose proof (TimedDrop_progress_raises w k d) as Hraise.
  pose proof (minutes_progress_read w k w (same_view_refl _ _ w)) as (_ & Hs & _).
  unfold bind at 1.
  destruct (TimedDrop_progress k w) as [[v|e'] w1].
  - destruct (py_add_float acc v Hacc) as [f Hf].
    unfold bind at 1, lift. rewrite Hf. apply IH; [simpl; eauto|].
    intros k' i. destruct (H k' (or_intror i)) as (d' & E' & Hr').
    simpl in Hs. destruct (minutes_core_found _ _ _ (Hs k') E') as (d1 & E1 & _ & R1).
    exists d1. split; [exact E1 | congruence].
  - simpl. intros [= <-].
    destruct (Hraise e' E eq_refl) as (_ & _ & [[Hz _]|[_ He]]); congruence.
Qed.

Lemma sum_float_progress_returns ks :
  forall acc w,
    (exists a, to_float acc = Ok a) ->
    (forall k, In k ks ->
       exists d, dict_get (drops w) k = Some d /\
                 TimedDrop.required_minutes d <> 0 /\ minutes_fit d) ->
    exists s, fst (sum_float ks TimedDrop_progress acc w) = Ok s /\
              ((ks = [] /\ s = acc) \/ exists f, s = PyFloat f).
Proof.
  induction ks as [|k ks IH]; intros acc w Hacc H; simpl; [eexists; eauto|].
  destruct (H k (or_introl eq_refl)) as (d & E & Hr & Hfit).
  destruct (TimedDrop_progress_returns w k d E Hr Hfit) as [v Hv].
  pose proof (minutes_progress_read w k w (same_view_refl _ _ w)) as (_ & Hs & _).
  unfold bind at 1.
  destruct (TimedDrop_progress k w) as [[v'|e] w1]; [|discriminate].
  destruct (py_add_float acc v' Hacc) as [f Hf].
  unfold bind at 1, lift. rewrite Hf.
  destruct (IH (PyFloat f) w1) as (s & Hsum & Hshape).
  - simpl. eauto.
  - intros k' i. destruct (H k' (or_intror i)) as (d' & E' & Hr' & Hfit').
    simpl in Hs. destruct (minutes_core_found _ _ _ (Hs k') E') as (d1 & E1 & C1 & R1).
    exists d1. split; [exact E1|]. split; [congruence|].
    unfold minutes_fit in *. now rewrite C1, R1.
  - exists s. split; [exact Hsum|]. right.
    destruct Hshape as [[_ ->]|Hshape]; eauto.
Qed.

Lemma sum_float_shape ks f :
  forall acc w s,
    fst (sum_float ks f acc w) = Ok s ->
    (ks = [] /\ s = acc) \/ exists g, s = PyFloat g.
Proof.
  induction ks as [|k ks IH]; intros acc w s; simpl.
  - intros [= <-]. now left.
  - unfold bind at 1. destruct (f k w) as [[v|e] w1]; [|discriminate].
    unfold bind at 1, lift.
    destruct (py_add acc (PyFloat v)) as [acc'|e] eqn:Ea; [|discriminate].
    intros H. right. destruct (IH _ _ _ H) as [[_ ->]|G]; [|exact G].
    unfold py_add in Ea. destruct acc as [n|g].
    + destruct (to_float (PyInt n)); [|discriminate]. simpl in Ea.
      injection Ea as <-. eauto.
    + simpl in Ea. injection Ea as <-. eauto.
Qed.

(** X14: read for the first time, a drop's [progress] raises
    [ZeroDivisionError] exactly when the drop requires 0 minutes; it raises
    nothing but that and [OverflowError], and caches nothing when it raises;
    and it returns a value when the requirement is not 0 and the minutes
    fit.  The [progress] of a campaign that has at least one drop, none of
    them requiring 0 minutes, raises nothing but [OverflowError], whatever
    has been read before, and returns a value when the minutes of every
    drop fit and there are fewer than [2^1023] drops. *)
Theorem progress_and_zero_requirement :
  (forall (w : World) (k : string) (d : TimedDrop.t),
     dict_get (drops w) k = Some d ->
     TimedDrop.progress d = None ->
     (TimedDrop.required_minutes d = 0 <->
      TimedDrop_progress k w = (Raise ZeroDivisionError, w)) /\
     (forall e, fst (TimedDrop_progress k w) = Raise e ->
                (e = ZeroDivisionError \/ e = OverflowError) /\
                snd (TimedDrop_progress k w) = w) /\
     (TimedDrop.required_minutes d <> 0 -> minutes_fit d ->
      exists v, fst (TimedDrop_progress k w) = Ok v)) /\
  (forall (w : World),
     drops w <> [] ->
     (forall k d, dict_get (drops w) k = Some d -> TimedDrop.required_minutes d <> 0) ->
     (forall e, fst (DropsCampaign_progress w) = Raise e -> e = OverflowError) /\
     ((forall k d, dict_get (drops w) k = Some d -> minutes_fit d) ->
      Z.of_nat (length (drops w)) < 2 ^ 1023 ->
      exists v, fst (DropsCampaign_progress w) = Ok v)).
Proof.
  split.
  - intros w k d E Hn. repeat apply conj.
    + intros Hz. rewrite (TimedDrop_progress_eq _ _ _ E), Hn.
      unfold py_truediv. now rewrite Hz, int_truediv_zero.
    + intros H. destruct (TimedDrop_progress_raises w k d ZeroDivisionError E)
        as (_ & _ & [[Hz _]|[_ He]]); [now rewrite H | exact Hz | discriminate].
    + intros e He. destruct (TimedDrop_progress_raises w k d e E He)
        as (_ & Hw & [[_ ->]|[_ ->]]); auto.
    + intros Hr Hfit. exact (TimedDrop_progress_returns w k d E Hr Hfit).
  - intros w Hne Hreq.
    assert (Hkeys : forall k, In k (dict_keys (drops w)) ->
              exists d, dict_get (drops w) k = Some d /\
                        TimedDrop.required_minutes d <> 0).
    { intros k i. apply dict_in_keys_get in i. destruct i as [d E]. eauto. }
    assert (Hk' : maintains (same_keys w)
                    (sum_float (dict_keys (drops w)) TimedDrop_progress (PyInt 0))).
    { apply maintains_sum_float. intro k. unfold_ops; maintain. }
    specialize (Hk' w eq_refl). unfold same_keys in Hk'.
    assert (Hnil : dict_keys (drops w) <> []).
    { destruct (drops w); [congruence | discriminate]. }
    assert (Hacc : exists a, to_float (PyInt 0) = Ok a) by (eexists; reflexivity).
    pose proof (sum_float_progress_raises (dict_keys (drops w)) (PyInt 0) w) as Hraise.
    pose proof (sum_float_shape (dict_keys (drops w)) TimedDrop_progress (PyInt 0) w)
      as Hshape.
    assert (Hgo : DropsCampaign.progress (campaign w) = None ->
              DropsCampaign_progress w =
              match sum_float (dict_keys (drops w)) TimedDrop_progress (PyInt 0) w with
              | (Ok s, w1) =>
                  match py_truediv s (PyInt (Z.of_nat (length (drops w1)))) with
                  | Ok v => (Ok v, mkWorld (DropsCampaign.set_progress (Some v) (campaign w1))
                                           (requests w1))
                  | Raise e => (Raise e, w1)
                  end
              | (Raise e, w1) => (Raise e, w1)
              end).
    { intros Hc. unfold DropsCampaign_progress, bind at 1, get_campaign. rewrite Hc.
      fold (drops w). unfold bind at 1.
      destruct (sum_float (dict_keys (drops w)) TimedDrop_progress (PyInt 0) w)
        as [[s|e] w1]; [|reflexivity].
      unfold bind at 1, DropsCampaign_total_drops, bind at 1, get_campaign, ret.
      fold (drops w1). unfold bind at 1, lift.
      destruct (py_truediv s (PyInt (Z.of_nat (length (drops w1))))); reflexivity. }
    assert (Hlen : forall w1, dict_keys (drops w1) = dict_keys (drops w) ->
              length (drops w1) = length (drops w)).
    { intros w1 K. apply (f_equal (@length string)) in K. unfold dict_keys in K.
      now rewrite !length_map in K. }
    assert (Hpos : Z.of_nat (length (drops w)) <> 0).
    { destruct (drops w); [congruence | simpl; lia]. }
    split.
    + intros e. destruct (DropsCampaign.progress (campaign w)) as [v|] eqn:Hc.
      * unfold DropsCampaign_progress, bind at 1, get_campaign. rewrite Hc. discriminate.
      * rewrite (Hgo eq_refl).
        destruct (sum_float (dict_keys (drops w)) TimedDrop_progress (PyInt 0) w)
          as [[s|e'] w1].
        -- simpl in Hk'. rewrite (Hlen w1 Hk').
           destruct (Hshape s eq_refl) as [[K _]|[g ->]]; [congruence|].
           destruct (py_truediv (PyFloat g) (PyInt (Z.of_nat (length (drops w)))))
             as [v|e'] eqn:Ed; [discriminate|].
           simpl. intros [= <-].
           exact (proj1 (py_truediv_float_int g _ Hpos) e' Ed).
        -- simpl. intros [= <-]. exact (Hraise e' Hacc Hkeys eq_refl).
    + intros Hfit Hsmall.
      destruct (DropsCampaign.progress (campaign w)) as [v|] eqn:Hc.
      * unfold DropsCampaign_progress, bind at 1, get_campaign. rewrite Hc.
        eexists; reflexivity.
      * rewrite (Hgo eq_refl).
        destruct (sum_float_progress_returns (dict_keys (drops w)) (PyInt 0) w Hacc)
          as (s & Hs & Hsh).
        { intros k i. destruct (Hkeys k i) as (d & E & Hr). eauto. }
        destruct (sum_float (dict_keys (drops w)) TimedDrop_progress (PyInt 0) w)
          as [[s'|e'] w1]; [|discriminate].
        simpl in Hs. injection Hs as ->. simpl in Hk'. rewrite (Hlen w1 Hk').
        destruct Hsh as [[K _]|[g ->]]; [congruence|].
        rewrite (proj2 (py_truediv_float_int g _ Hpos)) by lia.
        eexists; reflexivity.
Qed.

Lemma progress_and_zero_requirement_witness :
  exists v, fst (DropsCampaign_progress two_units_claimed) = Ok v.
Proof.
  apply (proj2 progress_and_zero_requirement two_units_claimed).
  - vm_compute. discriminate.
  - intros k d. vm_compute.
    destruct k as [|[[|] [|] [|] [|] [|] [|] [|] [|]] [|]]; try discriminate;
      intros [= <-]; discriminate.
  - intros k d E. right. revert E. vm_compute.
    destruct k as [|[[|] [|] [|] [|] [|] [|] [|] [|]] [|]]; try discriminate;
      intros [= <-]; discriminate.
  - vm_compute. reflexivity.
Defined.

(** ** A new claim id *)

(** X17: [update_claim] never raises on a drop of the campaign and never
    deletes a cache; after it the drop can be claimed, whatever it had
    before, and a [claim] on the still unclaimed drop sends exactly the new
    claim id. *)
Theorem update_claim_then_claim :
  forall (w : World) (k : string) (d : TimedDrop.t) (token : string),
    dict_get (drops w) k = Some d ->
    BaseDrop_update_claim token k w =
      (Ok tt, with_drops (dict_set (drops w) k
                            (TimedDrop.set_claim_id (Some token) d)) w) /\
    fst (BaseDrop_can_claim k (snd (BaseDrop_update_claim token k w))) = Ok true /\
    (TimedDrop.is_claimed d = false ->
     forall response,
       requests (snd (TimedDrop_claim response k
                        (snd (BaseDrop_update_claim token k w))))
       = (requests w ++ [token])%list).
Proof.
  intros w k d token E. unfold BaseDrop_update_claim.
  rewrite (modify_drop_found _ _ _ _ E). cbn [snd].
  set (w1 := with_drops _ w).
  assert (E1 : dict_get (drops w1) k = Some (TimedDrop.set_claim_id (Some token) d))
    by (unfold w1; rewrite drops_with_drops; apply dict_get_set_same).
  repeat apply conj.
  - reflexivity.
  - now rewrite (BaseDrop_can_claim_eq _ _ _ E1).
  - intros Hc response.
    assert (Htail : requests (snd (TimedDrop_claim response k w1)) =
                    requests (snd (BaseDrop__claim response k w1))).
    { unfold TimedDrop_claim, BaseDrop_claim. rewrite !bind_assoc.
      unfold bind at 1.
      destruct (BaseDrop__claim response k w1) as [[b|e] w2]; [|reflexivity].
      match goal with
      | |- requests (snd (?m w2)) = _ =>
          assert (Hm : maintains (same_requests w2) m) by (unfold_ops; maintain);
          exact (Hm w2 eq_refl)
      end. }
    rewrite Htail. unfold BaseDrop__claim.
    rewrite (bind_eq _ _ _ _ _ (get_drop_found _ _ _ E1)). simpl. rewrite Hc.
    reflexivity.
Qed.

Lemma update_claim_then_claim_witness :
  requests (snd (TimedDrop_claim accepted "a"
                   (snd (BaseDrop_update_claim "fresh" "a" fresh_unit))))
  = (requests fresh_unit ++ ["fresh"])%list.
Proof.
  destruct (update_claim_then_claim fresh_unit "a" (drop_at fresh_unit "a") "fresh"
              eq_refl) as (_ & _ & H).
  apply H. reflexivity.
Defined.

(** ** When a claim returns *)

Lemma BaseDrop__on_claim_eq k w d :
  dict_get (drops w) k = Some d ->
  BaseDrop__on_claim k w =
  match TimedDrop.preconditions d with
  | Some _ =>
      (Ok tt, with_drops (dict_set (drops w) k (TimedDrop.set_preconditions None d)) w)
  | None => (Raise AttributeError, w)
  end.
Proof.
  intros E. unfold BaseDrop__on_claim, del_drop.
  rewrite (bind_eq _ _ _ _ _ (get_drop_found _ _ _ E)).
  destruct (TimedDrop.preconditions d); [|reflexivity].
  apply (modify_drop_found _ _ _ _ E).
Qed.

Lemma for_each_on_claim_returns ks :
  forall w,
    NoDup ks ->
    (forall k, In k ks -> In k (dict_keys (drops w))) ->
    (fst (for_each ks BaseDrop__on_claim w) = Ok tt <->
     forall k d, In k ks -> dict_get (drops w) k = Some d ->
                 TimedDrop.preconditions d <> None) /\
    (forall e, fst (for_each ks BaseDrop__on_claim w) = Raise e -> e = AttributeError).
Proof.
  induction ks as [|k0 ks IH]; intros w Hnd Hin; simpl.
  - split; [split; [intros _ k d [] | reflexivity] | discriminate].
  - inversion Hnd as [|? ? Hnot Hnd']; subst.
    destruct (dict_in_keys_get (drops w) k0) as [d0 E0]; [apply Hin; now left|].
    destruct (TimedDrop.preconditions d0) as [v|] eqn:Ep.
    + assert (H1 : BaseDrop__on_claim k0 w =
                   (Ok tt, with_drops (dict_set (drops w) k0
                                         (TimedDrop.set_preconditions None d0)) w))
        by (rewrite (BaseDrop__on_claim_eq _ _ _ E0); now rewrite Ep).
      rewrite (bind_eq _ _ _ _ _ H1).
      set (w1 := with_drops _ w).
      assert (Hget : forall k, k <> k0 -> dict_get (drops w1) k = dict_get (drops w) k).
      { intros k Hne. unfold w1. rewrite drops_with_drops.
        now apply dict_get_set_other. }
      destruct (IH w1 Hnd') as [Hiff Hraise].
      { intros k i. unfold w1. rewrite drops_with_drops.
        rewrite (dict_keys_set_present _ _ _ _ E0). apply Hin. now right. }
      split; [|exact Hraise]. rewrite Hiff. split.
      * intros H k d [<-|i] E.
        -- rewrite E0 in E. injection E as <-. congruence.
        -- apply (H k d i). rewrite Hget; [exact E|]. intros ->. contradiction.
      * intros H k d i E. apply (H k d (or_intror i)).
        rewrite <- Hget; [exact E|]. intros ->. contradiction.
    + assert (H1 : BaseDrop__on_claim k0 w = (Raise AttributeError, w))
        by (rewrite (BaseDrop__on_claim_eq _ _ _ E0); now rewrite Ep).
      rewrite (bind_raise _ _ _ _ _ H1). simpl.
      split; [split|].
      * discriminate.
      * intros H. exfalso. apply (H k0 d0 (or_introl eq_refl) E0 Ep).
      * now intros e [= <-].
Qed.

Lemma DropsCampaign__on_claim_eq w :
  DropsCampaign__on_claim w =
  match DropsCampaign.claimed_drops (campaign w) with
  | None => (Raise AttributeError, w)
  | Some _ =>
      match DropsCampaign.remaining_drops (campaign w) with
      | None =>
          (Raise AttributeError,
           mkWorld (DropsCampaign.set_claimed_drops None (campaign w)) (requests w))
      | Some _ =>
          for_each (dict_keys (drops w)) BaseDrop__on_claim
            (mkWorld (DropsCampaign.set_remaining_drops None
                        (DropsCampaign.set_claimed_drops None (campaign w)))
                     (requests w))
      end
  end.
Proof.
  unfold DropsCampaign__on_claim, del_campaign, bind, get_campaign, modify_campaign,
    raise.
  destruct (DropsCampaign.claimed_drops (campaign w)); [|reflexivity]. simpl.
  now destruct (DropsCampaign.remaining_drops (campaign w)).
Qed.

Lemma DropsCampaign__on_claim_returns w :
  NoDup (dict_keys (drops w)) ->
  (fst (DropsCampaign__on_claim w) = Ok tt <-> claim_read w) /\
  (forall e, fst (DropsCampaign__on_claim w) = Raise e -> e = AttributeError).
Proof.
  intros Hnd. unfold claim_read. rewrite DropsCampaign__on_claim_eq.
  destruct (DropsCampaign.claimed_drops (campaign w)) eqn:E1.
  2:{ simpl. split; [split; [discriminate | tauto] | now intros e [= <-]]. }
  destruct (DropsCampaign.remaining_drops (campaign w)) eqn:E2.
  2:{ simpl. split; [split; [discriminate | tauto] | now intros e [= <-]]. }
  match goal with
  | |- context [for_each ?ks _ ?w2] =>
      destruct (for_each_on_claim_returns ks w2 Hnd (fun k i => i)) as [Hiff Hraise]
  end.
  split; [|exact Hraise]. rewrite Hiff. unfold drops. simpl. split.
  - intros H. repeat split; try discriminate. intros k d E.
    apply (H k d); [apply (dict_get_in_keys _ _ _ E) | exact E].
  - intros (_ & _ & H) k d _ E. now apply (H k d).
Qed.

Lemma run_keys_nodup data cs w :
  snd (run cs (init data)) = w -> NoDup (dict_keys (drops w)).
Proof.
  intros <-. rewrite (same_keys_run (init data) cs (init data) eq_refl).
  unfold drops, init. simpl. unfold timed_drops_of.
  apply (timed_drops_fold_keys (cdata_timeBasedDrops data) [] (NoDup_nil _)).
Qed.

Lemma claim_read_after_mark w a da :
  dict_get (drops w) a = Some da ->
  claim_read (with_drops (dict_set (drops w) a (TimedDrop.set_is_claimed true da)) w)
  <-> claim_read w.
Proof.
  intros E. unfold claim_read. simpl. rewrite drops_with_drops.
  split; intros (H1 & H2 & H3); repeat split; auto; intros k d Ek.
  - destruct (String.eqb a k) eqn:Eak.
    + apply String.eqb_eq in Eak. subst k. rewrite E in Ek. injection Ek as <-.
      apply (H3 a (TimedDrop.set_is_claimed true da)). apply dict_get_set_same.
    + apply (H3 k d). rewrite dict_get_set, Eak. exact Ek.
  - rewrite dict_get_set in Ek. destruct (String.eqb a k) eqn:Eak.
    + injection Ek as <-. simpl. now apply (H3 a da).
    + now apply (H3 k d).
Qed.

(** X12: on a campaign reached by a run of calls, take a drop with a claim
    id that is already claimed or whose request the transport accepts.  Then
    [claim] returns true exactly when [claimed_drops], [remaining_drops] and
    the [preconditions] of every drop of the campaign have been read; it
    never returns false, and it raises nothing but [AttributeError]. *)
Theorem claim_returns_iff_read :
  forall (data : CampaignData) (cs : list call) (w : World) (response : JsonType)
         (a : string) (da : TimedDrop.t) (token : string),
    run cs (init data) = (Ok tt, w) ->
    dict_get (drops w) a = Some da ->
    TimedDrop.claim_id da = Some token ->
    TimedDrop.is_claimed da = true \/ acceptance response ->
    (fst (TimedDrop_claim response a w) = Ok true <-> claim_read w) /\
    fst (TimedDrop_claim response a w) <> Ok false /\
    (forall e, fst (TimedDrop_claim response a w) = Raise e -> e = AttributeError).
Proof.
  intros data cs w response a da token Hrun E Ht Hacc.
  assert (Hnd : NoDup (dict_keys (drops w))).
  { apply (run_keys_nodup data cs). now rewrite Hrun. }
  assert (H0 : exists w0, BaseDrop__claim response a w = (Ok true, w0) /\
                          campaign w0 = campaign w).
  { unfold BaseDrop__claim. rewrite (bind_eq _ _ _ _ _ (get_drop_found _ _ _ E)), Ht.
    destruct (TimedDrop.is_claimed da) eqn:Ec.
    - exists w. split; reflexivity.
    - destruct Hacc as [Hacc|Hacc]; [discriminate|].
      apply acceptance_accepted in Hacc.
      unfold bind, gql_request, lift. rewrite Hacc. eexists. split; reflexivity. }
  destruct H0 as (w0 & H0 & Hc0).
  assert (Ed : drops w0 = drops w) by (unfold drops; now rewrite Hc0).
  assert (E0 : dict_get (drops w0) a = Some da) by now rewrite Ed.
  set (w1 := with_drops (dict_set (drops w0) a (TimedDrop.set_is_claimed true da)) w0).
  assert (Hk : maintains (same_keys w1) DropsCampaign__on_claim)
    by (unfold_ops; maintain).
  specialize (Hk w1 eq_refl).
  assert (Hfst : fst (TimedDrop_claim response a w) =
                 match fst (DropsCampaign__on_claim w1) with
                 | Ok _ => Ok true
                 | Raise e => Raise e
                 end).
  { unfold TimedDrop_claim, BaseDrop_claim.
    rewrite !bind_assoc, (bind_eq _ _ _ _ _ H0). cbv beta.
    rewrite !bind_assoc, (bind_eq _ _ _ _ _ (modify_drop_found _ _ _ _ E0)).
    fold w1. cbv beta. unfold bind at 1.
    destruct (DropsCampaign__on_claim w1) as [[[]|e] w2] eqn:H1; [|reflexivity].
    simpl in Hk. unfold bind at 1, ret at 1.
    assert (E2 : exists d2, dict_get (drops w2) a = Some d2).
    { apply dict_in_keys_get. rewrite Hk. unfold w1. rewrite drops_with_drops.
      apply (dict_get_in_keys _ _ (TimedDrop.set_is_claimed true da)).
      apply dict_get_set_same. }
    destruct E2 as [d2 E2].
    rewrite (bind_eq _ _ _ _ _ (modify_drop_found _ _ _ _ E2)).
    reflexivity. }
  assert (Hr1 : claim_read w1 <-> claim_read w).
  { unfold w1. rewrite (claim_read_after_mark w0 a da E0).
    unfold claim_read, drops. now rewrite Hc0. }
  assert (Hnd1 : NoDup (dict_keys (drops w1))).
  { unfold w1. rewrite drops_with_drops, (dict_keys_set_present _ _ _ _ E0), Ed.
    exact Hnd. }
  destruct (DropsCampaign__on_claim_returns w1 Hnd1) as [Hiff Hraise].
  rewrite Hfst, <- Hr1, <- Hiff.
  destruct (fst (DropsCampaign__on_claim w1)) as [[]|e].
  - repeat split; auto; discriminate.
  - repeat split; try discriminate. intros e' [= <-]. now apply Hraise.
Qed.

Lemma claim_returns_iff_read_witness :
  fst (TimedDrop_claim accepted "a" two_units_ready) = Ok true <->
  claim_read two_units_ready.
Proof.
  apply (claim_returns_iff_read two_units_data two_units_reads two_units_ready accepted
           "a" (drop_at two_units_ready "a") "token").
  - vm_compute; reflexivity.
  - vm_compute; reflexivity.
  - vm_compute; reflexivity.
  - right.
    exists [("data", JDict [("claimDropRewards", JDict [("status", JStr "ELIGIBLE_FOR_ALL")])])],
      [("claimDropRewards", JDict [("status", JStr "ELIGIBLE_FOR_ALL")])],
      [("status", JStr "ELIGIBLE_FOR_ALL")], "ELIGIBLE_FOR_ALL".
    repeat apply conj; try reflexivity; try exact I. now left.
Defined.

(** ** Counting after a claim *)

Lemma sum_over_claimed_by_out ds ds' a (h : bool -> Z) ks :
  (forall k, dict_get ds' k = option_map (claimed_by a k) (dict_get ds k)) ->
  ~ In a ks ->
  sum_over ds' (fun d => h (TimedDrop.is_claimed d)) ks =
  sum_over ds (fun d => h (TimedDrop.is_claimed d)) ks.
Proof.
  intros Hget. induction ks as [|k ks IH]; intros Hout; simpl; [reflexivity|].
  rewrite IH by (intros i; apply Hout; now right).
  rewrite Hget. destruct (dict_get ds k) as [d|]; simpl; [|reflexivity].
  rewrite claimed_by_is_claimed.
  assert (Hne : String.eqb k a = false).
  { apply String.eqb_neq. intros ->. apply Hout. now left. }
  now rewrite Hne.
Qed.

Lemma sum_over_claimed_by_in ds ds' a da (h : bool -> Z) ks :
  (forall k, dict_get ds' k = option_map (claimed_by a k) (dict_get ds k)) ->
  dict_get ds a = Some da ->
  TimedDrop.is_claimed da = false ->
  NoDup ks ->
  In a ks ->
  sum_over ds' (fun d => h (TimedDrop.is_claimed d)) ks =
  sum_over ds (fun d => h (TimedDrop.is_claimed d)) ks + (h true - h false).
Proof.
  intros Hget Ea Hc. induction ks as [|k ks IH]; intros Hnd Hin; [destruct Hin|].
  inversion Hnd as [|? ? Hnot Hnd']; subst. simpl.
  destruct (string_dec k a) as [->|Hne].
  - rewrite (sum_over_claimed_by_out ds ds' a h ks Hget Hnot).
    rewrite Hget, Ea. simpl. rewrite claimed_by_is_claimed, String.eqb_refl, Hc.
    simpl. lia.
  - destruct Hin as [->|Hin]; [congruence|].
    rewrite (IH Hnd' Hin), Hget.
    destruct (dict_get ds k) as [d|]; simpl; [|lia].
    rewrite claimed_by_is_claimed.
    apply String.eqb_neq in Hne. rewrite Hne. simpl. lia.
Qed.

(** X18: after a run of calls that all returned, a [claim] that returns true
    on an unclaimed drop moves exactly one drop from [remaining_drops] to
    [claimed_drops]: the next reads give one more and one less than the
    reads before the claim. *)
Theorem claim_moves_one_drop :
  forall (data : CampaignData) (cs : list call) (w : World) (response : JsonType)
         (a : string) (da : TimedDrop.t) (w' : World),
    run cs (init data) = (Ok tt, w) ->
    dict_get (drops w) a = Some da ->
    TimedDrop.is_claimed da = false ->
    TimedDrop_claim response a w = (Ok true, w') ->
    exists claimed remaining,
      fst (DropsCampaign_claimed_drops w) = Ok claimed /\
      fst (DropsCampaign_remaining_drops w) = Ok remaining /\
      fst (DropsCampaign_claimed_drops w') = Ok (claimed + 1) /\
      fst (DropsCampaign_remaining_drops w') = Ok (remaining - 1).
Proof.
  intros data cs w response a da w' Hrun Ea Hc Hclaim.
  assert (Hf : caches_fresh w) by (apply (run_fresh cs (init data)); auto using init_fresh).
  assert (Hnd : NoDup (dict_keys (drops w))).
  { apply (run_keys_nodup data cs). now rewrite Hrun. }
  destruct Hf as [[Hfc Hfr] _].
  apply TimedDrop_claim_ok_true in Hclaim.
  destruct Hclaim as (da0 & _ & _ & Hsc & Hsr & _ & _ & Hk & Hget).
  exists (count_claimed (drops w)), (count_unclaimed (drops w)).
  rewrite !DropsCampaign_claimed_drops_eq, !DropsCampaign_remaining_drops_eq.
  rewrite Hsc, Hsr. simpl.
  assert (Hin : In a (dict_keys (drops w))) by apply (dict_get_in_keys _ _ _ Ea).
  repeat apply conj.
  - destruct (DropsCampaign.claimed_drops (campaign w)) as [v|] eqn:E; [|reflexivity].
    simpl. now rewrite (Hfc v eq_refl).
  - destruct (DropsCampaign.remaining_drops (campaign w)) as [v|] eqn:E; [|reflexivity].
    simpl. now rewrite (Hfr v eq_refl).
  - f_equal. unfold count_claimed. rewrite Hk.
    rewrite (sum_over_claimed_by_in (drops w) (drops w') a da int_of_bool
               (dict_keys (drops w)) Hget Ea Hc Hnd Hin).
    simpl. lia.
  - f_equal. unfold count_unclaimed. rewrite Hk.
    rewrite (sum_over_claimed_by_in (drops w) (drops w') a da
               (fun b => int_of_bool (negb b))
               (dict_keys (drops w)) Hget Ea Hc Hnd Hin).
    simpl. lia.
Qed.

Lemma claim_moves_one_drop_witness :
  exists claimed remaining,
    fst (DropsCampaign_claimed_drops two_units_ready) = Ok claimed /\
    fst (DropsCampaign_remaining_drops two_units_ready) = Ok remaining /\
    fst (DropsCampaign_claimed_drops two_units_claimed) = Ok (claimed + 1) /\
    fst (DropsCampaign_remaining_drops two_units_claimed) = Ok (remaining - 1).
Proof.
  apply (claim_moves_one_drop two_units_data two_units_reads two_units_ready accepted
           "a" (drop_at two_units_ready "a") two_units_claimed).
  - vm_compute; reflexivity.
  - vm_compute; reflexivity.
  - vm_compute; reflexivity.
  - vm_compute; reflexivity.
Defined.

(** ** The minute caches without claims *)

Lemma minutes_of_view (a b : option TimedDrop.t) :
  option_map minutes_view a = option_map minutes_view b ->
  option_map remaining_of a = option_map remaining_of b /\
  option_map progress_of a = option_map progress_of b.
Proof.
  destruct a, b; simpl; try discriminate; auto.
  unfold minutes_view, remaining_of, progress_of. intros [= H1 H2 _ _].
  now rewrite H1, H2.
Qed.

Lemma sum_over_remaining_ext ds ds' ks :
  (forall k, option_map remaining_of (dict_get ds' k) =
             option_map remaining_of (dict_get ds k)) ->
  sum_over ds' remaining_of ks = sum_over ds remaining_of ks.
Proof.
  intros H. induction ks as [|k ks IH]; simpl; [reflexivity|].
  rewrite IH. specialize (H k).
  destruct (dict_get ds' k), (dict_get ds k); simpl in H; try discriminate; auto.
  injection H as H. now rewrite H.
Qed.

Lemma sum_progress_ext ds ds' ks :
  (forall k, option_map progress_of (dict_get ds' k) =
             option_map progress_of (dict_get ds k)) ->
  forall acc, sum_progress ds' ks acc = sum_progress ds ks acc.
Proof.
  intros H. induction ks as [|k ks IH]; intros acc; simpl; [reflexivity|].
  specialize (H k).
  destruct (dict_get ds' k), (dict_get ds k); simpl in H; try discriminate; auto.
  injection H as H. rewrite H. destruct (progress_of t0); auto.
  destruct (py_add acc (PyFloat a)); auto.
Qed.

Lemma aggregates_ext ds ds' :
  dict_keys ds' = dict_keys ds ->
  (forall k, option_map minutes_view (dict_get ds' k) =
             option_map minutes_view (dict_get ds k)) ->
  sum_over ds' remaining_of (dict_keys ds') = sum_over ds remaining_of (dict_keys ds) /\
  campaign_progress_of ds' = campaign_progress_of ds.
Proof.
  intros Hk H. unfold campaign_progress_of. rewrite Hk.
  rewrite (sum_over_remaining_ext ds ds') by (intro k; apply minutes_of_view, H).
  rewrite (sum_progress_ext ds ds') by (intro k; apply minutes_of_view, H).
  assert (Hl : length ds' = length ds).
  { apply (f_equal (@length string)) in Hk. unfold dict_keys in Hk.
    now rewrite !length_map in Hk. }
  now rewrite Hl.
Qed.

Lemma minutes_fresh_same_view w0 w :
  same_view minutes_view campaign_minutes_view w0 w ->
  minutes_fresh w0 -> minutes_fresh w.
Proof.
  intros (Hk & Hv & Hc) (F1 & F2 & F3 & F4).
  destruct (aggregates_ext _ _ Hk Hv) as [A1 A2].
  unfold campaign_minutes_view in Hc. injection Hc as Hc1 Hc2.
  assert (Hd : forall k d, dict_get (drops w) k = Some d ->
               exists d0, dict_get (drops w0) k = Some d0 /\
                          minutes_view d = minutes_view d0).
  { intros k d E. specialize (Hv k). rewrite E in Hv.
    destruct (dict_get (drops w0) k) as [d0|]; [|discriminate].
    exists d0. split; [reflexivity|]. simpl in Hv. congruence. }
  repeat apply conj.
  - intros k d v E Es. destruct (Hd k d E) as (d0 & E0 & Hm).
    unfold minutes_view in Hm. injection Hm as H1 H2 H3 H4.
    unfold remaining_of. rewrite H1, H2. apply (F1 k d0 v E0). congruence.
  - intros k d v E Es. destruct (Hd k d E) as (d0 & E0 & Hm).
    unfold minutes_view in Hm. injection Hm as H1 H2 H3 H4.
    unfold progress_of. rewrite H1, H2. apply (F2 k d0 v E0). congruence.
  - intros v E. rewrite A1. apply F3. congruence.
  - intros v E. rewrite A2. apply F4. congruence.
Qed.

Lemma minutes_view_exec w0 c :
  match c with
  | GetDropRemainingMinutes _ | GetDropProgress _ | GetRemainingMinutes | GetProgress
  | UpdateMinutes _ _ | BumpMinutes _ | Claim _ _ => True
  | _ => maintains (same_view minutes_view campaign_minutes_view w0) (exec c)
  end.
Proof. destruct c; try exact I; unfold_ops; preserve. Qed.

Lemma same_view_trans {T U : Type} (pd : TimedDrop.t -> T) (pc : DropsCampaign.t -> U)
    w1 w2 w3 :
  same_view pd pc w1 w2 -> same_view pd pc w2 w3 -> same_view pd pc w1 w3.
Proof.
  intros (A1 & A2 & A3) (B1 & B2 & B3). repeat split; congruence.
Qed.

Lemma minutes_of_core (a b : option TimedDrop.t) :
  option_map minutes_core a = option_map minutes_core b ->
  option_map remaining_of a = option_map remaining_of b /\
  option_map progress_of a = option_map progress_of b.
Proof.
  destruct a, b; simpl; try discriminate; auto.
  unfold minutes_core, remaining_of, progress_of. intros [= H1 H2].
  now rewrite H1, H2.
Qed.

Lemma core_aggregates w0 w :
  same_view minutes_core campaign_minutes_view w0 w ->
  (forall ks, sum_over (drops w) remaining_of ks = sum_over (drops w0) remaining_of ks) /\
  (forall ks acc, sum_progress (drops w) ks acc = sum_progress (drops w0) ks acc) /\
  campaign_progress_of (drops w) = campaign_progress_of (drops w0).
Proof.
  intros (Hk & Hv & _).
  assert (H1 : forall ks, sum_over (drops w) remaining_of ks
                          = sum_over (drops w0) remaining_of ks).
  { intros ks. apply sum_over_remaining_ext. intro k. apply minutes_of_core, Hv. }
  assert (H2 : forall ks acc, sum_progress (drops w) ks acc
                              = sum_progress (drops w0) ks acc).
  { intros ks. apply sum_progress_ext. intro k. apply minutes_of_core, Hv. }
  repeat apply conj; auto.
  unfold campaign_progress_of. rewrite Hk, H2.
  assert (Hl : length (drops w) = length (drops w0)).
  { apply (f_equal (@length string)) in Hk. unfold dict_keys in Hk.
    now rewrite !length_map in Hk. }
  now rewrite Hl.
Qed.

(** Filling slots of one drop with fresh values keeps the caches fresh. *)
Lemma minutes_fresh_fill w k d d' :
  dict_get (drops w) k = Some d ->
  minutes_core d' = minutes_core d ->
  (forall v, TimedDrop.remaining_minutes d' = Some v -> v = remaining_of d') ->
  (forall v, TimedDrop.progress d' = Some v -> progress_of d' = Ok v) ->
  minutes_fresh w ->
  minutes_fresh (with_drops (dict_set (drops w) k d') w).
Proof.
  intros E Hcore Hr Hp (F1 & F2 & F3 & F4).
  assert (Hs : same_view minutes_core campaign_minutes_view w
                 (with_drops (dict_set (drops w) k d') w)).
  { repeat split.
    - rewrite drops_with_drops. apply (dict_keys_set_present _ _ _ _ E).
    - intros k'. rewrite drops_with_drops, dict_get_set.
      destruct (String.eqb k k') eqn:Ek; [|reflexivity].
      apply String.eqb_eq in Ek. subst k'. rewrite E. simpl. now rewrite Hcore. }
  destruct (core_aggregates _ _ Hs) as (A1 & _ & A3).
  destruct Hs as (Hk & _ & _).
  repeat apply conj.
  - intros k' d1 v E1 Es. rewrite drops_with_drops, dict_get_set in E1.
    destruct (String.eqb k k'); [injection E1 as <-; now apply Hr | now apply (F1 k' d1)].
  - intros k' d1 v E1 Es. rewrite drops_with_drops, dict_get_set in E1.
    destruct (String.eqb k k'); [injection E1 as <-; now apply Hp | now apply (F2 k' d1)].
  - intros v E1. rewrite Hk, A1. now apply F3.
  - intros v E1. rewrite A3. now apply F4.
Qed.

Lemma core_remaining_read w0 k :
  maintains (same_view minutes_core campaign_minutes_view w0)
            (TimedDrop_remaining_minutes k).
Proof. unfold_ops; preserve. Qed.

Lemma core_progress_read w0 k :
  maintains (same_view minutes_core campaign_minutes_view w0) (TimedDrop_progress k).
Proof. unfold_ops; preserve. Qed.

Lemma remaining_read_spec k w v w' :
  minutes_fresh w ->
  TimedDrop_remaining_minutes k w = (Ok v, w') ->
  (exists d, dict_get (drops w) k = Some d /\ v = remaining_of d) /\
  minutes_fresh w' /\
  same_view minutes_core campaign_minutes_view w w'.
Proof.
  intros Hf H.
  pose proof (core_remaining_read w k w (same_view_refl _ _ w)) as Hs.
  rewrite H in Hs. simpl in Hs.
  destruct (cached_drop_read_found TimedDrop_remaining_minutes k w v w') as [d E]; auto.
  { intros w0 E0. unfold TimedDrop_remaining_minutes, bind, get_drop. now rewrite E0. }
  rewrite (TimedDrop_remaining_minutes_eq _ _ _ E) in H.
  destruct Hf as (F1 & F2 & F3 & F4).
  destruct (TimedDrop.remaining_minutes d) as [v0|] eqn:Es.
  - injection H as <- <-.
    split; [exists d; split; [exact E | now apply (F1 k d)]|].
    split; [now repeat split | exact Hs].
  - injection H as <- <-.
    split; [exists d; split; [exact E | reflexivity]|].
    split; [|exact Hs].
    apply (minutes_fresh_fill w k d); auto.
    + now intros v [= <-].
    + simpl. intros v Hv. now apply (F2 k d).
    + now repeat split.
Qed.

Lemma progress_read_spec k w v w' :
  minutes_fresh w ->
  TimedDrop_progress k w = (Ok v, w') ->
  (exists d, dict_get (drops w) k = Some d /\ progress_of d = Ok v) /\
  minutes_fresh w' /\
  same_view minutes_core campaign_minutes_view w w'.
Proof.
  intros Hf H.
  pose proof (core_progress_read w k w (same_view_refl _ _ w)) as Hs.
  rewrite H in Hs. simpl in Hs.
  destruct (cached_drop_read_found TimedDrop_progress k w v w') as [d E]; auto.
  { intros w0 E0. unfold TimedDrop_progress, bind, get_drop. now rewrite E0. }
  rewrite (TimedDrop_progress_eq _ _ _ E) in H.
  destruct Hf as (F1 & F2 & F3 & F4).
  destruct (TimedDrop.progress d) as [v0|] eqn:Es.
  - injection H as <- <-.
    split; [exists d; split; [exact E | now apply (F2 k d)]|].
    split; [now repeat split | exact Hs].
  - fold (progress_of d) in H. destruct (progress_of d) as [v0|e] eqn:Ep; [|discriminate].
    injection H as <- <-.
    split; [exists d; split; [exact E | exact Ep]|].
    split; [|exact Hs].
    apply (minutes_fresh_fill w k d); auto.
    + simpl. intros v Hv. now apply (F1 k d).
    + now intros v [= <-].
    + now repeat split.
Qed.

Lemma sum_remaining_spec ks :
  forall acc w v w',
    minutes_fresh w ->
    sum_int ks TimedDrop_remaining_minutes acc w = (Ok v, w') ->
    v = acc + sum_over (drops w) remaining_of ks /\
    minutes_fresh w' /\
    same_view minutes_core campaign_minutes_view w w'.
Proof.
  induction ks as [|k ks IH]; intros acc w v w' Hf H; simpl in H.
  - injection H as <- <-. simpl. split; [lia | split; [exact Hf | apply same_view_refl]].
  - apply bind_ok_inv in H. destruct H as (v0 & w1 & H1 & H).
    destruct (remaining_read_spec k w v0 w1 Hf H1) as ((d & E & ->) & Hf1 & Hs1).
    destruct (IH _ _ _ _ Hf1 H) as (-> & Hf' & Hs').
    split; [|split; [exact Hf' | apply (same_view_trans _ _ w w1 w'); auto]].
    destruct (core_aggregates _ _ Hs1) as (A1 & _ & _).
    simpl. rewrite E, A1. lia.
Qed.

Lemma sum_progress_spec ks :
  forall acc w s w',
    minutes_fresh w ->
    sum_float ks TimedDrop_progress acc w = (Ok s, w') ->
    sum_progress (drops w) ks acc = Ok s /\
    minutes_fresh w' /\
    same_view minutes_core campaign_minutes_view w w'.
Proof.
  induction ks as [|k ks IH]; intros acc w s w' Hf H; simpl in H.
  - injection H as <- <-. simpl.
    split; [reflexivity | split; [exact Hf | apply same_view_refl]].
  - apply bind_ok_inv in H. destruct H as (v0 & w1 & H1 & H).
    destruct (progress_read_spec k w v0 w1 Hf H1) as ((d & E & Hp) & Hf1 & Hs1).
    apply bind_ok_inv in H. destruct H as (acc' & w2 & Ha & H).
    unfold lift in Ha. injection Ha as Ha <-.
    destruct (IH _ _ _ _ Hf1 H) as (Hsum & Hf' & Hs').
    split; [|split; [exact Hf' | apply (same_view_trans _ _ w w1 w'); auto]].
    destruct (core_aggregates _ _ Hs1) as (_ & A2 & _).
    simpl. rewrite E, Hp, Ha. now rewrite <- A2.
Qed.

Lemma same_core_length w w' :
  same_view minutes_core campaign_minutes_view w w' ->
  length (drops w') = length (drops w).
Proof.
  intros (Hk & _ & _). apply (f_equal (@length string)) in Hk.
  unfold dict_keys in Hk. now rewrite !length_map in Hk.
Qed.

Lemma campaign_remaining_read_spec w v w' :
  minutes_fresh w ->
  DropsCampaign_remaining_minutes w = (Ok v, w') ->
  v = sum_over (drops w) remaining_of (dict_keys (drops w)) /\ minutes_fresh w'.
Proof.
  intros Hf H. unfold DropsCampaign_remaining_minutes in H.
  apply bind_ok_inv in H. destruct H as (c & w0 & [= <- <-] & H).
  destruct (DropsCampaign.remaining_minutes (campaign w)) as [v0|] eqn:Es.
  - injection H as <- <-. split; [|exact Hf].
    destruct Hf as (_ & _ & F3 & _). now apply F3.
  - apply bind_ok_inv in H. destruct H as (v0 & w1 & H1 & H).
    apply bind_ok_inv in H. destruct H as ([] & w2 & [= <-] & [= <- <-]).
    fold (drops w) in H1.
    destruct (sum_remaining_spec _ _ _ _ _ Hf H1) as (-> & (F1 & F2 & F3 & F4) & Hs).
    split; [reflexivity|].
    destruct (core_aggregates _ _ Hs) as (A1 & _ & _).
    destruct Hs as (Hk & _ & _).
    repeat split; auto.
    intros v [= <-].
    change (0 + sum_over (drops w) remaining_of (dict_keys (drops w)) =
            sum_over (drops w1) remaining_of (dict_keys (drops w1))).
    now rewrite Hk, A1.
Qed.

Lemma campaign_progress_read_spec w v w' :
  minutes_fresh w ->
  DropsCampaign_progress w = (Ok v, w') ->
  campaign_progress_of (drops w) = Ok v /\ minutes_fresh w'.
Proof.
  intros Hf H. unfold DropsCampaign_progress in H.
  apply bind_ok_inv in H. destruct H as (c & w0 & [= <- <-] & H).
  destruct (DropsCampaign.progress (campaign w)) as [v0|] eqn:Es.
  - injection H as <- <-. split; [|exact Hf].
    destruct Hf as (_ & _ & _ & F4). now apply F4.
  - apply bind_ok_inv in H. destruct H as (s & w1 & H1 & H).
    apply bind_ok_inv in H. destruct H as (n & w2 & H2 & H).
    apply bind_ok_inv in H. destruct H as (v0 & w3 & H3 & H).
    apply bind_ok_inv in H. destruct H as ([] & w4 & [= <-] & [= <- <-]).
    fold (drops w) in H1.
    destruct (sum_progress_spec _ _ _ _ _ Hf H1) as (Hsum & (F1 & F2 & F3 & F4) & Hs).
    unfold DropsCampaign_total_drops, bind, get_campaign, ret in H2.
    injection H2 as <- <-. unfold lift in H3. injection H3 as H3 <-.
    fold (drops w1) in H3. rewrite (same_core_length _ _ Hs) in H3.
    assert (Hv : campaign_progress_of (drops w) = Ok v0).
    { unfold campaign_progress_of. now rewrite Hsum. }
    split; [exact Hv|].
    destruct (core_aggregates _ _ Hs) as (_ & _ & A3).
    repeat split; auto.
    intros v' [= <-].
    change (campaign_progress_of (drops w1) = Ok v0). now rewrite A3.
Qed.

Lemma minutes_fresh_minutes_set minutes k d w :
  minutes_fresh w -> minutes_fresh (minutes_set minutes k d w).
Proof.
  intros (F1 & F2 & F3 & F4).
  assert (Hd : drops (minutes_set minutes k d w) =
               dict_set (drops w) k
                 (TimedDrop.set_remaining_minutes None
                    (TimedDrop.set_progress None
                       (TimedDrop.set_current_minutes minutes d)))) by reflexivity.
  split; [|split; [|split]].
  - intros k' d' v E Es. rewrite Hd, dict_get_set in E.
    destruct (String.eqb k k'); [injection E as <-; discriminate | now apply (F1 k' d')].
  - intros k' d' v E Es. rewrite Hd, dict_get_set in E.
    destruct (String.eqb k k'); [injection E as <-; discriminate | now apply (F2 k' d')].
  - intros v. discriminate.
  - intros v. discriminate.
Qed.

Lemma exec_minutes_fresh c w w' :
  is_claim c = false ->
  minutes_fresh w ->
  exec c w = (Ok tt, w') ->
  minutes_fresh w'.
Proof.
  intros Hc Hf H.
  assert (Hs : snd (exec c w) = w') by now rewrite H.
  destruct c; try discriminate;
    try (rewrite <- Hs; apply (minutes_fresh_same_view w); [|exact Hf];
         match goal with
         | |- same_view _ _ _ (snd (exec ?c _)) =>
             apply (minutes_view_exec w c w (same_view_refl _ _ w))
         end).
  - simpl in H. unfold discard in H.
    apply bind_ok_inv in H. destruct H as (v & w1 & H1 & [= <-]).
    apply (remaining_read_spec _ _ _ _ Hf H1).
  - simpl in H. unfold discard in H.
    apply bind_ok_inv in H. destruct H as (v & w1 & H1 & [= <-]).
    apply (progress_read_spec _ _ _ _ Hf H1).
  - simpl in H. unfold discard in H.
    apply bind_ok_inv in H. destruct H as (v & w1 & H1 & [= <-]).
    apply (campaign_remaining_read_spec _ _ _ Hf H1).
  - simpl in H. unfold discard in H.
    apply bind_ok_inv in H. destruct H as (v & w1 & H1 & [= <-]).
    apply (campaign_progress_read_spec _ _ _ Hf H1).
  - simpl in H. destruct (dict_get (drops w) k) as [d|] eqn:E.
    + destruct (TimedDrop_update_minutes_cases minutes k w d E) as [[_ H']|[_ H']];
        rewrite H in H'; [|discriminate].
      injection H' as ->. now apply minutes_fresh_minutes_set.
    + unfold TimedDrop_update_minutes in H.
      rewrite (bind_raise _ _ _ _ _ (modify_drop_missing _ _ _ E)) in H. discriminate.
  - simpl in H. destruct (dict_get (drops w) k) as [d|] eqn:E.
    + rewrite (TimedDrop_bump_minutes_eq _ _ _ E) in H.
      destruct (TimedDrop.current_minutes d <? TimedDrop.required_minutes d).
      * destruct (TimedDrop_update_minutes_cases
                    (TimedDrop.current_minutes d + 1) k w d E) as [[_ H']|[_ H']];
          rewrite H in H'; [|discriminate].
        injection H' as ->. now apply minutes_fresh_minutes_set.
      * now injection H as <-.
    + unfold TimedDrop_bump_minutes, bind, get_drop in H. rewrite E in H. discriminate.
Qed.

Lemma init_drop_built data k d :
  dict_get (drops (init data)) k = Some d -> exists x, d = TimedDrop_init x.
Proof.
  unfold drops, init. simpl. unfold timed_drops_of. rewrite timed_drops_fold_get.
  destruct (last_with_id (cdata_timeBasedDrops data) k) as [x|]; [|discriminate].
  intros [= <-]. eauto.
Qed.

Lemma init_minutes_fresh data : minutes_fresh (init data).
Proof.
  repeat split.
  - intros k d v E Es. apply init_drop_built in E. destruct E as [x ->]. discriminate.
  - intros k d v E Es. apply init_drop_built in E. destruct E as [x ->]. discriminate.
  - intros v. discriminate.
  - intros v. discriminate.
Qed.

Lemma run_minutes_fresh cs :
  forall w w',
    claim_free cs = true ->
    minutes_fresh w ->
    run cs w = (Ok tt, w') ->
    minutes_fresh w'.
Proof.
  induction cs as [|c cs IH]; intros w w' Hc Hf H; simpl in *.
  - now injection H as <-.
  - apply andb_prop in Hc. destruct Hc as [Hc Hcs].
    apply bind_ok_inv in H. destruct H as ([] & w1 & H1 & H).
    apply (IH w1); auto. apply (exec_minutes_fresh c w); auto.
    now destruct (is_claim c).
Qed.

Lemma sum_remaining_returns ks :
  forall acc w,
    (forall k, In k ks -> In k (dict_keys (drops w))) ->
    exists v w', sum_int ks TimedDrop_remaining_minutes acc w = (Ok v, w').
Proof.
  induction ks as [|k ks IH]; intros acc w Hin; simpl; [unfold ret; eauto|].
  destruct (dict_in_keys_get (drops w) k) as [d E]; [apply Hin; now left|].
  assert (Hk : maintains (same_keys w) (TimedDrop_remaining_minutes k))
    by (unfold_ops; maintain).
  specialize (Hk w eq_refl).
  assert (H1 : exists v0 w1, TimedDrop_remaining_minutes k w = (Ok v0, w1)).
  { rewrite (TimedDrop_remaining_minutes_eq _ _ _ E).
    destruct (TimedDrop.remaining_minutes d); eauto. }
  destruct H1 as (v0 & w1 & H1). rewrite H1 in Hk. simpl in Hk.
  rewrite (bind_eq _ _ _ _ _ H1). apply IH.
  intros k' i. rewrite Hk. apply Hin. now right.
Qed.

(** X13: along a run of calls that all return and of which none is a
    [claim], no minute cache goes stale: every read of a drop's
    [remaining_minutes] or [progress] gives what its current and required
    minutes give now, the campaign's [remaining_minutes] is the sum of
    [required - current] over its drops, and a [progress] the campaign
    returns is the mean computed from the current minutes. *)
Theorem minute_caches_fresh_without_claims :
  forall (data : CampaignData) (cs : list call) (w : World),
    claim_free cs = true ->
    run cs (init data) = (Ok tt, w) ->
    (forall k d,
       dict_get (drops w) k = Some d ->
       fst (TimedDrop_remaining_minutes k w) =
         Ok (TimedDrop.required_minutes d - TimedDrop.current_minutes d) /\
       fst (TimedDrop_progress k w) =
         py_truediv (PyInt (TimedDrop.current_minutes d))
                    (PyInt (TimedDrop.required_minutes d))) /\
    fst (DropsCampaign_remaining_minutes w) =
      Ok (sum_over (drops w)
            (fun d => TimedDrop.required_minutes d - TimedDrop.current_minutes d)
            (dict_keys (drops w))) /\
    (forall v, fst (DropsCampaign_progress w) = Ok v ->
               campaign_progress_of (drops w) = Ok v).
Proof.
  intros data cs w Hc Hrun.
  assert (Hf : minutes_fresh w).
  { apply (run_minutes_fresh cs (init data)); auto using init_minutes_fresh. }
  repeat apply conj.
  - intros k d E. destruct Hf as (F1 & F2 & _). split.
    + rewrite (TimedDrop_remaining_minutes_eq _ _ _ E).
      destruct (TimedDrop.remaining_minutes d) as [v|] eqn:Es; [|reflexivity].
      simpl. now rewrite (F1 k d v E Es).
    + rewrite (TimedDrop_progress_eq _ _ _ E).
      destruct (TimedDrop.progress d) as [v|] eqn:Es.
      * simpl. symmetry. apply (F2 k d v E Es).
      * now destruct (py_truediv (PyInt (TimedDrop.current_minutes d))
                                 (PyInt (TimedDrop.required_minutes d))).
  - assert (Hret : exists v w', DropsCampaign_remaining_minutes w = (Ok v, w')).
    { unfold DropsCampaign_remaining_minutes, bind at 1, get_campaign.
      destruct (DropsCampaign.remaining_minutes (campaign w)); [unfold ret; eauto|].
      fold (drops w).
      destruct (sum_remaining_returns (dict_keys (drops w)) 0 w (fun k i => i))
        as (v & w1 & H1).
      rewrite (bind_eq _ _ _ _ _ H1). unfold bind, modify_campaign, ret. eauto. }
    destruct Hret as (v & w' & Hret).
    destruct (campaign_remaining_read_spec _ _ _ Hf Hret) as [-> _].
    now rewrite Hret.
  - intros v Hv.
    destruct (DropsCampaign_progress w) as [r w'] eqn:Hp. simpl in Hv. subst r.
    apply (campaign_progress_read_spec _ _ _ Hf Hp).
Qed.

Lemma minute_caches_fresh_without_claims_witness :
  fst (TimedDrop_remaining_minutes "b" (snd (run two_units_watching (init two_units_data))))
  = Ok (TimedDrop.required_minutes
          (drop_at (snd (run two_units_watching (init two_units_data))) "b")
        - TimedDrop.current_minutes
          (drop_at (snd (run two_units_watching (init two_units_data))) "b")).
Proof.
  assert (Hrun : run two_units_watching (init two_units_data) =
                 (Ok tt, snd (run two_units_watching (init two_units_data))))
    by (vm_compute; reflexivity).
  destruct (minute_caches_fresh_without_claims two_units_data two_units_watching _
              eq_refl Hrun) as (H & _).
  apply (H "b"). vm_compute. reflexivity.
Defined.
